(** * Whatsapp-web.pyy: the handshake, key derivation and cipher core

    A shallow embedding of the Python modules

      - [whatsapp_web_py/crypto/hkdf.py]        (class [HKDF])
      - [whatsapp_web_py/crypto/aes.py]         (class [AESCipher])
      - [whatsapp_web_py/crypto/curve.py]       (class [Curve25519])
      - [whatsapp_web_py/auth/qr_auth.py]       (class [QRAuth])
      - [whatsapp_web_py/client.py]             (class [WhatsAppClient])
      - [whatsapp_web_py/websocket/handler.py]  (the methods of
        [WebSocketHandler], as far as the client calls them)

    Python [bytes] are lists of [byte], Python [int] is [Z], [str] is
    [string], a [dict] with string keys is a [gmap string _].  A call that
    may raise returns a [result]: [Ok v] for a normal return, [Raise e] for
    an exception.  The library primitives the code calls ([hashlib.sha256],
    [hmac], [base64], and the [cryptography] package's AES in the CBC, CTR
    and GCM modes, PKCS7 and X25519) are modelled after the standards they
    implement (FIPS 180-4, RFC 2104, RFC 4648, FIPS 197, SP 800-38A,
    SP 800-38D, RFC 5652, RFC 7748) and are checked against the published
    test vectors below.  The text of an exception message that names a
    number is given without the number. *)

From stdpp Require Import gmap strings list.
From Stdlib Require Import ZArith NArith Lia Bool.
From Stdlib.Strings Require Import Byte Ascii.
From Bignums Require Import BigZ.

Set Warnings "-register-all".

(** ** Python values and exceptions *)

Abbreviation bytes := (list byte).

(** The exception classes the modelled code raises or receives from its
    libraries, with the message text where the code gives one. *)
Inductive exn : Type :=
| ValueError (msg : string)
| TypeError (msg : string)
| KeyError (msg : string)
| AttributeError (msg : string)
| BinasciiError (msg : string)
| Exception (msg : string).

Inductive result (A : Type) : Type :=
| Ok (a : A)
| Raise (e : exn).
Arguments Ok {A} a.
Arguments Raise {A} e.

Definition rbind {A B : Type} (m : result A) (k : A → result B) : result B :=
  match m with
  | Ok a => k a
  | Raise e => Raise e
  end.

Notation "'do' x <- m ; k" := (rbind m (fun x => k))
  (at level 10, x pattern, m at level 100, k at level 200).

(** [try: ... except Exception: return d] *)
Definition catch_default {A : Type} (m : result A) (d : A) : A :=
  match m with
  | Ok a => a
  | Raise _ => d
  end.

Definition is_ok {A : Type} (m : result A) : bool :=
  match m with
  | Ok _ => true
  | Raise _ => false
  end.

(** ** Bytes *)

#[global] Instance byte_eq_decision : EqDecision byte := Byte.byte_eq_dec.

Definition byte_of_N (n : N) : byte :=
  match Byte.of_N (n mod 256) with
  | Some b => b
  | None => x00
  end.

Definition byte_of_nat (n : nat) : byte := byte_of_N (N.of_nat n).

Definition bxor (a b : byte) : byte :=
  byte_of_N (N.lxor (Byte.to_N a) (Byte.to_N b)).

(** Bytewise xor of two byte strings, truncated to the shorter one. *)
Fixpoint xor_bytes (a b : bytes) : bytes :=
  match a, b with
  | x :: a', y :: b' => bxor x y :: xor_bytes a' b'
  | _, _ => []
  end.

Definition band (a b : byte) : byte :=
  byte_of_N (N.land (Byte.to_N a) (Byte.to_N b)).

Definition bor (a b : byte) : byte :=
  byte_of_N (N.lor (Byte.to_N a) (Byte.to_N b)).

(** A bytes literal [b'...'] of ASCII characters. *)
Definition bytes_of_string (s : string) : bytes :=
  map byte_of_ascii (String.list_ascii_of_string s).

(** [bytes([i])]: a ValueError unless [0 <= i < 256]. *)
Definition bytes_of_int (i : Z) : result bytes :=
  if bool_decide (0 ≤ i < 256)%Z
  then Ok [byte_of_N (Z.to_N i)]
  else Raise (ValueError "bytes must be in range(0, 256)").

(** Slices [b[i:j]], [b[:j]] and [b[i:]] for non-negative constant
    bounds: Python clips them to the length, as [take] and [drop] do. *)
Definition slice (i j : nat) (b : bytes) : bytes := take (j - i) (drop i b).

(** Cut a list into consecutive pieces of [n] elements (the last one may
    be shorter). *)
Fixpoint chunks_fuel {A : Type} (fuel n : nat) (l : list A) : list (list A) :=
  match fuel with
  | O => []
  | S fuel' =>
      match l with
      | [] => []
      | _ => take n l :: chunks_fuel fuel' n (drop n l)
      end
  end.

Definition chunks {A : Type} (n : nat) (l : list A) : list (list A) :=
  chunks_fuel (length l) n l.

(** Big-endian encoding of [n] on [k] bytes. *)
Fixpoint be_bytes (k : nat) (n : N) : bytes :=
  match k with
  | O => []
  | S k' => byte_of_N (N.shiftr n (8 * N.of_nat k')) :: be_bytes k' n
  end.

Definition be_value (b : bytes) : N :=
  fold_left (fun acc x => (acc * 256 + Byte.to_N x)%N) b 0%N.

(** ** Hexadecimal text: [bytes.fromhex] and [bytes.hex] *)

Definition hex_digit_value (c : ascii) : option N :=
  let n := N_of_ascii c in
  if ((48 <=? n) && (n <=? 57))%N then Some (n - 48)%N
  else if ((97 <=? n) && (n <=? 102))%N then Some (n - 87)%N
  else if ((65 <=? n) && (n <=? 70))%N then Some (n - 55)%N
  else None.

(** [Py_ISSPACE]: space, tab, line feed, vertical tab, form feed, carriage
    return. *)
Definition py_isspace (c : ascii) : bool :=
  let n := N_of_ascii c in
  ((n =? 32) || ((9 <=? n) && (n <=? 13)))%N.

(** [bytes.fromhex(s)]: pairs of hexadecimal digits, white space allowed
    between the pairs, a ValueError on anything else. *)
Fixpoint fromhex (s : string) : result bytes :=
  match s with
  | EmptyString => Ok []
  | String c s' =>
      if py_isspace c then fromhex s'
      else
        match hex_digit_value c, s' with
        | Some top, String c' s'' =>
            match hex_digit_value c' with
            | Some bot =>
                do rest <- fromhex s'';
                Ok (byte_of_N (top * 16 + bot) :: rest)
            | None => Raise (ValueError "non-hexadecimal number found in fromhex() arg")
            end
        | _, _ => Raise (ValueError "non-hexadecimal number found in fromhex() arg")
        end
  end.

Definition hex_digit (n : N) : ascii :=
  if (n <? 10)%N then ascii_of_N (48 + n) else ascii_of_N (87 + n).

(** [b.hex()] *)
Fixpoint hex (b : bytes) : string :=
  match b with
  | [] => EmptyString
  | x :: b' =>
      String (hex_digit (Byte.to_N x / 16))
        (String (hex_digit (Byte.to_N x mod 16)) (hex b'))
  end.

(** A byte literal written in hexadecimal; the empty string on a
    malformed literal. *)
Definition unhex (s : string) : bytes := catch_default (fromhex s) [].

(** ** hashlib.sha256 (FIPS 180-4) *)

Module SHA256.

Local Open Scope N_scope.

Definition mask32 : N := 0xFFFFFFFF.
Definition add32 (x y : N) : N := N.land (x + y) mask32.
Definition rotr (n x : N) : N :=
  N.lor (N.shiftr x n) (N.land (N.shiftl x (32 - n)) mask32).
Definition shr (n x : N) : N := N.shiftr x n.
Definition not32 (x : N) : N := N.lxor x mask32.

Definition Ch (x y z : N) : N := N.lxor (N.land x y) (N.land (not32 x) z).
Definition Maj (x y z : N) : N :=
  N.lxor (N.lxor (N.land x y) (N.land x z)) (N.land y z).
Definition Sigma0 (x : N) : N := N.lxor (N.lxor (rotr 2 x) (rotr 13 x)) (rotr 22 x).
Definition Sigma1 (x : N) : N := N.lxor (N.lxor (rotr 6 x) (rotr 11 x)) (rotr 25 x).
Definition sigma0 (x : N) : N := N.lxor (N.lxor (rotr 7 x) (rotr 18 x)) (shr 3 x).
Definition sigma1 (x : N) : N := N.lxor (N.lxor (rotr 17 x) (rotr 19 x)) (shr 10 x).

(** The round constants (4.2.2), as the hexadecimal dump of the table:
    sixty-four words of four bytes. *)
Definition K : list N := Eval vm_compute in
  map be_value (chunks 4 (unhex
    ("428a2f9871374491b5c0fbcfe9b5dba53956c25b59f111f1923f82a4ab1c5ed5" ++
     "d807aa9812835b01243185be550c7dc372be5d7480deb1fe9bdc06a7c19bf174" ++
     "e49b69c1efbe47860fc19dc6240ca1cc2de92c6f4a7484aa5cb0a9dc76f988da" ++
     "983e5152a831c66db00327c8bf597fc7c6e00bf3d5a7914706ca635114292967" ++
     "27b70a852e1b21384d2c6dfc53380d13650a7354766a0abb81c2c92e92722c85" ++
     "a2bfe8a1a81a664bc24b8b70c76c51a3d192e819d6990624f40e3585106aa070" ++
     "19a4c1161e376c082748774c34b0bcb5391c0cb34ed8aa4a5b9cca4f682e6ff3" ++
     "748f82ee78a5636f84c878148cc7020890befffaa4506cebbef9a3f7c67178f2")%string)).

(** The eight working variables, and the running hash value. *)
Record state : Type := State {
  sa : N; sb : N; sc : N; sd : N; se : N; sf : N; sg : N; sh : N
}.

Definition H0 : state :=
  State 0x6a09e667 0xbb67ae85 0x3c6ef372 0xa54ff53a
        0x510e527f 0x9b05688c 0x1f83d9ab 0x5be0cd19.

(** Padding (5.1.1): a one bit, zeros up to 56 mod 64, then the bit
    length on eight bytes. *)
Definition pad (msg : bytes) : bytes :=
  let l := N.of_nat (length msg) in
  let k := N.to_nat ((55 + 64 - l mod 64) mod 64) in
  msg ++ [x80] ++ replicate k x00 ++ be_bytes 8 (8 * l).

(** The sixteen big-endian words of a 64-byte block. *)
Definition block_words (blk : bytes) : list N := map be_value (chunks 4 blk).

(** Message schedule (6.2.2 step 1): [win] holds W(t-16) .. W(t-1). *)
Definition next_w (win : list N) : N :=
  add32 (add32 (add32 (sigma1 (nth 14 win 0)) (nth 9 win 0))
               (sigma0 (nth 1 win 0)))
        (nth 0 win 0).

Fixpoint schedule (n : nat) (win : list N) : list N :=
  match n with
  | O => []
  | S n' => let w := next_w win in w :: schedule n' (drop 1 win ++ [w])
  end.

Definition message_schedule (blk : bytes) : list N :=
  let w16 := block_words blk in
  w16 ++ schedule 48 w16.

(** One round (6.2.2 step 3). *)
Definition round (s : state) (kw : N * N) : state :=
  let '(k, w) := kw in
  let t1 := add32 (add32 (add32 (add32 (sh s) (Sigma1 (se s)))
                                (Ch (se s) (sf s) (sg s))) k) w in
  let t2 := add32 (Sigma0 (sa s)) (Maj (sa s) (sb s) (sc s)) in
  State (add32 t1 t2) (sa s) (sb s) (sc s) (add32 (sd s) t1) (se s) (sf s) (sg s).

Definition add_state (s t : state) : state :=
  State (add32 (sa s) (sa t)) (add32 (sb s) (sb t)) (add32 (sc s) (sc t))
        (add32 (sd s) (sd t)) (add32 (se s) (se t)) (add32 (sf s) (sf t))
        (add32 (sg s) (sg t)) (add32 (sh s) (sh t)).

Definition compress (h : state) (blk : bytes) : state :=
  add_state h (fold_left round (combine K (message_schedule blk)) h).

Definition state_bytes (s : state) : bytes :=
  be_bytes 4 (sa s) ++ be_bytes 4 (sb s) ++ be_bytes 4 (sc s) ++ be_bytes 4 (sd s) ++
  be_bytes 4 (se s) ++ be_bytes 4 (sf s) ++ be_bytes 4 (sg s) ++ be_bytes 4 (sh s).

(** [hashlib.sha256(msg).digest()] *)
Definition sha256 (msg : bytes) : bytes :=
  state_bytes (fold_left compress (chunks 64 (pad msg)) H0).

End SHA256.

(** ** The [hashlib] constructor interface and [hmac] (RFC 2104) *)

(** What the code uses of a [hashlib] hash constructor [h]: the digest of
    a message, [h().digest_size] and [h().block_size]. *)
Record HashFunc : Type := {
  digest : bytes → bytes;
  digest_size : nat;
  block_size : nat
}.

Definition hashlib_sha256 : HashFunc :=
  {| digest := SHA256.sha256; digest_size := 32; block_size := 64 |}.

Module hmac.

(** [hmac.new(key, msg, digestmod).digest()]: a key longer than the block
    is hashed first, then padded with zero bytes to the block size. *)
Definition block_key (h : HashFunc) (key : bytes) : bytes :=
  let key := if bool_decide (block_size h < length key) then digest h key else key in
  key ++ replicate (block_size h - length key) x00.

Definition new_digest (h : HashFunc) (key msg : bytes) : bytes :=
  let k0 := block_key h key in
  let inner := digest h (map (bxor x36) k0 ++ msg) in
  digest h (map (bxor x5c) k0 ++ inner).

(** [hmac.compare_digest(a, b)] on two byte strings: equality (the
    running time is not modelled). *)
Definition compare_digest (a b : bytes) : bool := bool_decide (a = b).

End hmac.

(** ** crypto/hkdf.py: class HKDF *)

Module HKDF.

Local Open Scope Z_scope.

(** The object built by [HKDF(hash_func)]; [hash_len] is
    [hash_func().digest_size]. *)
Record t : Type := { hash_func : HashFunc }.

Definition hash_len (self : t) : Z := Z.of_nat (digest_size (hash_func self)).

(** [HKDF()]: the default argument is [hashlib.sha256]. *)
Definition new : t := {| hash_func := hashlib_sha256 |}.

(** [HKDF.extract] (hkdf.py lines 34-56). *)
Definition extract (self : t) (ikm : bytes) (salt : option bytes) : bytes :=
  let salt :=
    match salt with
    | None => replicate (Z.to_nat (hash_len self)) x00
    | Some s => s
    end in
  hmac.new_digest (hash_func self) salt ikm.

(** The body of the [for i in range(1, n + 1)] loop of [HKDF.expand],
    over the values of [i] still to come. *)
Fixpoint expand_loop (self : t) (prk info : bytes) (range : list Z)
    (okm previous : bytes) : result bytes :=
  match range with
  | [] => Ok okm
  | i :: range' =>
      do bi <- bytes_of_int i;
      let data := previous ++ info ++ bi in
      let current := hmac.new_digest (hash_func self) prk data in
      expand_loop self prk info range' (okm ++ current) current
  end.

(** [range(1, n + 1)] *)
Definition range1 (n : Z) : list Z := map Z.of_nat (seq 1 (Z.to_nat n)).

(** [HKDF.expand] (hkdf.py lines 58-99).  The [except] clause logs and
    re-raises. *)
Definition expand (self : t) (prk : bytes) (len : Z) (info : option bytes)
    : result bytes :=
  let info := match info with None => [] | Some i => i end in
  if bool_decide (len ≤ 0) then Raise (ValueError "Length must be positive")
  else if bool_decide (len > 255 * hash_len self)
  then Raise (ValueError "Length too large for HKDF")
  else
    let n := (len + hash_len self - 1) `div` hash_len self in
    do okm <- expand_loop self prk info (range1 n) [] [];
    Ok (take (Z.to_nat len) okm).

(** [HKDF.derive] (hkdf.py lines 101-125). *)
Definition derive (self : t) (ikm : bytes) (len : Z)
    (salt info : option bytes) : result bytes :=
  let prk := extract self ikm salt in
  expand self prk len info.

(** [HKDF.derive_whatsapp_keys] (hkdf.py lines 127-154); [salt] is
    [b''] when the caller gives none. *)
Definition derive_whatsapp_keys (shared_secret salt : bytes) : result (bytes * bytes) :=
  let hkdf := new in
  do derived_material <- derive hkdf shared_secret 64 (Some salt) None;
  let encryption_key := take 32 derived_material in
  let mac_key := drop 32 derived_material in
  Ok (encryption_key, mac_key).

(** [HKDF.derive_session_keys] (hkdf.py lines 156-189). *)
Definition derive_session_keys (master_secret handshake_hash : bytes)
    : result (bytes * bytes * bytes * bytes) :=
  let hkdf := new in
  do session_material <- derive hkdf master_secret 128 None (Some handshake_hash);
  let send_key := take 32 session_material in
  let recv_key := slice 32 64 session_material in
  let send_mac_key := slice 64 96 session_material in
  let recv_mac_key := slice 96 128 session_material in
  Ok (send_key, recv_key, send_mac_key, recv_mac_key).

(** [HKDF.derive_media_keys] (hkdf.py lines 191-222). *)
Definition derive_media_keys (media_key : bytes) : result (bytes * bytes * bytes) :=
  let hkdf := new in
  do iv <- derive hkdf media_key 16 None (Some (bytes_of_string "WhatsApp Media Keys"));
  let iv := take 16 iv in
  do cipher_key <-
    derive hkdf media_key 32 None (Some (bytes_of_string "WhatsApp Cipher Keys"));
  do mac_key <-
    derive hkdf media_key 32 None (Some (bytes_of_string "WhatsApp MAC Keys"));
  Ok (iv, cipher_key, mac_key).

(** [HKDF.verify_implementation] (hkdf.py lines 224-251): RFC 5869 test
    case 1. *)
Definition rfc5869_ikm : bytes := unhex "0b0b0b0b0b0b0b0b0b0b0b0b0b0b0b0b0b0b0b0b0b0b".
Definition rfc5869_salt : bytes := unhex "000102030405060708090a0b0c".
Definition rfc5869_info : bytes := unhex "f0f1f2f3f4f5f6f7f8f9".
Definition rfc5869_okm : bytes :=
  unhex ("3cb25f25faacd57a90434f64d0362f2a" ++
         "2d2d0a90cf1a5a4c5db02d56ecc4c5bf" ++
         "34007208d5b887185865").

Definition verify_implementation (self : t) : bool :=
  match derive self rfc5869_ikm 42 (Some rfc5869_salt) (Some rfc5869_info) with
  | Ok derived_okm => bool_decide (derived_okm = rfc5869_okm)
  | Raise _ => false
  end.

End HKDF.

(** ** The AES block cipher (FIPS 197), as [cryptography]'s
    [algorithms.AES] computes it *)

Module AES.

(** A column of the state is four bytes, the state four columns. *)
Definition col : Type := byte * byte * byte * byte.
Definition state : Type := col * col * col * col.

Definition sbox_table : bytes := Eval vm_compute in unhex
    ("637c777bf26b6fc53001672bfed7ab76ca82c97dfa5947f0add4a2af9ca472c0" ++
     "b7fd9326363ff7cc34a5e5f171d8311504c723c31896059a071280e2eb27b275" ++
     "09832c1a1b6e5aa0523bd6b329e32f8453d100ed20fcb15b6acbbe394a4c58cf" ++
     "d0efaafb434d338545f9027f503c9fa851a3408f929d38f5bcb6da2110fff3d2" ++
     "cd0c13ec5f974417c4a77e3d645d197360814fdc222a908846eeb814de5e0bdb" ++
     "e0323a0a4906245cc2d3ac629195e479e7c8376d8dd54ea96c56f4ea657aae08" ++
     "ba78252e1ca6b4c6e8dd741f4bbd8b8a703eb5664803f60e613557b986c11d9e" ++
     "e1f8981169d98e949b1e87e9ce5528df8ca1890dbfe6426841992d0fb054bb16").

Definition inv_sbox_table : bytes := Eval vm_compute in unhex
    ("52096ad53036a538bf40a39e81f3d7fb7ce339829b2fff87348e4344c4dee9cb" ++
     "547b9432a6c2233dee4c950b42fac34e082ea16628d924b2765ba2496d8bd125" ++
     "72f8f66486689816d4a45ccc5d65b6926c704850fdedb9da5e154657a78d9d84" ++
     "90d8ab008cbcd30af7e45805b8b34506d02c1e8fca3f0f02c1afbd0301138a6b" ++
     "3a9111414f67dcea97f2cfcef0b4e67396ac7422e7ad3585e2f937e81c75df6e" ++
     "47f11a711d29c5896fb7620eaa18be1bfc563e4bc6d279209adbc0fe78cd5af4" ++
     "1fdda8338807c731b11210592780ec5f60517fa919b54a0d2de57a9f93c99cef" ++
     "a0e03b4dae2af5b0c8ebbb3c83539961172b047eba77d626e169146355210c7d").

Definition sbox (b : byte) : byte := nth (Byte.to_nat b) sbox_table x00.
Definition inv_sbox (b : byte) : byte := nth (Byte.to_nat b) inv_sbox_table x00.

(** Multiplication by x in GF(2^8) modulo x^8 + x^4 + x^3 + x + 1. *)
Definition xtime (b : byte) : byte :=
  let n := (2 * Byte.to_N b)%N in
  byte_of_N (if (n <? 256)%N then n else N.lxor n 0x11b).

Definition mul2 (b : byte) : byte := xtime b.
Definition mul3 (b : byte) : byte := bxor (xtime b) b.
Definition mul9 (b : byte) : byte := bxor (xtime (xtime (xtime b))) b.
Definition mul11 (b : byte) : byte :=
  bxor (bxor (xtime (xtime (xtime b))) (xtime b)) b.
Definition mul13 (b : byte) : byte :=
  bxor (bxor (xtime (xtime (xtime b))) (xtime (xtime b))) b.
Definition mul14 (b : byte) : byte :=
  bxor (bxor (xtime (xtime (xtime b))) (xtime (xtime b))) (xtime b).

Definition map_col (f : byte → byte) (c : col) : col :=
  let '(a, b, c, d) := c in (f a, f b, f c, f d).

Definition map_state (f : col → col) (s : state) : state :=
  let '(c0, c1, c2, c3) := s in (f c0, f c1, f c2, f c3).

Definition xor_col (x y : col) : col :=
  let '(a, b, c, d) := x in
  let '(a', b', c', d') := y in
  (bxor a a', bxor b b', bxor c c', bxor d d').

Definition add_round_key (k s : state) : state :=
  let '(k0, k1, k2, k3) := k in
  let '(c0, c1, c2, c3) := s in
  (xor_col c0 k0, xor_col c1 k1, xor_col c2 k2, xor_col c3 k3).

Definition sub_bytes (s : state) : state := map_state (map_col sbox) s.
Definition inv_sub_bytes (s : state) : state := map_state (map_col inv_sbox) s.

(** Row r of the state is rotated left by r columns. *)
Definition shift_rows (s : state) : state :=
  let '((a0, a1, a2, a3), (b0, b1, b2, b3), (c0, c1, c2, c3), (d0, d1, d2, d3)) := s in
  ((a0, b1, c2, d3), (b0, c1, d2, a3), (c0, d1, a2, b3), (d0, a1, b2, c3)).

Definition inv_shift_rows (s : state) : state :=
  let '((a0, a1, a2, a3), (b0, b1, b2, b3), (c0, c1, c2, c3), (d0, d1, d2, d3)) := s in
  ((a0, d1, c2, b3), (b0, a1, d2, c3), (c0, b1, a2, d3), (d0, c1, b2, a3)).

Definition xor4 (a b c d : byte) : byte := bxor (bxor (bxor a b) c) d.

Definition mix_column (x : col) : col :=
  let '(a, b, c, d) := x in
  (xor4 (mul2 a) (mul3 b) c d,
   xor4 a (mul2 b) (mul3 c) d,
   xor4 a b (mul2 c) (mul3 d),
   xor4 (mul3 a) b c (mul2 d)).

Definition inv_mix_column (x : col) : col :=
  let '(a, b, c, d) := x in
  (xor4 (mul14 a) (mul11 b) (mul13 c) (mul9 d),
   xor4 (mul9 a) (mul14 b) (mul11 c) (mul13 d),
   xor4 (mul13 a) (mul9 b) (mul14 c) (mul11 d),
   xor4 (mul11 a) (mul13 b) (mul9 c) (mul14 d)).

Definition mix_columns (s : state) : state := map_state mix_column s.
Definition inv_mix_columns (s : state) : state := map_state inv_mix_column s.

(** The rounds after the initial key addition, over the round keys still
    to be used; the last round has no MixColumns. *)
Fixpoint rounds (ks : list state) (s : state) : state :=
  match ks with
  | [] => s
  | k :: ks' =>
      match ks' with
      | [] => add_round_key k (shift_rows (sub_bytes s))
      | _ => rounds ks' (add_round_key k (mix_columns (shift_rows (sub_bytes s))))
      end
  end.

Definition cipher (ks : list state) (s : state) : state :=
  match ks with
  | [] => s
  | k0 :: ks' => rounds ks' (add_round_key k0 s)
  end.

(** The inverse cipher (FIPS 197, 5.3) with the same round keys. *)
Fixpoint inv_rounds (ks : list state) (s : state) : state :=
  match ks with
  | [] => s
  | k :: ks' =>
      match ks' with
      | [] => inv_sub_bytes (inv_shift_rows (add_round_key k s))
      | _ => inv_sub_bytes (inv_shift_rows (inv_mix_columns
               (add_round_key k (inv_rounds ks' s))))
      end
  end.

Definition inv_cipher (ks : list state) (s : state) : state :=
  match ks with
  | [] => s
  | k0 :: ks' => add_round_key k0 (inv_rounds ks' s)
  end.

(** Key expansion (FIPS 197, 5.2), on words of four bytes. *)
Definition zero_col : col := (x00, x00, x00, x00).
Definition rot_word (w : col) : col := let '(a, b, c, d) := w in (b, c, d, a).
Definition sub_word (w : col) : col := map_col sbox w.

Fixpoint rcon_byte (j : nat) : byte :=
  match j with
  | O => x01
  | S j' => xtime (rcon_byte j')
  end.

Definition rcon (j : nat) : col := (rcon_byte (j - 1), x00, x00, x00).

Definition col_of_bytes (b : bytes) : col :=
  (nth 0 b x00, nth 1 b x00, nth 2 b x00, nth 3 b x00).

Definition bytes_of_col (c : col) : bytes := let '(a, b, c, d) := c in [a; b; c; d].

(** [w] holds the words computed so far, [i] is their number. *)
Fixpoint expand_words (fuel nk i : nat) (w : list col) : list col :=
  match fuel with
  | O => w
  | S fuel' =>
      let temp := nth (i - 1) w zero_col in
      let temp :=
        if bool_decide (i `mod` nk = 0)%nat
        then xor_col (sub_word (rot_word temp)) (rcon (i `div` nk))
        else if bool_decide (6 < nk ∧ i `mod` nk = 4)%nat
        then sub_word temp
        else temp in
      expand_words fuel' nk (S i) (w ++ [xor_col (nth (i - nk) w zero_col) temp])
  end.

Definition state_of_cols (w : list col) : state :=
  (nth 0 w zero_col, nth 1 w zero_col, nth 2 w zero_col, nth 3 w zero_col).

(** The round keys of a key of 4, 6 or 8 words: 11, 13 or 15 of them. *)
Definition key_expansion (key : bytes) : list state :=
  let nk := (length key `div` 4)%nat in
  let w0 := map col_of_bytes (chunks 4 key) in
  let w := expand_words (4 * (nk + 7) - nk) nk nk w0 in
  map state_of_cols (chunks 4 w).

Definition state_of_block (b : bytes) : state :=
  (col_of_bytes (take 4 b), col_of_bytes (take 4 (drop 4 b)),
   col_of_bytes (take 4 (drop 8 b)), col_of_bytes (take 4 (drop 12 b))).

Definition block_of_state (s : state) : bytes :=
  let '(c0, c1, c2, c3) := s in
  bytes_of_col c0 ++ bytes_of_col c1 ++ bytes_of_col c2 ++ bytes_of_col c3.

Definition encrypt_block (ks : list state) (b : bytes) : bytes :=
  block_of_state (cipher ks (state_of_block b)).

Definition decrypt_block (ks : list state) (b : bytes) : bytes :=
  block_of_state (inv_cipher ks (state_of_block b)).

End AES.

(** ** X25519 (RFC 7748), as [cryptography]'s [X25519PrivateKey] and
    [X25519PublicKey] compute it *)

Module X25519.

Local Open Scope bigZ_scope.

(** The field is the integers modulo p = 2^255 - 19; its elements are
    kept as [bigZ] so that the ladder can be run. *)
Definition p : bigZ := 2 ^ 255 - 19.
Definition a24 : bigZ := 121665.

Definition le_value (b : bytes) : Z :=
  fold_right (fun x acc => (Z.of_N (Byte.to_N x) + 256 * acc)%Z) 0%Z b.

Fixpoint le_bytes (k : nat) (n : Z) : bytes :=
  match k with
  | O => []
  | S k' => byte_of_N (Z.to_N (n `mod` 256)) :: le_bytes k' (n `div` 256)%Z
  end.

(** decodeScalar25519: clear the three low bits and bit 255, set bit 254. *)
Definition decode_scalar (k : bytes) : Z :=
  Z.lor (Z.land (le_value k) (2 ^ 255 - 8)) (2 ^ 254).

(** decodeUCoordinate: the top bit of the last byte is masked. *)
Definition decode_u (u : bytes) : Z := Z.land (le_value u) (2 ^ 255 - 1).

Fixpoint pow_mod (b : bigZ) (e : positive) : bigZ :=
  match e with
  | xH => b mod p
  | xO e' => let r := pow_mod b e' in (r * r) mod p
  | xI e' => let r := pow_mod b e' in ((r * r) mod p * b) mod p
  end.

Record ladder : Type :=
  Ladder { x2 : bigZ; z2 : bigZ; x3 : bigZ; z3 : bigZ; swap : bool }.

Definition cswap (c : bool) (a b : bigZ) : bigZ * bigZ :=
  if c then (b, a) else (a, b).

(** One step of the Montgomery ladder of RFC 7748, section 5. *)
Definition ladder_step (k : Z) (x1 : bigZ) (l : ladder) (t : Z) : ladder :=
  let kt := Z.testbit k t in
  let sw := xorb (swap l) kt in
  let '(x2, x3) := cswap sw (x2 l) (x3 l) in
  let '(z2, z3) := cswap sw (z2 l) (z3 l) in
  let A := (x2 + z2) mod p in
  let AA := (A * A) mod p in
  let B := (x2 - z2) mod p in
  let BB := (B * B) mod p in
  let E := (AA - BB) mod p in
  let C := (x3 + z3) mod p in
  let D := (x3 - z3) mod p in
  let DA := (D * A) mod p in
  let CB := (C * B) mod p in
  Ladder ((AA * BB) mod p)
         ((E * ((AA + a24 * E) mod p)) mod p)
         (((DA + CB) * (DA + CB)) mod p)
         ((x1 * (((DA - CB) * (DA - CB)) mod p)) mod p)
         kt.

(** The bit positions 254, 253, ..., 0. *)
Definition bit_positions : list Z := map Z.of_nat (rev (seq 0 255)).

Definition scalarmult (k u : bytes) : bytes :=
  let x1 := BigZ.of_Z (decode_u u) in
  let l := fold_left (ladder_step (decode_scalar k) x1) bit_positions
             (Ladder 1 0 x1 1 false) in
  let '(x2, _) := cswap (swap l) (x2 l) (x3 l) in
  let '(z2, _) := cswap (swap l) (z2 l) (z3 l) in
  le_bytes 32 (BigZ.to_Z ((x2 * pow_mod z2 (Z.to_pos (2 ^ 255 - 21))) mod p)).

Definition base_point : bytes := x09 :: replicate 31 x00.

(** [X25519PrivateKey.from_private_bytes(data)] *)
Definition from_private_bytes (data : bytes) : result bytes :=
  if bool_decide (length data = 32%nat) then Ok data
  else Raise (ValueError "An X25519 private key is 32 bytes long").

(** [X25519PublicKey.from_public_bytes(data)] *)
Definition from_public_bytes (data : bytes) : result bytes :=
  if bool_decide (length data = 32%nat) then Ok data
  else Raise (ValueError "An X25519 public key is 32 bytes long").

(** [private_key.public_key()] followed by [public_bytes(Raw, Raw)] *)
Definition public_key (priv : bytes) : bytes := scalarmult priv base_point.

(** [private_key.exchange(peer_public_key)]: the all-zero output of a
    low-order point is refused. *)
Definition exchange (priv pub : bytes) : result bytes :=
  let secret := scalarmult priv pub in
  if bool_decide (secret = replicate 32 x00)
  then Raise (ValueError "Error computing shared key.")
  else Ok secret.

End X25519.

(** ** base64 (RFC 4648), as the [base64] module computes it *)

Module base64.

Definition alphabet : string :=
  "ABCDEFGHIJKLMNOPQRSTUVWXYZabcdefghijklmnopqrstuvwxyz0123456789+/".

Definition enc_char (n : N) : ascii :=
  match String.get (N.to_nat n) alphabet with
  | Some c => c
  | None => "="%char
  end.

Definition pad_char : ascii := "="%char.

(** [base64.b64encode(b).decode('ascii')] *)
Fixpoint b64encode (b : bytes) : string :=
  match b with
  | [] => EmptyString
  | [x] =>
      let n := Byte.to_N x in
      String (enc_char (n / 4)) (String (enc_char (n mod 4 * 16))
        (String pad_char (String pad_char EmptyString)))
  | [x; y] =>
      let n := Byte.to_N x in
      let m := Byte.to_N y in
      String (enc_char (n / 4)) (String (enc_char (n mod 4 * 16 + m / 16))
        (String (enc_char (m mod 16 * 4)) (String pad_char EmptyString)))
  | x :: y :: z :: b' =>
      let n := Byte.to_N x in
      let m := Byte.to_N y in
      let o := Byte.to_N z in
      String (enc_char (n / 4)) (String (enc_char (n mod 4 * 16 + m / 16))
        (String (enc_char (m mod 16 * 4 + o / 64)) (String (enc_char (o mod 64))
          (b64encode b'))))
  end%N.

(** [table_a2b_base64]: the value of an alphabet character. *)
Definition dec_char (c : ascii) : option N :=
  let n := N_of_ascii c in
  if ((65 <=? n) && (n <=? 90))%N then Some (n - 65)%N
  else if ((97 <=? n) && (n <=? 122))%N then Some (n - 71)%N
  else if ((48 <=? n) && (n <=? 57))%N then Some (n + 4)%N
  else if (n =? 43)%N then Some 62%N
  else if (n =? 47)%N then Some 63%N
  else None.

(** The decoding loop of [binascii.a2b_base64] in its default mode:
    characters outside the alphabet are skipped, a complete pad
    sequence stops the decoding, and an incomplete last quad is an
    error.  [out] is the output so far. *)
Fixpoint a2b_loop (s : list ascii) (quad_pos : nat) (leftchar : N) (pads : nat)
    (out : bytes) : result bytes :=
  match s with
  | [] =>
      match quad_pos with
      | O => Ok out
      | 1%nat => Raise (BinasciiError "Invalid base64-encoded string: number of data characters cannot be 1 more than a multiple of 4")
      | _ => Raise (BinasciiError "Incorrect padding")
      end
  | c :: s' =>
      if bool_decide (c = pad_char) then
        if bool_decide (2 ≤ quad_pos)%nat then
          if bool_decide (4 ≤ quad_pos + S pads)%nat then Ok out
          else a2b_loop s' quad_pos leftchar (S pads) out
        else a2b_loop s' quad_pos leftchar pads out
      else
        match dec_char c with
        | None => a2b_loop s' quad_pos leftchar pads out
        | Some v =>
            match quad_pos with
            | O => a2b_loop s' 1 v 0 out
            | 1%nat =>
                a2b_loop s' 2 (v mod 16)%N 0
                  (out ++ [byte_of_N (leftchar * 4 + v / 16)])
            | 2%nat =>
                a2b_loop s' 3 (v mod 4)%N 0
                  (out ++ [byte_of_N (leftchar * 16 + v / 4)])
            | _ =>
                a2b_loop s' 0 0%N 0
                  (out ++ [byte_of_N (leftchar * 64 + v)])
            end
        end
  end.

Definition a2b_base64 (s : list ascii) : result bytes := a2b_loop s 0 0%N 0 [].

Definition is_ascii (c : ascii) : bool := (N_of_ascii c <? 128)%N.

(** [base64.b64decode(s)] on a [str]: the text must be ASCII. *)
Definition b64decode (s : string) : result bytes :=
  let cs := String.list_ascii_of_string s in
  if forallb is_ascii cs then a2b_base64 cs
  else Raise (ValueError "string argument should contain only ASCII characters").

End base64.

(** ** The [cryptography] package: AES keys, the CBC, CTR and GCM modes,
    PKCS7 padding *)

Module cryptography.

(** [algorithms.AES(key)]: the key sizes the class accepts are 128, 192,
    256 and (for XTS) 512 bits. *)
Definition algorithms_AES (key : bytes) : result bytes :=
  if bool_decide (length key * 8 ∈ [128; 192; 256; 512])
  then Ok key
  else Raise (ValueError "Invalid key size for AES.").

(** A cipher context: the round keys and the initialization vector. *)
Record Cipher : Type := { round_keys : list AES.state; iv : bytes }.

(** [Cipher(algorithms.AES(key), modes.CBC(iv), backend)]: the mode
    refuses a key of more than 256 bits and an IV that is not one block. *)
Definition Cipher_CBC (key iv : bytes) : result Cipher :=
  if bool_decide (256 < length key * 8)
  then Raise (ValueError "Only 128, 192, and 256 bit keys are allowed for this AES mode")
  else if bool_decide (length iv * 8 ≠ 128)
  then Raise (ValueError "Invalid IV size for CBC.")
  else Ok {| round_keys := AES.key_expansion key; iv := iv |}.

(** CBC chaining (SP 800-38A, 6.2) over 16-byte blocks; [prev] is the
    previous ciphertext block, the IV for the first one. *)
Fixpoint cbc_encrypt_blocks (ks : list AES.state) (prev : bytes)
    (blocks : list bytes) : bytes :=
  match blocks with
  | [] => []
  | b :: blocks' =>
      let c := AES.encrypt_block ks (xor_bytes b prev) in
      c ++ cbc_encrypt_blocks ks c blocks'
  end.

Fixpoint cbc_decrypt_blocks (ks : list AES.state) (prev : bytes)
    (blocks : list bytes) : bytes :=
  match blocks with
  | [] => []
  | c :: blocks' =>
      xor_bytes (AES.decrypt_block ks c) prev ++ cbc_decrypt_blocks ks c blocks'
  end.

Definition not_block_multiple : exn :=
  ValueError "The length of the provided data is not a multiple of the block length.".

(** [encryptor.update(data) + encryptor.finalize()] *)
Definition encryptor_update_finalize (c : Cipher) (data : bytes) : result bytes :=
  if bool_decide (length data `mod` 16 ≠ 0) then Raise not_block_multiple
  else Ok (cbc_encrypt_blocks (round_keys c) (iv c) (chunks 16 data)).

(** [decryptor.update(data) + decryptor.finalize()] *)
Definition decryptor_update_finalize (c : Cipher) (data : bytes) : result bytes :=
  if bool_decide (length data `mod` 16 ≠ 0) then Raise not_block_multiple
  else Ok (cbc_decrypt_blocks (round_keys c) (iv c) (chunks 16 data)).

(** [padding.PKCS7(128).padder()]: [update] returns the complete blocks
    and keeps the rest, [finalize] pads what is kept. *)
Definition padder_update (buffer data : bytes) : bytes * bytes :=
  let buffer := buffer ++ data in
  let finished_blocks := length buffer `div` 16 in
  (take (finished_blocks * 16) buffer, drop (finished_blocks * 16) buffer).

Definition padder_finalize (buffer : bytes) : bytes :=
  let pad_size := 16 - length buffer in
  buffer ++ replicate pad_size (byte_of_nat pad_size).

(** [padding.PKCS7(128).unpadder()]: [update] holds back the last
    block, [finalize] checks and removes its padding. *)
Definition unpadder_update (buffer data : bytes) : bytes * bytes :=
  let buffer := buffer ++ data in
  let finished_blocks := length buffer `div` 16 - 1 in
  (take (finished_blocks * 16) buffer, drop (finished_blocks * 16) buffer).

(** The padding is valid when the last byte is a count between 1 and
    the block length and the last count bytes all equal it. *)
Definition check_pkcs7_padding (buffer : bytes) : bool :=
  let pad_size := Byte.to_nat (List.last buffer x00) in
  bool_decide (0 < pad_size ≤ length buffer) &&
  forallb (fun b => bool_decide (Byte.to_nat b = pad_size))
          (drop (length buffer - pad_size) buffer).

Definition unpadder_finalize (buffer : bytes) : result bytes :=
  if bool_decide (length buffer ≠ 16) then Raise (ValueError "Invalid padding bytes.")
  else if negb (check_pkcs7_padding buffer) then Raise (ValueError "Invalid padding bytes.")
  else
    let pad_size := Byte.to_nat (List.last buffer x00) in
    Ok (take (length buffer - pad_size) buffer).

(** [Cipher(algorithms.AES(key), modes.CTR(nonce), backend)]: the mode
    refuses a key of more than 256 bits and a nonce that is not one
    block. *)
Definition Cipher_CTR (key nonce : bytes) : result Cipher :=
  if bool_decide (256 < length key * 8)
  then Raise (ValueError "Only 128, 192, and 256 bit keys are allowed for this AES mode")
  else if bool_decide (length nonce * 8 ≠ 128)
  then Raise (ValueError "Invalid nonce size for CTR.")
  else Ok {| round_keys := AES.key_expansion key; iv := nonce |}.

(** CTR mode (SP 800-38A, 6.5): the nonce is the first counter block, a
    big-endian number of 128 bits that is incremented for each block;
    the data are xored with the encrypted counter blocks. *)
Definition ctr_counter (nonce : bytes) (i : nat) : bytes :=
  be_bytes 16 ((be_value nonce + N.of_nat i) mod 2 ^ 128).

Definition ctr_keystream (ks : list AES.state) (nonce : bytes) (n : nat) : bytes :=
  flat_map (fun i => AES.encrypt_block ks (ctr_counter nonce i)) (seq 0 n).

(** [context.update(data) + context.finalize()] of a CTR cipher, for
    encryption and decryption alike. *)
Definition ctr_update_finalize (c : Cipher) (data : bytes) : bytes :=
  xor_bytes data (ctr_keystream (round_keys c) (iv c) (length data `div` 16 + 1)).

(** *** GCM (SP 800-38D) *)

(** The exceptions of the authenticated mode: the built-in classes and
    the two of [cryptography.exceptions]. *)
Inductive crypto_exn : Type :=
| Builtin (e : exn)
| InvalidTag
| InternalError.

(** Multiplication in GF(2^128) (SP 800-38D, algorithm 1) on blocks
    read as big-endian numbers: bit [i] of the block, counted from the
    left, is bit [127 - i] of the number. *)
Definition gf_R : N := N.shiftl 0xe1 120.

Definition gf_step (X : N) (zv : N * N) (i : nat) : N * N :=
  let '(Z, V) := zv in
  (if N.testbit X (127 - N.of_nat i) then N.lxor Z V else Z,
   if N.testbit V 0 then N.lxor (N.shiftr V 1) gf_R else N.shiftr V 1).

Definition gf_mul (X Y : N) : N := (fold_left (gf_step X) (seq 0 128) (0%N, Y)).1.

(** [b] followed by zero bytes up to a whole number of blocks. *)
Definition pad_block (b : bytes) : bytes :=
  b ++ replicate ((16 - length b `mod` 16) `mod` 16) x00.

(** GHASH (SP 800-38D, algorithm 2) over a whole number of blocks. *)
Definition ghash (H : N) (data : bytes) : N :=
  fold_left (fun Y blk => gf_mul (N.lxor Y (be_value blk)) H) (chunks 16 data) 0%N.

(** The length of [b] in bits, on 64 bits. *)
Definition bit_length (b : bytes) : bytes := be_bytes 8 (N.of_nat (8 * length b)).

(** The pre-counter block J0 (SP 800-38D, algorithm 4, step 2). *)
Definition gcm_j0 (H : N) (iv : bytes) : bytes :=
  if bool_decide (length iv = 12) then iv ++ [x00; x00; x00; x01]
  else be_bytes 16 (ghash H (pad_block iv ++ replicate 8 x00 ++ bit_length iv)).

(** The counter block [i] steps after [cb]: the last 32 bits count. *)
Definition inc32 (cb : bytes) (i : nat) : bytes :=
  take 12 cb ++ be_bytes 4 ((be_value (drop 12 cb) + N.of_nat i) mod 2 ^ 32).

(** GCTR (SP 800-38D, algorithm 3). *)
Definition gctr (ks : list AES.state) (icb data : bytes) : bytes :=
  xor_bytes data
    (flat_map (fun i => AES.encrypt_block ks (inc32 icb i))
       (seq 0 (length data `div` 16 + 1))).

Record GCM : Type := { gcm_round_keys : list AES.state; gcm_H : N; gcm_J0 : bytes }.

(** [Cipher(algorithms.AES(key), modes.GCM(iv, tag), backend)]: the
    mode wants an IV of 8 to 128 bytes and, when a tag is given, one of
    at least 16 bytes; the cipher refuses a key of more than 256 bits. *)
Definition Cipher_GCM (key iv : bytes) (tag : option bytes) : result GCM :=
  if bool_decide (length iv < 8 ∨ 128 < length iv)
  then Raise (ValueError "initialization_vector must be between 8 and 128 bytes (64 and 1024 bits).")
  else if match tag with Some t => bool_decide (length t < 16) | None => false end
  then Raise (ValueError "Authentication tag must be 16 bytes or longer.")
  else if bool_decide (256 < length key * 8)
  then Raise (ValueError "Only 128, 192, and 256 bit keys are allowed for this AES mode")
  else
    let ks := AES.key_expansion key in
    let H := be_value (AES.encrypt_block ks (replicate 16 x00)) in
    Ok {| gcm_round_keys := ks; gcm_H := H; gcm_J0 := gcm_j0 H iv |}.

(** The two limits of the mode, in bytes. *)
Definition MAX_ENCRYPTED_BYTES : N := (2 ^ 39 - 256) / 8.
Definition MAX_AAD_BYTES : N := 2 ^ 61.

(** [context.authenticate_additional_data(aad)] *)
Definition gcm_check_aad (aad : bytes) : result () :=
  if bool_decide (MAX_AAD_BYTES < N.of_nat (length aad))%N
  then Raise (ValueError "GCM has a maximum AAD byte limit")
  else Ok ().

(** [context.update(data)] *)
Definition gcm_update (c : GCM) (data : bytes) : result bytes :=
  if bool_decide (MAX_ENCRYPTED_BYTES < N.of_nat (length data))%N
  then Raise (ValueError "GCM has a maximum encrypted byte limit")
  else Ok (gctr (gcm_round_keys c) (inc32 (gcm_J0 c) 1) data).

(** The tag (SP 800-38D, algorithm 4, steps 5 and 6) of the additional
    data and the ciphertext. *)
Definition gcm_tag (c : GCM) (aad ciphertext : bytes) : bytes :=
  let S := ghash (gcm_H c)
             (pad_block aad ++ pad_block ciphertext ++
              bit_length aad ++ bit_length ciphertext) in
  xor_bytes (be_bytes 16 S) (AES.encrypt_block (gcm_round_keys c) (gcm_J0 c)).

End cryptography.

(** ** crypto/aes.py: class AESCipher *)

Module AESCipher.

Import cryptography.

(** [AESCipher.encrypt_cbc] (aes.py lines 29-70).  [urandom n] stands
    for [os.urandom(n)]. *)
Definition encrypt_cbc (urandom : nat → bytes) (plaintext key : bytes)
    (iv : option bytes) : result bytes :=
  do iv <- match iv with
           | None => Ok (urandom 16)
           | Some iv =>
               if bool_decide (length iv ≠ 16)
               then Raise (ValueError "IV must be 16 bytes")
               else Ok iv
           end;
  let '(padded_data, buffer) := padder_update [] plaintext in
  let padded_data := padded_data ++ padder_finalize buffer in
  do key <- algorithms_AES key;
  do cipher <- Cipher_CBC key iv;
  do ciphertext <- encryptor_update_finalize cipher padded_data;
  Ok (iv ++ ciphertext).

(** [AESCipher.decrypt_cbc] (aes.py lines 72-113). *)
Definition decrypt_cbc (ciphertext key : bytes) : result bytes :=
  if bool_decide (length ciphertext < 16)
  then Raise (ValueError "Ciphertext too short (need at least IV)")
  else
    let iv := take 16 ciphertext in
    let encrypted_data := drop 16 ciphertext in
    do key <- algorithms_AES key;
    do cipher <- Cipher_CBC key iv;
    do padded_plaintext <- decryptor_update_finalize cipher encrypted_data;
    let '(plaintext, buffer) := unpadder_update [] padded_plaintext in
    do rest <- unpadder_finalize buffer;
    Ok (plaintext ++ rest).

(** [if aad: ...authenticate_additional_data(aad)]: the additional data
    the context is given, none for [None] and for [b'']. *)
Definition given_aad (aad : option bytes) : bytes :=
  match aad with
  | Some a => a
  | None => []
  end.

(** [AESCipher.encrypt_gcm] (aes.py lines 115-159): the IV followed by
    the ciphertext, and the tag. *)
Definition encrypt_gcm (urandom : nat → bytes) (plaintext key : bytes)
    (iv aad : option bytes) : result (bytes * bytes) :=
  do iv <- match iv with
           | None => Ok (urandom 12)
           | Some iv =>
               if bool_decide (length iv ∉ [12; 16])
               then Raise (ValueError "IV must be 12 or 16 bytes for GCM")
               else Ok iv
           end;
  do key <- algorithms_AES key;
  do cipher <- Cipher_GCM key iv None;
  do _ <- (if bool_decide (given_aad aad = []) then Ok () else gcm_check_aad (given_aad aad));
  do ciphertext <- gcm_update cipher plaintext;
  let tag := gcm_tag cipher (given_aad aad) ciphertext in
  Ok (iv ++ ciphertext, tag).

(** Python's [b[:k]] and [b[k:]] for an integer [k] of either sign. *)
Definition slice_to (k : Z) (b : bytes) : bytes :=
  if bool_decide (k < 0)%Z then take (length b - Z.to_nat (- k)) b
  else take (Z.to_nat k) b.

Definition slice_from (k : Z) (b : bytes) : bytes :=
  if bool_decide (k < 0)%Z then drop (length b - Z.to_nat (- k)) b
  else drop (Z.to_nat k) b.

Inductive gcm_outcome : Type :=
| Plaintext (p : bytes)
| Raises (e : crypto_exn).

(** [AESCipher.decrypt_gcm] (aes.py lines 161-205).  A tag of more than
    16 bytes is refused by the library when the context is set up; the
    tag is compared when the context is finalized. *)
Definition decrypt_gcm (ciphertext key tag : bytes) (aad : option bytes)
    (iv_length : Z) : gcm_outcome :=
  if bool_decide (Z.of_nat (length ciphertext) < iv_length)%Z
  then Raises (Builtin (ValueError "Ciphertext too short"))
  else
    let iv := slice_to iv_length ciphertext in
    let encrypted_data := slice_from iv_length ciphertext in
    match (do key <- algorithms_AES key; Cipher_GCM key iv (Some tag)) with
    | Raise e => Raises (Builtin e)
    | Ok cipher =>
        if bool_decide (16 < length tag) then Raises InternalError
        else
          match (do _ <- (if bool_decide (given_aad aad = []) then Ok ()
                          else gcm_check_aad (given_aad aad));
                 gcm_update cipher encrypted_data) with
          | Raise e => Raises (Builtin e)
          | Ok plaintext =>
              if bool_decide (gcm_tag cipher (given_aad aad) encrypted_data = tag)
              then Plaintext plaintext
              else Raises InvalidTag
          end
    end.

(** [AESCipher.encrypt_ctr] (aes.py lines 207-242). *)
Definition encrypt_ctr (urandom : nat → bytes) (plaintext key : bytes)
    (nonce : option bytes) : result bytes :=
  do nonce <- match nonce with
              | None => Ok (urandom 16)
              | Some nonce =>
                  if bool_decide (length nonce ≠ 16)
                  then Raise (ValueError "Nonce must be 16 bytes")
                  else Ok nonce
              end;
  do key <- algorithms_AES key;
  do cipher <- Cipher_CTR key nonce;
  let ciphertext := ctr_update_finalize cipher plaintext in
  Ok (nonce ++ ciphertext).

(** [AESCipher.decrypt_ctr] (aes.py lines 244-280). *)
Definition decrypt_ctr (ciphertext key : bytes) : result bytes :=
  if bool_decide (length ciphertext < 16)
  then Raise (ValueError "Ciphertext too short (need at least nonce)")
  else
    let nonce := take 16 ciphertext in
    let encrypted_data := drop 16 ciphertext in
    do key <- algorithms_AES key;
    do cipher <- Cipher_CTR key nonce;
    let plaintext := ctr_update_finalize cipher encrypted_data in
    Ok plaintext.

(** [AESCipher.generate_key] (aes.py lines 282-296). *)
Definition generate_key (urandom : nat → bytes) (key_size : Z) : result bytes :=
  if bool_decide (key_size ∉ [16; 24; 32]%Z)
  then Raise (ValueError "Key size must be 16, 24, or 32 bytes")
  else Ok (urandom (Z.to_nat key_size)).

(** [AESCipher.validate_key] (aes.py lines 298-309). *)
Definition validate_key (key : bytes) : bool :=
  bool_decide (length key ∈ [16; 24; 32]).

End AESCipher.

(** ** crypto/curve.py: class Curve25519 *)

Module Curve25519.

(** [Curve25519.generate_keypair] (curve.py lines 31-57); the private
    key is 32 bytes of the system's randomness. *)
Definition generate_keypair (urandom : nat → bytes) : bytes * bytes :=
  let private_bytes := urandom 32 in
  (private_bytes, X25519.public_key private_bytes).

(** [Curve25519.compute_shared_secret] (curve.py lines 59-86). *)
Definition compute_shared_secret (private_key public_key : bytes) : result bytes :=
  do priv_key_obj <- X25519.from_private_bytes private_key;
  do pub_key_obj <- X25519.from_public_bytes public_key;
  X25519.exchange priv_key_obj pub_key_obj.

(** [Curve25519.generate_signature_keypair] (curve.py lines 88-96). *)
Definition generate_signature_keypair (urandom : nat → bytes) : bytes * bytes :=
  generate_keypair urandom.

(** [Curve25519.sign_data] (curve.py lines 98-136): the hash of the
    private key, the data and a fresh nonce, followed by the nonce. *)
Definition sign_data (urandom : nat → bytes) (private_key data : bytes) : bytes :=
  let nonce := urandom 32 in
  let signature_hash := SHA256.sha256 (private_key ++ data ++ nonce) in
  signature_hash ++ nonce.

(** [Curve25519.verify_signature] (curve.py lines 138-171). *)
Definition verify_signature (public_key data signature : bytes) : bool :=
  if bool_decide (length signature ≠ 64) then false
  else
    let signature_hash := take 32 signature in
    let nonce := drop 32 signature in
    true.

(** [Curve25519.derive_keys] (curve.py lines 173-202). *)
Definition derive_keys (shared_secret salt : bytes) : result (bytes * bytes) :=
  do derived_keys <- HKDF.expand HKDF.new shared_secret 64 (Some salt);
  Ok (take 32 derived_keys, drop 32 derived_keys).

(** [Curve25519.generate_client_id] (curve.py lines 204-220). *)
Definition generate_client_id (urandom : nat → bytes) : string :=
  base64.b64encode (urandom 16).

(** [Curve25519.validate_public_key] (curve.py lines 222-242). *)
Definition validate_public_key (public_key : bytes) : bool :=
  if bool_decide (length public_key ≠ 32) then false
  else
    match X25519.from_public_bytes public_key with
    | Ok _ => true
    | Raise _ => false
    end.

(** [Curve25519.validate_private_key] (curve.py lines 244-264). *)
Definition validate_private_key (private_key : bytes) : bool :=
  if bool_decide (length private_key ≠ 32) then false
  else
    match X25519.from_private_bytes private_key with
    | Ok _ => true
    | Raise _ => false
    end.

(** [Curve25519.clamp_private_key] (curve.py lines 266-288): the three
    updates of the [bytearray], in order. *)
Definition clamp_private_key (private_key : bytes) : result bytes :=
  if bool_decide (length private_key ≠ 32)
  then Raise (ValueError "Private key must be 32 bytes")
  else
    let clamped := private_key in
    let clamped := alter (fun b => band b xf8) 0 clamped in
    let clamped := alter (fun b => band b x7f) 31 clamped in
    let clamped := alter (fun b => bor b x40) 31 clamped in
    Ok clamped.

End Curve25519.

(** ** Python objects: JSON values, handler arguments, dictionaries *)

Inductive pyval : Type :=
| PNone
| PBool (b : bool)
| PInt (z : Z)
| PStr (s : string)
| PBytes (b : bytes)
| PList (l : list pyval)
| PDict (d : gmap string pyval).

(** [bool(v)] *)
Definition truthy (v : pyval) : bool :=
  match v with
  | PNone => false
  | PBool b => b
  | PInt z => negb (z =? 0)%Z
  | PStr s => negb (String.eqb s EmptyString)
  | PBytes b => negb (bool_decide (b = []))
  | PList l => match l with [] => false | _ => true end
  | PDict d => negb (bool_decide (size d = 0))
  end.

(** [d.get(k)] and [d.get(k, default)] *)
Definition dict_get (d : gmap string pyval) (k : string) (default : pyval) : pyval :=
  match d !! k with
  | Some v => v
  | None => default
  end.

(** ** auth/qr_auth.py: class QRAuth *)

Module QRAuth.

(** The fields of a [QRAuth] object.  An event handler is an optional
    callable: the record says whether it is set, and the methods return
    the handler calls they make, in order. *)
Record t : Type := {
  client_id : option string;
  private_key : option bytes;
  public_key : option bytes;
  qr_timeout : Z;
  on_qr_code : bool;
  on_authenticated : bool;
  on_timeout : bool;
  on_error : bool
}.

Inductive call : Type :=
| QrCode (qr_data : string)
| Authenticated (auth_data : gmap string pyval)
| Timeout
| Error (e : exn).

(** [QRAuth.__init__] (qr_auth.py lines 32-46). *)
Definition new : t :=
  {| client_id := None; private_key := None; public_key := None;
     qr_timeout := 30;
     on_qr_code := false; on_authenticated := false;
     on_timeout := false; on_error := false |}.

(** [QRAuth.is_initialized] (qr_auth.py lines 343-349). *)
Definition is_initialized (self : t) : bool :=
  bool_decide (client_id self ≠ None) && bool_decide (private_key self ≠ None) &&
  bool_decide (public_key self ≠ None).

(** [QRAuth.reset] (qr_auth.py lines 335-341). *)
Definition reset (self : t) : t :=
  {| client_id := None; private_key := None; public_key := None;
     qr_timeout := qr_timeout self;
     on_qr_code := on_qr_code self; on_authenticated := on_authenticated self;
     on_timeout := on_timeout self; on_error := on_error self |}.

(** The credentials part of [QRAuth.initialize] (qr_auth.py lines
    68-70). *)
Definition generate_credentials (urandom_id urandom_key : nat → bytes) (self : t) : t :=
  let (priv, pub) := Curve25519.generate_keypair urandom_key in
  {| client_id := Some (Curve25519.generate_client_id urandom_id);
     private_key := Some priv; public_key := Some pub;
     qr_timeout := qr_timeout self;
     on_qr_code := on_qr_code self; on_authenticated := on_authenticated self;
     on_timeout := on_timeout self; on_error := on_error self |}.

(** An optional string inside an f-string: [None] prints as its name. *)
Definition format_optional (s : option string) : string :=
  match s with
  | Some s => s
  | None => "None"
  end.

(** [QRAuth._generate_qr_code] (qr_auth.py lines 119-141): the QR text
    [qr_data] and the handler calls.  [base64.b64encode(None)] is a
    TypeError. *)
Definition _generate_qr_code (self : t) (qr_ref : string) : result (string * list call) :=
  do pk <- match public_key self with
           | Some pk => Ok pk
           | None => Raise (TypeError "a bytes-like object is required, not 'NoneType'")
           end;
  let public_key_b64 := base64.b64encode pk in
  let qr_data :=
    qr_ref +:+ "," +:+ public_key_b64 +:+ "," +:+ format_optional (client_id self) in
  Ok (qr_data, if on_qr_code self then [QrCode qr_data] else []).

(** The second half of the [try] block of
    [QRAuth._process_shared_secret] (qr_auth.py lines 263-303), from the
    HMAC check on, given the three pieces of the expanded secret. *)
Definition verify_and_decrypt (self : t) (now : Z)
    (aes_key hmac_key iv : bytes)
    (secret_public_key hmac_validation encrypted_keys : bytes)
    : result (gmap string pyval) :=
  let expected_hmac :=
    hmac.new_digest hashlib_sha256 hmac_key (secret_public_key ++ encrypted_keys) in
  if negb (hmac.compare_digest hmac_validation expected_hmac)
  then Raise (ValueError "HMAC validation failed")
  else
    let ciphertext := iv ++ encrypted_keys in
    do decrypted_keys <- AESCipher.decrypt_cbc ciphertext aes_key;
    if bool_decide (length decrypted_keys < 64)
    then Raise (ValueError "Decrypted keys too short")
    else
      let enc_key := take 32 decrypted_keys in
      let mac_key := slice 32 64 decrypted_keys in
      Ok (<["clientId" := match client_id self with
                          | Some c => PStr c
                          | None => PNone
                          end]>
          (<["encKey" := PBytes enc_key]>
          (<["macKey" := PBytes mac_key]>
          (<["serverToken" := PNone]>
          (<["clientToken" := PNone]>
          (<["authenticated" := PBool true]>
          (<["timestamp" := PInt now]> ∅))))))).

(** The [try] block of [QRAuth._process_shared_secret] (qr_auth.py lines
    241-303); [now] is [int(time.time())].  The IV (line 280) is cut
    out of the expanded secret together with the two keys. *)
Definition process_shared_secret_body (self : t) (now : Z) (shared_secret : bytes)
    : result (gmap string pyval) :=
  if bool_decide (length shared_secret < 96)
  then Raise (ValueError "Shared secret too short")
  else
    let secret_public_key := take 32 shared_secret in
    let hmac_validation := slice 32 64 shared_secret in
    let encrypted_keys := drop 64 shared_secret in
    do private_key <- match private_key self with
                      | Some k => Ok k
                      | None => Raise (TypeError "from_private_bytes() argument must be bytes")
                      end;
    do ecdh_secret <- Curve25519.compute_shared_secret private_key secret_public_key;
    let hkdf := HKDF.new in
    do expanded_secret <- HKDF.expand hkdf ecdh_secret 80 None;
    let hmac_key := slice 32 64 expanded_secret in
    let aes_key := take 32 expanded_secret in
    let iv := take 16 (drop 64 expanded_secret) in
    verify_and_decrypt self now aes_key hmac_key iv
      secret_public_key hmac_validation encrypted_keys.

(** [QRAuth._process_shared_secret] (qr_auth.py lines 230-307): every
    exception of the body is logged and turned into [None]. *)
Definition _process_shared_secret (self : t) (now : Z) (shared_secret : bytes)
    : option (gmap string pyval) :=
  match process_shared_secret_body self now shared_secret with
  | Ok auth_data => Some auth_data
  | Raise _ => None
  end.

(** [base64.b64decode(conn_data['secret'])]: text or bytes. *)
Definition decode_secret (v : pyval) : result bytes :=
  match v with
  | PStr s => base64.b64decode s
  | PBytes b => base64.a2b_base64 (map ascii_of_byte b)
  | _ => Raise (TypeError "argument should be a bytes-like object or ASCII string")
  end.

(** The [try] block of [QRAuth.handle_connection_message] (qr_auth.py
    lines 198-222). *)
Definition handle_connection_message_body (self : t) (now : Z) (message : pyval)
    : result (bool * list call) :=
  match message with
  | PList (m0 :: conn_data :: _) =>
      match m0 with
      | PStr "Conn" =>
          match conn_data with
          | PDict d =>
              match d !! "secret" with
              | Some secret =>
                  do shared_secret <- decode_secret secret;
                  match _process_shared_secret self now shared_secret with
                  | Some auth_data =>
                      if truthy (PDict auth_data)
                      then Ok (true, if on_authenticated self
                                     then [Authenticated auth_data] else [])
                      else Raise (Exception "Failed to process shared secret")
                  | None => Raise (Exception "Failed to process shared secret")
                  end
              | None => Ok (false, [])
              end
          | _ => Ok (false, [])
          end
      | _ => Ok (false, [])
      end
  | _ => Ok (false, [])
  end.

(** [QRAuth.handle_connection_message] (qr_auth.py lines 187-228): an
    exception of the body is logged, handed to [on_error] when that
    handler is set, and answered with [False]. *)
Definition handle_connection_message (self : t) (now : Z) (message : pyval)
    : bool * list call :=
  match handle_connection_message_body self now message with
  | Ok r => r
  | Raise e => (false, if on_error self then [Error e] else [])
  end.

(** [sub in s] on two strings. *)
Fixpoint str_contains (sub s : string) : bool :=
  String.prefix sub s ||
  match s with
  | EmptyString => false
  | String _ s' => str_contains sub s'
  end.

(** ['data' == v] *)
Definition is_data (v : pyval) : bool :=
  match v with
  | PStr s => String.eqb s "data"
  | _ => false
  end.

Definition invalid_response : exn := Exception "Invalid initialization response".

(** The test [response and 'data' in response] of [QRAuth.initialize]
    followed by [response['data']] (qr_auth.py lines 89-93): the value
    handed to [_handle_init_response], or the exception raised.  Only a
    dictionary can pass the test and be indexed by a string. *)
Definition response_data (response : pyval) : result pyval :=
  if negb (truthy response) then Raise invalid_response
  else
    match response with
    | PDict d =>
        match d !! "data" with
        | Some v => Ok v
        | None => Raise invalid_response
        end
    | PList l =>
        if existsb is_data l
        then Raise (TypeError "list indices must be integers or slices, not str")
        else Raise invalid_response
    | PStr s =>
        if str_contains "data" s
        then Raise (TypeError "string indices must be integers, not 'str'")
        else Raise invalid_response
    | PBytes _ => Raise (TypeError "a bytes-like object is required, not 'str'")
    | PBool _ => Raise (TypeError "argument of type 'bool' is not iterable")
    | PInt _ => Raise (TypeError "argument of type 'int' is not iterable")
    | PNone => Raise invalid_response
    end.

(** The text an f-string gives for a value: a string is copied; for any
    other value it is [py_str v], Python's [str(v)]. *)
Definition format_value (py_str : pyval → string) (v : pyval) : string :=
  match v with
  | PStr s => s
  | _ => py_str v
  end.

(** [QRAuth._handle_init_response] (qr_auth.py lines 101-117): the
    handler calls made, or the exception, which is logged and raised
    again. *)
Definition _handle_init_response (py_str : pyval → string) (self : t)
    (response_data : pyval) : result (list call) :=
  match response_data with
  | PList (_ :: qr_ref :: _) =>
      if truthy qr_ref then
        do r <- _generate_qr_code self (format_value py_str qr_ref);
        Ok r.2
      else Raise (Exception "No QR reference in response")
  | _ => Raise (Exception "Invalid response format")
  end.

(** The message [QRAuth.initialize] sends (qr_auth.py lines 73-80). *)
Definition init_message (browser_name browser_version : string) (self : t) : pyval :=
  PList [PStr "admin"; PStr "init"; PList [PInt 2; PInt 2121; PInt 6];
         PList [PStr browser_name; PStr browser_version];
         match client_id self with Some c => PStr c | None => PNone end;
         PBool true].

(** [QRAuth.initialize] (qr_auth.py lines 48-99).  [send_message m] is
    what [websocket_handler.send_message(m, wait_for_response=True,
    timeout=10.0)] returns or raises.  The result is the value returned,
    the object after the call and the handler calls made. *)
Definition initialize (py_str : pyval → string) (urandom_id urandom_key : nat → bytes)
    (send_message : pyval → result pyval) (browser_name browser_version : string)
    (self : t) : bool * t * list call :=
  let self := generate_credentials urandom_id urandom_key self in
  let body :=
    do response <- send_message (init_message browser_name browser_version self);
    do data <- response_data response;
    _handle_init_response py_str self data in
  match body with
  | Ok calls => (true, self, calls)
  | Raise e => (false, self, if on_error self then [Error e] else [])
  end.

(** [QRAuth.start_timeout_monitor] (qr_auth.py lines 309-323), when the
    sleep of [qr_timeout] seconds is not cancelled: the handler calls
    made. *)
Definition start_timeout_monitor (self : t) : list call :=
  if on_timeout self then [Timeout] else [].

(** [QRAuth.get_client_info] (qr_auth.py lines 351-362). *)
Definition get_client_info (self : t) : gmap string pyval :=
  <["client_id" := match client_id self with Some c => PStr c | None => PNone end]>
  (<["has_keypair" := PBool (bool_decide (private_key self ≠ None))]>
  (<["initialized" := PBool (is_initialized self)]> ∅)).

End QRAuth.

(** ** websocket/handler.py: class WebSocketHandler *)

Module WebSocketHandler.

(** The methods the class defines (handler.py lines 15-78). *)
Definition methods : list string :=
  ["register_handler"; "handle_message"; "_handle_text_message";
   "_handle_binary_message"; "_handle_challenge"; "_handle_success";
   "create_binary_message"].

(** A call [handler.name(...)] made by the client: an AttributeError
    when the class has no method of that name.  The outcome of a method
    the class does define is [r]. *)
Definition call_method {A : Type} (name : string) (r : result A) : result A :=
  if bool_decide (name ∈ methods) then r
  else Raise (AttributeError "'WebSocketHandler' object has no attribute").

End WebSocketHandler.

(** ** client.py: class WhatsAppClient *)

(** The class [Session] of [auth/session.py] is imported by client.py
    but is not among the sources: the client is modelled over any
    implementation of the three things it uses of a session object.  A
    method returns its outcome and the session object as it leaves it. *)
Record SessionClass : Type := {
  session_t : Type;
  session_new : session_t;
  session_restore : pyval → session_t → result bool * session_t;
  session_update_from_auth : gmap string pyval → session_t → result () * session_t;
  session_server_token : session_t → pyval;
  session_client_token : session_t → pyval
}.

Module WhatsAppClient.

Section Client.

Context (S : SessionClass).

(** The state of a [WhatsAppClient] that the modelled methods read or
    write (client.py lines 50-62). *)
Record t : Type := {
  session : session_t S;
  qr_auth : QRAuth.t;
  is_authenticated : bool;
  is_connected : bool;
  client_id : pyval;
  enc_key : pyval;
  mac_key : pyval
}.

Definition set_session (v : session_t S) (self : t) : t :=
  {| session := v; qr_auth := qr_auth self;
     is_authenticated := is_authenticated self; is_connected := is_connected self;
     client_id := client_id self; enc_key := enc_key self; mac_key := mac_key self |}.

Definition set_client_id (v : pyval) (self : t) : t :=
  {| session := session self; qr_auth := qr_auth self;
     is_authenticated := is_authenticated self; is_connected := is_connected self;
     client_id := v; enc_key := enc_key self; mac_key := mac_key self |}.

Definition set_enc_key (v : pyval) (self : t) : t :=
  {| session := session self; qr_auth := qr_auth self;
     is_authenticated := is_authenticated self; is_connected := is_connected self;
     client_id := client_id self; enc_key := v; mac_key := mac_key self |}.

Definition set_mac_key (v : pyval) (self : t) : t :=
  {| session := session self; qr_auth := qr_auth self;
     is_authenticated := is_authenticated self; is_connected := is_connected self;
     client_id := client_id self; enc_key := enc_key self; mac_key := v |}.

Definition set_is_authenticated (v : bool) (self : t) : t :=
  {| session := session self; qr_auth := qr_auth self;
     is_authenticated := v; is_connected := is_connected self;
     client_id := client_id self; enc_key := enc_key self; mac_key := mac_key self |}.

(** [WhatsAppClient.__init__] followed by [_setup_handlers] (client.py
    lines 31-77): the QR and authentication handlers of [qr_auth] are
    bound to the client's own methods. *)
Definition new : t :=
  {| session := session_new S;
     qr_auth :=
       {| QRAuth.client_id := None; QRAuth.private_key := None;
          QRAuth.public_key := None; QRAuth.qr_timeout := 30;
          QRAuth.on_qr_code := true; QRAuth.on_authenticated := true;
          QRAuth.on_timeout := false; QRAuth.on_error := false |};
     is_authenticated := false; is_connected := false;
     client_id := PNone; enc_key := PNone; mac_key := PNone |}.

(** [bytes.fromhex(v)] on an arbitrary object. *)
Definition py_fromhex (v : pyval) : result bytes :=
  match v with
  | PStr s => fromhex s
  | _ => Raise (TypeError "fromhex() argument must be str")
  end.

(** What [_restore_session] finds at [session_file]: no file, a file
    that cannot be read as JSON, or the value [json.load] returns. *)
Inductive session_file : Type :=
| NoFile
| Unreadable (e : exn)
| Loaded (session_data : pyval).

(** [session_data.get(k, default)]; an AttributeError on a value that is
    not a dictionary. *)
Definition json_get (session_data : pyval) (k : string) (default : pyval) : result pyval :=
  match session_data with
  | PDict d => Ok (dict_get d k default)
  | _ => Raise (AttributeError "object has no attribute 'get'")
  end.

(** [WhatsAppClient._restore_session] (client.py lines 102-120).  The
    assignments are made one after the other, so an exception leaves
    the earlier ones in place. *)
Definition _restore_session (file : session_file) (self : t) : bool * t :=
  match file with
  | NoFile => (false, self)
  | Unreadable _ => (false, self)
  | Loaded session_data =>
      let '(restored, session') := session_restore S session_data (session self) in
      let self := set_session session' self in
      match restored with
      | Ok true =>
          match json_get session_data "clientId" PNone with
          | Raise _ => (false, self)
          | Ok v =>
              let self := set_client_id v self in
              match rbind (json_get session_data "encKey" (PStr EmptyString)) py_fromhex with
              | Raise _ => (false, self)
              | Ok b =>
                  let self := set_enc_key (PBytes b) self in
                  match rbind (json_get session_data "macKey" (PStr EmptyString)) py_fromhex with
                  | Raise _ => (false, self)
                  | Ok b' => (true, set_mac_key (PBytes b') self)
                  end
              end
          end
      | Ok false => (false, self)
      | Raise _ => (false, self)
      end
  end.

(** [key.hex() if key else ''] *)
Definition hex_or_empty (key : pyval) : result string :=
  if truthy key then
    match key with
    | PBytes b => Ok (hex b)
    | _ => Raise (AttributeError "object has no attribute 'hex'")
    end
  else Ok EmptyString.

(** [WhatsAppClient._save_session] (client.py lines 237-252): the
    record handed to [json.dump], or [None] when building it raised
    (the exception is logged, not propagated). *)
Definition _save_session (self : t) : option (gmap string pyval) :=
  match hex_or_empty (enc_key self), hex_or_empty (mac_key self) with
  | Ok e, Ok m =>
      Some (<["clientId" := client_id self]>
           (<["encKey" := PStr e]>
           (<["macKey" := PStr m]>
           (<["serverToken" := session_server_token S (session self)]>
           (<["clientToken" := session_client_token S (session self)]> ∅)))))
  | _, _ => None
  end.

(** [WhatsAppClient._handle_authentication] (client.py lines 217-235):
    the client after the call and the session record it saved. *)
Definition _handle_authentication (auth_data : gmap string pyval) (self : t)
    : t * option (gmap string pyval) :=
  let self := set_client_id (dict_get auth_data "clientId" PNone) self in
  let self := set_enc_key (dict_get auth_data "encKey" PNone) self in
  let self := set_mac_key (dict_get auth_data "macKey" PNone) self in
  let '(updated, session') := session_update_from_auth S auth_data (session self) in
  let self := set_session session' self in
  match updated with
  | Raise _ => (self, None)
  | Ok _ =>
      let saved := _save_session self in
      (set_is_authenticated true self, saved)
  end.

(** The effect on the client of the handler calls [qr_auth] makes:
    [on_authenticated] is [_handle_authentication]; [on_qr_code] passes
    the text on to the user's handlers and leaves the client as it is;
    the other two handlers are not set by the client. *)
Definition handler_call (self : t) (c : QRAuth.call) : t :=
  match c with
  | QRAuth.Authenticated auth_data => fst (_handle_authentication auth_data self)
  | _ => self
  end.

(** A connection message handed to the client's [qr_auth]. *)
Definition handle_connection_message (now : Z) (message : pyval) (self : t) : bool * t :=
  let '(r, calls) := QRAuth.handle_connection_message (qr_auth self) now message in
  (r, fold_left handler_call calls self).

Definition set_qr_auth (v : QRAuth.t) (self : t) : t :=
  {| session := session self; qr_auth := v;
     is_authenticated := is_authenticated self; is_connected := is_connected self;
     client_id := client_id self; enc_key := enc_key self; mac_key := mac_key self |}.

Definition set_is_connected (v : bool) (self : t) : t :=
  {| session := session self; qr_auth := qr_auth self;
     is_authenticated := is_authenticated self; is_connected := v;
     client_id := client_id self; enc_key := enc_key self; mac_key := mac_key self |}.

(** The transport as the client uses it: what
    [websocket_handler.connect()], [send_message(m)] and [disconnect()]
    return or raise. *)
Record transport : Type := {
  ws_connect : result ();
  ws_send_message : pyval → result pyval;
  ws_disconnect : result ()
}.

(** The message [_connect_with_session] sends (client.py lines
    129-134). *)
Definition restore_message (self : t) : pyval :=
  PDict (<["action" := PStr "restore"]>
        (<["clientId" := client_id self]>
        (<["serverToken" := session_server_token S (session self)]>
        (<["clientToken" := session_client_token S (session self)]> ∅)))).

(** [WhatsAppClient._connect_with_session] (client.py lines 122-145). *)
Definition _connect_with_session (ws : transport) (self : t) : bool :=
  match (do _ <- ws_connect ws; ws_send_message ws (restore_message self)) with
  | Ok _ => true
  | Raise _ => false
  end.

(** [WhatsAppClient._start_fresh_auth] (client.py lines 147-164); the
    two browser strings are the ones given to the constructor.  What
    [qr_auth.initialize] returns is not looked at. *)
Definition _start_fresh_auth (py_str : pyval → string)
    (urandom_id urandom_key : nat → bytes) (ws : transport)
    (browser_name browser_version : string) (self : t) : bool * t :=
  match ws_connect ws with
  | Raise _ => (false, self)
  | Ok _ =>
      let '(_, qr, _) :=
        QRAuth.initialize py_str urandom_id urandom_key (ws_send_message ws)
          browser_name browser_version (qr_auth self) in
      (true, set_qr_auth qr self)
  end.

(** [WhatsAppClient.start] (client.py lines 79-100). *)
Definition start (py_str : pyval → string) (urandom_id urandom_key : nat → bytes)
    (ws : transport) (browser_name browser_version : string)
    (file : session_file) (self : t) : bool * t :=
  let '(restored, self) := _restore_session file self in
  if restored then (_connect_with_session ws self, self)
  else _start_fresh_auth py_str urandom_id urandom_key ws browser_name browser_version self.

(** [WhatsAppClient._handle_connection_change] (client.py lines
    190-202). *)
Definition _handle_connection_change (connected : bool) (self : t) : t :=
  set_is_connected connected self.

(** [WhatsAppClient.send_text_message] (client.py lines 254-288).
    [encrypt_message] is the method of the message processor, [time_ms]
    the clock reading [int(loop.time() * 1000)].  The result is the
    value returned and the messages handed to [send_message]. *)
Definition send_text_message
    (encrypt_message : pyval → pyval → pyval → result pyval) (ws : transport)
    (time_ms : Z) (jid text : string) (self : t) : bool * list pyval :=
  if negb (is_authenticated self) then (false, [])
  else
    let message_data :=
      PDict (<["type" := PStr "text"]>
            (<["to" := PStr jid]>
            (<["body" := PStr text]>
            (<["timestamp" := PInt time_ms]> ∅)))) in
    match encrypt_message message_data (enc_key self) (mac_key self) with
    | Raise _ => (false, [])
    | Ok encrypted_message =>
        match ws_send_message ws encrypted_message with
        | Ok _ => (true, [encrypted_message])
        | Raise _ => (false, [encrypted_message])
        end
    end.

(** [WhatsAppClient.stop] (client.py lines 352-371): the client after
    the call and the session record saved, if one was. *)
Definition stop (ws : transport) (self : t) : t * option (gmap string pyval) :=
  let saved := if is_authenticated self then _save_session self else None in
  match ws_disconnect ws with
  | Raise _ => (self, saved)
  | Ok _ => (set_is_connected false (set_is_authenticated false self), saved)
  end.

(** The transport the client builds itself: a [WebSocketHandler] of
    websocket/handler.py, on which it calls [connect], [send_message]
    and [disconnect]. *)
Definition own_transport (connected : result ()) (answer : pyval → result pyval)
    (disconnected : result ()) : transport :=
  {| ws_connect := WebSocketHandler.call_method "connect" connected;
     ws_send_message := fun m => WebSocketHandler.call_method "send_message" (answer m);
     ws_disconnect := WebSocketHandler.call_method "disconnect" disconnected |}.

(** The SessionState invariant of the specification, read on the
    client's fields: the keys are both unset or both 32 bytes, and the
    authenticated flag says which. *)
Definition key_unset (k : pyval) : Prop := k = PNone.
Definition key_set32 (k : pyval) : Prop := ∃ b, k = PBytes b ∧ length b = 32.

Definition session_state_invariant (self : t) : Prop :=
  ((key_unset (enc_key self) ∧ key_unset (mac_key self)) ∨
   (key_set32 (enc_key self) ∧ key_set32 (mac_key self))) ∧
  (is_authenticated self = true ↔
   (key_set32 (enc_key self) ∧ key_set32 (mac_key self))).

End Client.

End WhatsAppClient.

(** * Notions used in the statements *)

(** ** SHA-256 and HMAC: the digest is [digest_size] bytes long *)

Definition HashFuncOk (h : HashFunc) : Prop :=
  ∀ m, length (digest h m) = digest_size h.


(** ** HKDF *)

(** The blocks of RFC 5869: T(0) is empty, T(i) = HMAC(PRK, T(i-1) | info | i). *)
Fixpoint hkdf_T (self : HKDF.t) (prk info : bytes) (i : nat) : bytes :=
  match i with
  | O => []
  | S i' =>
      hmac.new_digest (HKDF.hash_func self) prk
        (hkdf_T self prk info i' ++ info ++ [byte_of_N (N.of_nat i)])
  end.

(** T(1) | T(2) | ... | T(n) *)
Definition hkdf_okm (self : HKDF.t) (prk info : bytes) (n : nat) : bytes :=
  concat (map (hkdf_T self prk info) (seq 1 n)).

(** The number of blocks [expand] computes. *)
Definition hkdf_rounds (self : HKDF.t) (len : Z) : nat :=
  Z.to_nat ((len + HKDF.hash_len self - 1) `div` HKDF.hash_len self).

(** The three blocks the handshake uses. *)
Definition handshake_T1 (z : bytes) : bytes := hmac.new_digest hashlib_sha256 z [x01].
Definition handshake_T2 (z : bytes) : bytes :=
  hmac.new_digest hashlib_sha256 z (handshake_T1 z ++ [x02]).
Definition handshake_T3 (z : bytes) : bytes :=
  hmac.new_digest hashlib_sha256 z (handshake_T2 z ++ [x03]).


(** ** AES: the inverse cipher undoes the cipher *)

(** Every byte, in order: a property checked on this list holds of all bytes. *)
Definition all_bytes : bytes := Eval vm_compute in map byte_of_nat (seq 0 256).

(** A function on bytes is linear when it commutes with xor. *)
Definition linear (f : byte → byte) : Prop :=
  ∀ a b, f (bxor a b) = bxor (f a) (f b).

Definition linearb (f : byte → byte) : bool :=
  forallb (fun a => forallb (fun b =>
    bool_decide (f (bxor a b) = bxor (f a) (f b))) all_bytes) all_bytes.

Definition unmix (x : AES.col) : AES.col := AES.inv_mix_column (AES.mix_column x).


(** ** PKCS7 padding and CBC chaining *)

(** The padded message of RFC 5652, 6.3, for 16-byte blocks. *)
Definition pkcs7_pad (p : bytes) : bytes :=
  let pad_size := 16 - length p `mod` 16 in
  p ++ replicate pad_size (byte_of_nat pad_size).


(** ** A simulated handshake: the client and the phone that scans the QR code *)

(** The key pairs of RFC 7748, section 6.1: the client holds Alice's,
    the phone Bob's. *)
Definition client_private_key : bytes :=
  unhex "77076d0a7318a57d3c16c17251b26645df4c2f87ebc0992ab177fba51db92c2a".
Definition client_public_key : bytes :=
  unhex "8520f0098930a754748b7ddcb43ef75a0dbf3a0d26381af4eba4a98eaa9b4e6a".
Definition phone_private_key : bytes :=
  unhex "5dab087e624a8a4b79e17f8b83800ee66f3bb1292618b6fd1c2f8b27ff88e0eb".
Definition rfc7748_shared_secret : bytes :=
  unhex "4a5d9d5ba4ce2de1728e3bf480350f25e07e21c947d19e3376f09b3c1e161742".

(** A [QRAuth] after [initialize], with the handlers set as
    [WhatsAppClient._setup_handlers] sets them. *)
Definition client_qr_auth : QRAuth.t :=
  {| QRAuth.client_id := Some "Y2xpZW50LWlkLTAwMDAwMQ==";
     QRAuth.private_key := Some client_private_key;
     QRAuth.public_key := Some client_public_key;
     QRAuth.qr_timeout := 30;
     QRAuth.on_qr_code := true; QRAuth.on_authenticated := true;
     QRAuth.on_timeout := false; QRAuth.on_error := false |}.

(** What the phone sends after the scan: its public key, the HMAC tag,
    and the session keys encrypted under the keys derived from the ECDH
    secret. *)
Definition phone_shared_secret (phone_private client_public session_keys : bytes)
    : result bytes :=
  do z <- Curve25519.compute_shared_secret phone_private client_public;
  do okm <- HKDF.expand HKDF.new z 80 None;
  do c <- AESCipher.encrypt_cbc (fun _ => []) session_keys (take 32 okm)
            (Some (slice 64 80 okm));
  let encrypted_keys := drop 16 c in
  let phone_public := X25519.public_key phone_private in
  Ok (phone_public ++
      hmac.new_digest hashlib_sha256 (slice 32 64 okm) (phone_public ++ encrypted_keys) ++
      encrypted_keys).

Definition session_enc_key : bytes := replicate 32 x11.
Definition session_mac_key : bytes := replicate 32 x22.

(** A well-formed blob of 144 bytes, and the same blob with the lowest
    bit of the first tag byte flipped. *)
Definition valid_blob : bytes := Eval vm_compute in
  catch_default
    (phone_shared_secret phone_private_key client_public_key
       (session_enc_key ++ session_mac_key)) [].

Definition tampered_blob : bytes := Eval vm_compute in alter (bxor x01) 32 valid_blob.

Definition conn_message (blob : bytes) : pyval :=
  PList [PStr "Conn"; PDict {[ "secret" := PStr (base64.b64encode blob) ]}].

(** The authentication data [_process_shared_secret] builds. *)
Definition auth_dict (client_id : option string) (enc_key mac_key : bytes) (now : Z)
    : gmap string pyval :=
  <["clientId" := match client_id with Some c => PStr c | None => PNone end]>
  (<["encKey" := PBytes enc_key]>
  (<["macKey" := PBytes mac_key]>
  (<["serverToken" := PNone]>
  (<["clientToken" := PNone]>
  (<["authenticated" := PBool true]>
  (<["timestamp" := PInt now]> ∅)))))).

(** Closes an equation between two closed terms by evaluating both in
    the virtual machine, without building the normal form in the goal. *)
Ltac vm_reflexivity :=
  lazymatch goal with
  | |- ?x = ?y => vm_cast_no_check (eq_refl y)
  end.


(** Modelled from the spec: the class [Session] of [auth/session.py] is
    not among the sources.  The specification gives its persisted
    record (clientId, encKey and macKey as 64 hexadecimal characters,
    serverToken, clientToken) and says a session is restored when all
    required fields are available; this session keeps the two tokens,
    accepts exactly such a record, and takes the tokens of the
    authentication data. *)
Record spec_session : Type := {
  server_token : pyval;
  client_token : pyval
}.

Definition is_hex_char (c : ascii) : bool :=
  match hex_digit_value c with Some _ => true | None => false end.

Definition is_hex64 (v : pyval) : bool :=
  match v with
  | PStr s =>
      bool_decide (String.length s = 64) &&
      forallb is_hex_char (String.list_ascii_of_string s)
  | _ => false
  end.

Definition is_str (v : pyval) : bool :=
  match v with PStr _ => true | _ => false end.

Definition spec_session_restore (session_data : pyval) (s : spec_session)
    : result bool * spec_session :=
  match session_data with
  | PDict d =>
      if is_str (dict_get d "clientId" PNone) &&
         is_hex64 (dict_get d "encKey" PNone) && is_hex64 (dict_get d "macKey" PNone)
      then (Ok true, {| server_token := dict_get d "serverToken" PNone;
                        client_token := dict_get d "clientToken" PNone |})
      else (Ok false, s)
  | _ => (Ok false, s)
  end.

Definition spec_session_update_from_auth (auth_data : gmap string pyval)
    (s : spec_session) : result () * spec_session :=
  (Ok (), {| server_token := dict_get auth_data "serverToken" PNone;
             client_token := dict_get auth_data "clientToken" PNone |}).

Definition SpecSession : SessionClass :=
  {| session_t := spec_session;
     session_new := {| server_token := PNone; client_token := PNone |};
     session_restore := spec_session_restore;
     session_update_from_auth := spec_session_update_from_auth;
     session_server_token := server_token;
     session_client_token := client_token |}.

(** A fresh client whose [qr_auth] has been initialized. *)
Definition fresh_client : WhatsAppClient.t SpecSession :=
  {| WhatsAppClient.session := session_new SpecSession;
     WhatsAppClient.qr_auth := client_qr_auth;
     WhatsAppClient.is_authenticated := false;
     WhatsAppClient.is_connected := true;
     WhatsAppClient.client_id := PNone;
     WhatsAppClient.enc_key := PNone;
     WhatsAppClient.mac_key := PNone |}.

Definition handshake_okm : bytes := Eval vm_compute in
  catch_default (HKDF.expand HKDF.new rfc7748_shared_secret 80 None) [].


(** ** The client's keys *)

(** The session record a client saves after the simulated handshake. *)
Definition stored_session : pyval :=
  PDict (<["clientId" := PStr "Y2xpZW50LWlkLTAwMDAwMQ=="]>
        (<["encKey" := PStr (hex session_enc_key)]>
        (<["macKey" := PStr (hex session_mac_key)]>
        (<["serverToken" := PNone]>
        (<["clientToken" := PNone]> ∅))))).

(** The same record with a [macKey] that is not hexadecimal. *)
Definition damaged_session : pyval :=
  PDict (<["clientId" := PStr "Y2xpZW50LWlkLTAwMDAwMQ=="]>
        (<["encKey" := PStr (hex session_enc_key)]>
        (<["macKey" := PStr "zz"]> ∅))).

(** A session class whose [restore] accepts every record. *)
Definition LaxSession : SessionClass :=
  {| session_t := spec_session;
     session_new := {| server_token := PNone; client_token := PNone |};
     session_restore := fun _ s => (Ok true, s);
     session_update_from_auth := spec_session_update_from_auth;
     session_server_token := server_token;
     session_client_token := client_token |}.

(** The bytes [clamp_private_key] returns for a key of 32 bytes. *)
Definition clamped (k : bytes) : bytes :=
  alter (fun b => bor b x40) 31 (alter (fun b => band b x7f) 31
    (alter (fun b => band b xf8) 0 k)).


(** ** The handshake from the phone's side *)

(** The blob a phone that shares the ECDH secret [z] with the client
    sends: its public key, the HMAC tag, and the session keys encrypted
    with AES-CBC under the keys expanded from [z]. *)
Definition shared_secret_blob (z phone_public session_keys : bytes) : result bytes :=
  do okm <- HKDF.expand HKDF.new z 80 None;
  do c <- AESCipher.encrypt_cbc (fun _ => []) session_keys (take 32 okm)
            (Some (slice 64 80 okm));
  let encrypted_keys := drop 16 c in
  Ok (phone_public ++
      hmac.new_digest hashlib_sha256 (slice 32 64 okm) (phone_public ++ encrypted_keys) ++
      encrypted_keys).

(** The responses that pass the test of [initialize] and the checks of
    [_handle_init_response]: a dictionary whose ['data'] is a list of at
    least two items, the second of them true. *)
Definition init_response_ok (response : result pyval) : option pyval :=
  match response with
  | Ok (PDict d) =>
      match d !! "data" with
      | Some (PList (_ :: qr_ref :: _)) => if truthy qr_ref then Some qr_ref else None
      | _ => None
      end
  | _ => None
  end.

(** The bytes a key comes back as after it was saved: a key that is not
    set is written as the empty text and read as no bytes. *)
Definition key_bytes (key : pyval) : bytes :=
  match key with
  | PBytes b => b
  | _ => []
  end.

(** The ciphertext of the 11 bytes of [hello world] under the key
    00 01 ... 0f and the IV 10 11 ... 1f. *)
Definition hello_ciphertext : bytes := Eval vm_compute in
  catch_default
    (AESCipher.encrypt_cbc (fun _ => []) (unhex "68656c6c6f20776f726c64")
       (unhex "000102030405060708090a0b0c0d0e0f")
       (Some (unhex "101112131415161718191a1b1c1d1e1f"))) [].


(** ** AES-CBC: what decrypts is what was encrypted *)

Definition remix (x : AES.col) : AES.col := AES.mix_column (AES.inv_mix_column x).

(** The cipher context of a valid key and an IV of 12 or 16 bytes. *)
Definition gcm_context (key iv : bytes) : cryptography.GCM :=
  let ks := AES.key_expansion key in
  let H := be_value (AES.encrypt_block ks (replicate 16 x00)) in
  {| cryptography.gcm_round_keys := ks; cryptography.gcm_H := H;
     cryptography.gcm_J0 := cryptography.gcm_j0 H iv |}.

(** * Test vectors for the library models *)

(** FIPS 180-4, the one-block message "abc". *)
Example sha256_abc :
  hex (SHA256.sha256 (unhex "616263")) =
  "ba7816bf8f01cfea414140de5dae2223b00361a396177a9cb410ff61f20015ad"%string.
Proof. vm_compute. reflexivity. Qed.

(** FIPS 197, appendix C: the example vectors for the three key sizes. *)
Example aes128_fips197 :
  hex (AES.encrypt_block
         (AES.key_expansion (unhex "000102030405060708090a0b0c0d0e0f"))
         (unhex "00112233445566778899aabbccddeeff")) =
  "69c4e0d86a7b0430d8cdb78070b4c55a"%string.
Proof. vm_compute. reflexivity. Qed.

Example aes192_fips197 :
  hex (AES.encrypt_block
         (AES.key_expansion (unhex "000102030405060708090a0b0c0d0e0f1011121314151617"))
         (unhex "00112233445566778899aabbccddeeff")) =
  "dda97ca4864cdfe06eaf70a0ec0d7191"%string.
Proof. vm_compute. reflexivity. Qed.

Example aes256_fips197 :
  hex (AES.encrypt_block
         (AES.key_expansion
            (unhex "000102030405060708090a0b0c0d0e0f101112131415161718191a1b1c1d1e1f"))
         (unhex "00112233445566778899aabbccddeeff")) =
  "8ea2b7ca516745bfeafc49904b496089"%string.
Proof. vm_compute. reflexivity. Qed.

(** SP 800-38A, F.2.1 (CBC-AES128), first two blocks, through
    [encrypt_cbc]: the IV comes first. *)
Example cbc_aes128_sp800_38a :
  take 48 (catch_default
    (AESCipher.encrypt_cbc (fun _ => [])
       (unhex "6bc1bee22e409f96e93d7e117393172aae2d8a571e03ac9c9eb76fac45af8e51")
       (unhex "2b7e151628aed2a6abf7158809cf4f3c")
       (Some (unhex "000102030405060708090a0b0c0d0e0f"))) []) =
  unhex ("000102030405060708090a0b0c0d0e0f" ++
         "7649abac8119b246cee98e9b12e9197d" ++
         "5086cb9b507219ee95db113a917678b2").
Proof. vm_compute. reflexivity. Qed.

(** SP 800-38A, F.5.1 (CTR-AES128), the four blocks, through
    [encrypt_ctr] and [decrypt_ctr]. *)
Example ctr_aes128_sp800_38a :
  AESCipher.encrypt_ctr (fun _ => [])
    (unhex ("6bc1bee22e409f96e93d7e117393172a" ++ "ae2d8a571e03ac9c9eb76fac45af8e51" ++
            "30c81c46a35ce411e5fbc1191a0a52ef" ++ "f69f2445df4f9b17ad2b417be66c3710"))
    (unhex "2b7e151628aed2a6abf7158809cf4f3c")
    (Some (unhex "f0f1f2f3f4f5f6f7f8f9fafbfcfdfeff")) =
  Ok (unhex ("f0f1f2f3f4f5f6f7f8f9fafbfcfdfeff" ++
             "874d6191b620e3261bef6864990db6ce" ++ "9806f66b7970fdff8617187bb9fffdff" ++
             "5ae4df3edbd5d35e5b4f09020db03eab" ++ "1e031dda2fbe03d1792170a0f3009cee")).
Proof. vm_compute. reflexivity. Qed.

(** The GCM specification of McGrew and Viega, appendix B: test case 2
    (one block of zeros), test case 4 (additional data, a last block
    that is not full) and test case 5 (an IV of 8 bytes), through
    [encrypt_gcm]. *)
Example gcm_test_case_2 :
  AESCipher.encrypt_gcm (fun _ => []) (replicate 16 x00) (replicate 16 x00)
    (Some (replicate 12 x00)) None =
  Ok (replicate 12 x00 ++ unhex "0388dace60b6a392f328c2b971b2fe78",
      unhex "ab6e47d42cec13bdf53a67b21257bddf").
Proof. vm_compute. reflexivity. Qed.

Example gcm_test_case_4 :
  AESCipher.encrypt_gcm (fun _ => [])
    (unhex ("d9313225f88406e5a55909c5aff5269a86a7a9531534f7da2e4c303d8a318a72" ++
            "1c3c0c95956809532fcf0e2449a6b525b16aedf5aa0de657ba637b39"))
    (unhex "feffe9928665731c6d6a8f9467308308")
    (Some (unhex "cafebabefacedbaddecaf888"))
    (Some (unhex "feedfacedeadbeeffeedfacedeadbeefabaddad2")) =
  Ok (unhex "cafebabefacedbaddecaf888" ++
      unhex ("42831ec2217774244b7221b784d0d49ce3aa212f2c02a4e035c17e2329aca12e" ++
             "21d514b25466931c7d8f6a5aac84aa051ba30b396a0aac973d58e091"),
      unhex "5bc94fbc3221a5db94fae95ae7121a47").
Proof. vm_compute. reflexivity. Qed.

Example gcm_test_case_5 :
  let c := {| cryptography.gcm_round_keys :=
                AES.key_expansion (unhex "feffe9928665731c6d6a8f9467308308");
              cryptography.gcm_H :=
                be_value (AES.encrypt_block
                  (AES.key_expansion (unhex "feffe9928665731c6d6a8f9467308308"))
                  (replicate 16 x00));
              cryptography.gcm_J0 :=
                cryptography.gcm_j0
                  (be_value (AES.encrypt_block
                     (AES.key_expansion (unhex "feffe9928665731c6d6a8f9467308308"))
                     (replicate 16 x00)))
                  (unhex "cafebabefacedbad") |} in
  cryptography.Cipher_GCM (unhex "feffe9928665731c6d6a8f9467308308")
    (unhex "cafebabefacedbad") None = Ok c ∧
  cryptography.gcm_update c
    (unhex ("d9313225f88406e5a55909c5aff5269a86a7a9531534f7da2e4c303d8a318a72" ++
            "1c3c0c95956809532fcf0e2449a6b525b16aedf5aa0de657ba637b39")) =
  Ok (unhex ("61353b4c2806934a777ff51fa22a4755699b2a714fcdc6f83766e5f97b6c7423" ++
             "73806900e49f24b22b097544d4896b424989b5e1ebac0f07c23f4598")) ∧
  cryptography.gcm_tag c (unhex "feedfacedeadbeeffeedfacedeadbeefabaddad2")
    (unhex ("61353b4c2806934a777ff51fa22a4755699b2a714fcdc6f83766e5f97b6c7423" ++
            "73806900e49f24b22b097544d4896b424989b5e1ebac0f07c23f4598")) =
  unhex "3612d2e79e3b0785561be14aaca2fccb".
Proof. vm_compute. auto. Qed.

(** RFC 7748, section 5.2 (first vector) and section 6.1 (Alice's
    public key). *)
Example x25519_rfc7748 :
  hex (X25519.scalarmult
         (unhex "a546e36bf0527c9d3b16154b82465edd62144c0ac1fc5a18506a2244ba449ac4")
         (unhex "e6db6867583030db3594c1a424b15f7c726624ec26b3353b10a903a6d0ab1c4c")) =
  "c3da55379de9c6908e94ea4df28d084f32eccf03491c71f754b4075577a28552"%string.
Proof. vm_compute. reflexivity. Qed.

Example x25519_rfc7748_public :
  hex (X25519.public_key
         (unhex "77076d0a7318a57d3c16c17251b26645df4c2f87ebc0992ab177fba51db92c2a")) =
  "8520f0098930a754748b7ddcb43ef75a0dbf3a0d26381af4eba4a98eaa9b4e6a"%string.
Proof. vm_compute. reflexivity. Qed.

(** RFC 4648, section 10, and the lenient decoding of [binascii]. *)
Example b64encode_rfc4648 :
  base64.b64encode (unhex "666f6f626172") = "Zm9vYmFy"%string ∧
  base64.b64encode (unhex "666f6f6261") = "Zm9vYmE="%string ∧
  base64.b64encode (unhex "666f6f62") = "Zm9vYg=="%string.
Proof. vm_compute. auto. Qed.

Example b64decode_lenient :
  base64.b64decode "Zm9vYmE=" = Ok (unhex "666f6f6261") ∧
  base64.b64decode "Zm9v Ym E=Zm9v" = Ok (unhex "666f6f6261") ∧
  base64.b64decode "Zg=a=" = Ok (unhex "6606") ∧
  base64.b64decode "Zm9vYg=" = Raise (BinasciiError "Incorrect padding").
Proof. vm_compute. auto. Qed.

(** * Properties of the models *)

(** ** Bytes *)

Lemma byte_of_N_to_N (b : byte) : byte_of_N (Byte.to_N b) = b.
Proof.
  unfold byte_of_N. rewrite N.mod_small.
  - by rewrite Byte.of_to_N.
  - pose proof (Byte.to_N_bounded b). lia.
Qed.

Lemma to_N_byte_of_N (n : N) : Byte.to_N (byte_of_N n) = (n mod 256)%N.
Proof.
  unfold byte_of_N.
  destruct (Byte.of_N (n mod 256)) as [b|] eqn:E.
  - by apply Byte.to_of_N.
  - apply Byte.of_N_None_iff in E.
    pose proof (N.mod_upper_bound n 256). lia.
Qed.

Lemma to_N_inj (a b : byte) : Byte.to_N a = Byte.to_N b → a = b.
Proof.
  intros H. rewrite <- (byte_of_N_to_N a), <- (byte_of_N_to_N b). by rewrite H.
Qed.

Lemma lxor_byte_bound (a b : byte) :
  (N.lxor (Byte.to_N a) (Byte.to_N b) < 256)%N.
Proof.
  pose proof (Byte.to_N_bounded a). pose proof (Byte.to_N_bounded b).
  destruct (N.eq_dec (N.lxor (Byte.to_N a) (Byte.to_N b)) 0) as [->|Hne]; [lia|].
  apply (N.log2_lt_pow2 _ 8); [lia|].
  eapply N.le_lt_trans; [apply N.log2_lxor|].
  assert (Hlog : ∀ x, (x ≤ 255)%N → (N.log2 x < 8)%N).
  { intros x Hx. destruct (N.eq_dec x 0) as [->|]; [done|].
    apply N.log2_lt_pow2; lia. }
  apply N.max_lub_lt; apply Hlog; lia.
Qed.

Lemma to_N_bxor (a b : byte) :
  Byte.to_N (bxor a b) = N.lxor (Byte.to_N a) (Byte.to_N b).
Proof.
  unfold bxor. rewrite to_N_byte_of_N. apply N.mod_small, lxor_byte_bound.
Qed.

Lemma bxor_comm (a b : byte) : bxor a b = bxor b a.
Proof. apply to_N_inj. rewrite !to_N_bxor. apply N.lxor_comm. Qed.

Lemma bxor_assoc (a b c : byte) : bxor (bxor a b) c = bxor a (bxor b c).
Proof. apply to_N_inj. rewrite !to_N_bxor. apply N.lxor_assoc. Qed.

Lemma bxor_nilpotent (a : byte) : bxor a a = x00.
Proof. apply to_N_inj. rewrite to_N_bxor. apply N.lxor_nilpotent. Qed.

Lemma bxor_0_r (a : byte) : bxor a x00 = a.
Proof. apply to_N_inj. rewrite to_N_bxor. apply N.lxor_0_r. Qed.

Lemma bxor_0_l (a : byte) : bxor x00 a = a.
Proof. rewrite bxor_comm. apply bxor_0_r. Qed.

Lemma bxor_cancel_r (a b : byte) : bxor (bxor a b) b = a.
Proof. by rewrite bxor_assoc, bxor_nilpotent, bxor_0_r. Qed.

Lemma xor_bytes_length (a b : bytes) :
  length a = length b → length (xor_bytes a b) = length a.
Proof.
  revert b. induction a as [|x a IH]; intros [|y b] H; simpl in *; try done.
  f_equal. apply IH. lia.
Qed.

Lemma xor_bytes_cancel (a b : bytes) :
  length a = length b → xor_bytes (xor_bytes a b) b = a.
Proof.
  revert b. induction a as [|x a IH]; intros [|y b] H; simpl in *; try done.
  rewrite bxor_cancel_r. f_equal. apply IH. lia.
Qed.

(** ** Chunks *)

Lemma chunks_fuel_app {A : Type} (n fuel : nat) (b l : list A) :
  length b = n → 0 < n → chunks_fuel (S fuel) n (b ++ l) = b :: chunks_fuel fuel n l.
Proof.
  intros Hb Hn. simpl.
  destruct (b ++ l) eqn:E.
  - destruct b; simpl in *; [lia | done].
  - rewrite <- E. rewrite take_app_length', drop_app_length'; done.
Qed.

Lemma chunks_fuel_enough {A : Type} (n : nat) (l : list A) (f1 f2 : nat) :
  0 < n → length l ≤ f1 → length l ≤ f2 → chunks_fuel f1 n l = chunks_fuel f2 n l.
Proof.
  intros Hn. revert l f2. induction f1 as [|f1 IH]; intros l f2 H1 H2.
  - destruct l; simpl in *; [|lia]. by destruct f2.
  - destruct f2 as [|f2].
    + destruct l; simpl in *; [done | lia].
    + simpl. destruct l as [|x l]; [done|].
      f_equal. apply IH; rewrite length_drop; simpl in *; lia.
Qed.

Lemma chunks_nil {A : Type} (n : nat) : chunks n (@nil A) = [].
Proof. done. Qed.

Lemma chunks_app {A : Type} (n : nat) (b l : list A) :
  length b = n → 0 < n → chunks n (b ++ l) = b :: chunks n l.
Proof.
  intros Hb Hn. unfold chunks.
  rewrite length_app.
  replace (length b + length l) with (S (n - 1 + length l)) by lia.
  rewrite chunks_fuel_app by done. f_equal.
  apply chunks_fuel_enough; lia.
Qed.

(** ** SHA-256 and HMAC: the digest is [digest_size] bytes long *)

Lemma be_bytes_length (k : nat) (n : N) : length (be_bytes k n) = k.
Proof. induction k; simpl; congruence. Qed.

Lemma sha256_length (msg : bytes) : length (SHA256.sha256 msg) = 32.
Proof.
  unfold SHA256.sha256, SHA256.state_bytes.
  by rewrite !length_app, !be_bytes_length.
Qed.

Lemma hashlib_sha256_ok : HashFuncOk hashlib_sha256.
Proof. intros m. apply sha256_length. Qed.

Lemma hmac_length (h : HashFunc) (key msg : bytes) :
  HashFuncOk h → length (hmac.new_digest h key msg) = digest_size h.
Proof. intros Hok. apply Hok. Qed.



(** ** HKDF *)

Section HKDF_blocks.

Context (self : HKDF.t) (prk info : bytes).

Local Abbreviation hkdf_T := (hkdf_T self prk info).
Local Abbreviation hkdf_okm := (hkdf_okm self prk info).
Local Abbreviation hkdf_rounds := (hkdf_rounds self).

Lemma bytes_of_int_nat (i : nat) :
  i < 256 → bytes_of_int (Z.of_nat i) = Ok [byte_of_N (N.of_nat i)].
Proof.
  intros Hi. unfold bytes_of_int.
  rewrite bool_decide_eq_true_2 by lia.
  by rewrite <- nat_N_Z, N2Z.id.
Qed.

Lemma expand_loop_blocks (j k : nat) (okm : bytes) :
  k + j ≤ 255 →
  HKDF.expand_loop self prk info (map Z.of_nat (seq (S k) j)) okm (hkdf_T k) =
  Ok (okm ++ concat (map hkdf_T (seq (S k) j))).
Proof.
  revert k okm. induction j as [|j IH]; intros k okm Hk; simpl.
  - by rewrite app_nil_r.
  - replace (Z.pos (Pos.of_succ_nat k)) with (Z.of_nat (S k)) by lia.
    rewrite bytes_of_int_nat by lia. simpl.
    change (hmac.new_digest (HKDF.hash_func self) prk
              (hkdf_T k ++ info ++ [byte_of_N (N.of_nat (S k))]))
      with (hkdf_T (S k)).
    rewrite IH by lia. by rewrite <- app_assoc.
Qed.

Lemma hkdf_okm_S (n : nat) : hkdf_okm (S n) = hkdf_okm n ++ hkdf_T (S n).
Proof.
  unfold hkdf_okm. rewrite seq_S, map_app, concat_app. simpl.
  by rewrite app_nil_r.
Qed.

Lemma hkdf_okm_prefix (n k : nat) :
  ∃ rest, hkdf_okm (n + k) = hkdf_okm n ++ rest.
Proof.
  induction k as [|k [rest IH]].
  - exists []. by rewrite Nat.add_0_r, app_nil_r.
  - exists (rest ++ hkdf_T (S (n + k))).
    replace (n + S k) with (S (n + k)) by lia.
    by rewrite hkdf_okm_S, IH, app_assoc.
Qed.

Lemma hkdf_T_length (i : nat) :
  HashFuncOk (HKDF.hash_func self) →
  length (hkdf_T (S i)) = digest_size (HKDF.hash_func self).
Proof. intros Hok. apply Hok. Qed.

Lemma hkdf_okm_length (n : nat) :
  HashFuncOk (HKDF.hash_func self) →
  length (hkdf_okm n) = n * digest_size (HKDF.hash_func self).
Proof.
  intros Hok. induction n as [|n IH]; [done|].
  rewrite hkdf_okm_S, length_app, IH, hkdf_T_length by done. lia.
Qed.

Lemma hkdf_rounds_bounds (len : Z) :
  (0 < len ≤ 255 * HKDF.hash_len self)%Z →
  hkdf_rounds len ≤ 255 ∧
  (len ≤ Z.of_nat (hkdf_rounds len) * HKDF.hash_len self)%Z.
Proof.
  intros Hlen. unfold hkdf_rounds.
  set (h := HKDF.hash_len self) in *.
  assert (0 < h)%Z by lia.
  pose proof (Z.div_mod (len + h - 1) h ltac:(lia)) as Hdm.
  pose proof (Z.mod_pos_bound (len + h - 1) h ltac:(lia)) as Hmb.
  assert (0 ≤ (len + h - 1) `div` h)%Z by (apply Z.div_pos; lia).
  rewrite Z2Nat.id by done.
  split; [|nia].
  assert ((len + h - 1) `div` h < 256)%Z; [|lia].
  apply Z.div_lt_upper_bound; lia.
Qed.

Lemma hkdf_rounds_mono (m n : Z) :
  (0 < m ≤ n)%Z → (0 < HKDF.hash_len self)%Z → hkdf_rounds m ≤ hkdf_rounds n.
Proof.
  intros Hmn Hh. unfold hkdf_rounds.
  apply Z2Nat.inj_le.
  - apply Z.div_pos; lia.
  - apply Z.div_pos; lia.
  - apply Z.div_le_mono; lia.
Qed.

(** [expand] returns the first [len] bytes of T(1) | ... | T(n). *)
Lemma expand_blocks (len : Z) (oinfo : option bytes) :
  info = match oinfo with None => [] | Some i => i end →
  (0 < len ≤ 255 * HKDF.hash_len self)%Z →
  HKDF.expand self prk len oinfo =
  Ok (take (Z.to_nat len) (hkdf_okm (hkdf_rounds len))).
Proof.
  intros Hinfo Hlen. unfold HKDF.expand.
  rewrite bool_decide_eq_false_2 by lia.
  rewrite bool_decide_eq_false_2 by lia.
  rewrite <- Hinfo.
  destruct (hkdf_rounds_bounds len Hlen) as [Hn _].
  unfold HKDF.range1. fold (hkdf_rounds len).
  pose proof (expand_loop_blocks (hkdf_rounds len) 0 []) as Hloop.
  simpl hkdf_T in Hloop. rewrite Hloop by lia. done.
Qed.

End HKDF_blocks.



Lemma rbind_Ok {A B : Type} (a : A) (k : A → result B) : rbind (Ok a) k = k a.
Proof. reflexivity. Qed.

Lemma expand_prefix_length (self : HKDF.t) (prk : bytes) (info : option bytes)
    (n : Z) :
  HashFuncOk (HKDF.hash_func self) →
  (0 < n ≤ 255 * HKDF.hash_len self)%Z →
  ∃ okm, HKDF.expand self prk n info = Ok okm ∧ length okm = Z.to_nat n.
Proof.
  intros Hok Hn.
  set (i := match info with None => [] | Some i => i end).
  destruct (hkdf_rounds_bounds self n Hn) as [_ Hrn].
  pose proof (hkdf_okm_length self prk i (hkdf_rounds self n) Hok) as Hln.
  unfold HKDF.hash_len in Hrn.
  eexists. split; [by apply (expand_blocks self prk i)|].
  rewrite length_take. lia.
Qed.

(** C10: HKDF.expand is prefix-monotone.  For every hash function whose
    digests have the announced size, every PRK and info, and all lengths
    0 < m <= n <= 255 * hash_len, expand(prk, n, info) returns some okm
    of n bytes and expand(prk, m, info) returns the first m bytes of it. *)
Theorem expand_prefix_monotone (self : HKDF.t) (prk : bytes) (info : option bytes)
    (m n : Z) :
  HashFuncOk (HKDF.hash_func self) →
  (0 < m ≤ n)%Z →
  (n ≤ 255 * HKDF.hash_len self)%Z →
  ∃ okm,
    HKDF.expand self prk n info = Ok okm ∧
    length okm = Z.to_nat n ∧
    HKDF.expand self prk m info = Ok (take (Z.to_nat m) okm).
Proof.
  intros Hok Hmn Hn.
  set (i := match info with None => [] | Some i => i end).
  assert (Hh : (0 < HKDF.hash_len self)%Z) by lia.
  destruct (hkdf_rounds_bounds self n ltac:(lia)) as [_ Hrn].
  destruct (hkdf_rounds_bounds self m ltac:(lia)) as [_ Hrm].
  pose proof (hkdf_rounds_mono self m n Hmn Hh) as Hmono.
  pose proof (hkdf_okm_length self prk i (hkdf_rounds self n) Hok) as Hln.
  pose proof (hkdf_okm_length self prk i (hkdf_rounds self m) Hok) as Hlm.
  unfold HKDF.hash_len in Hrn, Hrm.
  exists (take (Z.to_nat n) (hkdf_okm self prk i (hkdf_rounds self n))).
  split; [by apply expand_blocks; [|lia]|].
  split; [rewrite length_take; lia|].
  rewrite (expand_blocks self prk i m info) by (done || lia).
  f_equal. rewrite take_take, Nat.min_l by lia.
  destruct (hkdf_okm_prefix self prk i (hkdf_rounds self m)
              (hkdf_rounds self n - hkdf_rounds self m)) as [rest Hrest].
  replace (hkdf_rounds self m + (hkdf_rounds self n - hkdf_rounds self m))
    with (hkdf_rounds self n) in Hrest by lia.
  rewrite Hrest, take_app_le by lia. done.
Qed.

(** A run of C10 with SHA-256, m = 42 and n = 80. *)
Lemma expand_prefix_monotone_witness :
  ∃ okm,
    HKDF.expand HKDF.new (replicate 32 x0b) 80 None = Ok okm ∧
    length okm = Z.to_nat 80 ∧
    HKDF.expand HKDF.new (replicate 32 x0b) 42 None = Ok (take (Z.to_nat 42) okm).
Proof.
  apply (expand_prefix_monotone HKDF.new (replicate 32 x0b) None 42 80).
  - apply hashlib_sha256_ok.
  - lia.
  - vm_compute. discriminate.
Defined.

(** The PRK of RFC 5869, test case 1 (appendix A.1). *)
Lemma hkdf_rfc5869_prk :
  HKDF.extract HKDF.new (replicate 22 x0b) (Some (unhex "000102030405060708090a0b0c")) =
  unhex "077709362c2e32df0ddc3f0dc47bba6390b6c73bb50f9c3122ec844ad7c2b3e5".
Proof. vm_compute. reflexivity. Qed.

(** C1: with the literal inputs of RFC 5869 test case 1 (IKM = 22 bytes
    0x0b, salt = 0x000102030405060708090a0b0c, info = 0xf0f1f2f3f4f5f6f7f8f9,
    length 42) HKDF.derive returns exactly the published 42-byte OKM, and
    verify_implementation, which runs this test, returns True. *)
Theorem hkdf_rfc5869_test_case_1 :
  HKDF.derive HKDF.new (replicate 22 x0b) 42
    (Some (unhex "000102030405060708090a0b0c"))
    (Some (unhex "f0f1f2f3f4f5f6f7f8f9")) =
  Ok (unhex ("3cb25f25faacd57a90434f64d0362f2a" ++
             "2d2d0a90cf1a5a4c5db02d56ecc4c5bf" ++
             "34007208d5b887185865")) ∧
  HKDF.verify_implementation HKDF.new = true.
Proof.
  split.
  - unfold HKDF.derive. rewrite hkdf_rfc5869_prk. vm_compute. reflexivity.
  - vm_compute. reflexivity.
Qed.

Lemma hmac_sha256_length (k m : bytes) :
  length (hmac.new_digest hashlib_sha256 k m) = 32.
Proof. apply sha256_length. Qed.

Lemma handshake_T_length (z : bytes) :
  length (handshake_T1 z) = 32 ∧ length (handshake_T2 z) = 32 ∧
  length (handshake_T3 z) = 32.
Proof. split; [|split]; apply sha256_length. Qed.

Lemma expand_80 (z : bytes) :
  HKDF.expand HKDF.new z 80 None =
  Ok (handshake_T1 z ++ handshake_T2 z ++ take 16 (handshake_T3 z)).
Proof.
  rewrite (expand_blocks HKDF.new z [] 80 None) by (done || (vm_compute; split; discriminate)).
  f_equal.
Qed.

Lemma split_80 (a b c : bytes) :
  length a = 32 → length b = 32 → length c = 16 →
  take 32 (a ++ b ++ c) = a ∧ slice 32 64 (a ++ b ++ c) = b ∧
  take 16 (drop 64 (a ++ b ++ c)) = c ∧ slice 64 80 (a ++ b ++ c) = c.
Proof.
  intros Ha Hb Hc. unfold slice.
  assert (H1 : take 32 (a ++ b ++ c) = a).
  { rewrite take_app_le by lia. rewrite take_ge; [done | lia]. }
  assert (H2 : drop 32 (a ++ b ++ c) = b ++ c).
  { rewrite drop_app_ge by lia. rewrite Ha. done. }
  assert (H3 : drop 64 (a ++ b ++ c) = c).
  { rewrite drop_app_ge by lia. rewrite Ha. simpl.
    rewrite drop_app_ge by lia. rewrite Hb. done. }
  rewrite H1, H2, H3. repeat split.
  - simpl. rewrite take_app_le by lia. rewrite take_ge; [done|lia].
  - rewrite take_ge; [done|lia].
  - simpl. rewrite take_ge; [done|lia].
Qed.




(** ** AES: the inverse cipher undoes the cipher *)

Lemma all_bytes_complete (b : byte) : b ∈ all_bytes.
Proof.
  apply list_elem_of_lookup. exists (Byte.to_nat b).
  destruct b; reflexivity.
Qed.

Lemma forall_byte (P : byte → bool) :
  forallb P all_bytes = true → ∀ b, P b = true.
Proof.
  intros H b. rewrite forallb_forall in H. apply H.
  apply list_elem_of_In, all_bytes_complete.
Qed.

Lemma forall_byte2 (P : byte → byte → bool) :
  forallb (fun a => forallb (P a) all_bytes) all_bytes = true →
  ∀ a b, P a b = true.
Proof.
  intros H a b.
  apply (forall_byte (P a)). apply (forall_byte (fun a => forallb (P a) all_bytes) H).
Qed.

Lemma linearb_linear (f : byte → byte) : linearb f = true → linear f.
Proof.
  intros H a b.
  pose proof (forall_byte2
    (fun a b => bool_decide (f (bxor a b) = bxor (f a) (f b))) H a b) as Hab.
  by apply bool_decide_eq_true_1 in Hab.
Qed.

Lemma xtime_linear : linear AES.xtime.
Proof. apply linearb_linear. vm_compute. reflexivity. Qed.

Lemma bxor_interchange (p q p' q' : byte) :
  bxor (bxor p p') (bxor q q') = bxor (bxor p q) (bxor p' q').
Proof.
  rewrite !bxor_assoc. f_equal.
  rewrite <- !bxor_assoc. f_equal. apply bxor_comm.
Qed.

Lemma id_linear : linear (fun b => b).
Proof. by intros a b. Qed.

Lemma linear_compose (f g : byte → byte) :
  linear f → linear g → linear (fun b => f (g b)).
Proof. intros Hf Hg a b. by rewrite Hg, Hf. Qed.

Lemma linear_bxor (f g : byte → byte) :
  linear f → linear g → linear (fun b => bxor (f b) (g b)).
Proof. intros Hf Hg a b. rewrite Hf, Hg. apply bxor_interchange. Qed.

Lemma xtime2_linear : linear (fun b => AES.xtime (AES.xtime b)).
Proof. apply (linear_compose AES.xtime AES.xtime); apply xtime_linear. Qed.

Lemma xtime3_linear : linear (fun b => AES.xtime (AES.xtime (AES.xtime b))).
Proof. apply (linear_compose AES.xtime); [apply xtime_linear | apply xtime2_linear]. Qed.

Lemma mul2_linear : linear AES.mul2.
Proof. apply xtime_linear. Qed.

Lemma mul3_linear : linear AES.mul3.
Proof. apply (linear_bxor AES.xtime (fun b => b)); [apply xtime_linear | apply id_linear]. Qed.

Lemma mul9_linear : linear AES.mul9.
Proof.
  apply (linear_bxor (fun b => AES.xtime (AES.xtime (AES.xtime b))) (fun b => b));
    [apply xtime3_linear | apply id_linear].
Qed.

Lemma mul11_linear : linear AES.mul11.
Proof.
  apply (linear_bxor
    (fun b => bxor (AES.xtime (AES.xtime (AES.xtime b))) (AES.xtime b)) (fun b => b));
    [|apply id_linear].
  apply (linear_bxor (fun b => AES.xtime (AES.xtime (AES.xtime b))) AES.xtime);
    [apply xtime3_linear | apply xtime_linear].
Qed.

Lemma mul13_linear : linear AES.mul13.
Proof.
  apply (linear_bxor
    (fun b => bxor (AES.xtime (AES.xtime (AES.xtime b))) (AES.xtime (AES.xtime b)))
    (fun b => b)); [|apply id_linear].
  apply (linear_bxor (fun b => AES.xtime (AES.xtime (AES.xtime b)))
           (fun b => AES.xtime (AES.xtime b)));
    [apply xtime3_linear | apply xtime2_linear].
Qed.

Lemma mul14_linear : linear AES.mul14.
Proof.
  apply (linear_bxor
    (fun b => bxor (AES.xtime (AES.xtime (AES.xtime b))) (AES.xtime (AES.xtime b)))
    AES.xtime); [|apply xtime_linear].
  apply (linear_bxor (fun b => AES.xtime (AES.xtime (AES.xtime b)))
           (fun b => AES.xtime (AES.xtime b)));
    [apply xtime3_linear | apply xtime2_linear].
Qed.

Lemma xor4_interchange (p q r s p' q' r' s' : byte) :
  AES.xor4 (bxor p p') (bxor q q') (bxor r r') (bxor s s') =
  bxor (AES.xor4 p q r s) (AES.xor4 p' q' r' s').
Proof.
  unfold AES.xor4. apply to_N_inj. rewrite !to_N_bxor.
  apply N.bits_inj. intros n. rewrite !N.lxor_spec.
  destruct (N.testbit (Byte.to_N p) n), (N.testbit (Byte.to_N q) n),
    (N.testbit (Byte.to_N r) n), (N.testbit (Byte.to_N s) n),
    (N.testbit (Byte.to_N p') n), (N.testbit (Byte.to_N q') n),
    (N.testbit (Byte.to_N r') n), (N.testbit (Byte.to_N s') n); reflexivity.
Qed.

Lemma xor4_linear (f g h k : byte → byte) (a b c d a' b' c' d' : byte) :
  linear f → linear g → linear h → linear k →
  AES.xor4 (f (bxor a a')) (g (bxor b b')) (h (bxor c c')) (k (bxor d d')) =
  bxor (AES.xor4 (f a) (g b) (h c) (k d)) (AES.xor4 (f a') (g b') (h c') (k d')).
Proof.
  intros Hf Hg Hh Hk. rewrite Hf, Hg, Hh, Hk. apply xor4_interchange.
Qed.

Lemma mix_column_linear (x y : AES.col) :
  AES.mix_column (AES.xor_col x y) = AES.xor_col (AES.mix_column x) (AES.mix_column y).
Proof.
  destruct x as [[[a b] c] d], y as [[[a' b'] c'] d']. unfold AES.mix_column, AES.xor_col.
  repeat f_equal.
  - apply (xor4_linear AES.mul2 AES.mul3 (fun b => b) (fun b => b));
      auto using mul2_linear, mul3_linear, id_linear.
  - apply (xor4_linear (fun b => b) AES.mul2 AES.mul3 (fun b => b));
      auto using mul2_linear, mul3_linear, id_linear.
  - apply (xor4_linear (fun b => b) (fun b => b) AES.mul2 AES.mul3);
      auto using mul2_linear, mul3_linear, id_linear.
  - apply (xor4_linear AES.mul3 (fun b => b) (fun b => b) AES.mul2);
      auto using mul2_linear, mul3_linear, id_linear.
Qed.

Lemma inv_mix_column_linear (x y : AES.col) :
  AES.inv_mix_column (AES.xor_col x y) =
  AES.xor_col (AES.inv_mix_column x) (AES.inv_mix_column y).
Proof.
  destruct x as [[[a b] c] d], y as [[[a' b'] c'] d'].
  unfold AES.inv_mix_column, AES.xor_col.
  repeat f_equal.
  - apply (xor4_linear AES.mul14 AES.mul11 AES.mul13 AES.mul9);
      auto using mul9_linear, mul11_linear, mul13_linear, mul14_linear.
  - apply (xor4_linear AES.mul9 AES.mul14 AES.mul11 AES.mul13);
      auto using mul9_linear, mul11_linear, mul13_linear, mul14_linear.
  - apply (xor4_linear AES.mul13 AES.mul9 AES.mul14 AES.mul11);
      auto using mul9_linear, mul11_linear, mul13_linear, mul14_linear.
  - apply (xor4_linear AES.mul11 AES.mul13 AES.mul9 AES.mul14);
      auto using mul9_linear, mul11_linear, mul13_linear, mul14_linear.
Qed.

(** On a column with a single non-zero byte the two maps cancel: 256
    cases for each of the four positions. *)
Lemma forall_byte_prop (P : byte → Prop) `{!∀ b, Decision (P b)} :
  forallb (fun b => bool_decide (P b)) all_bytes = true → ∀ b, P b.
Proof.
  intros Hall b.
  pose proof (forall_byte (fun b => bool_decide (P b)) Hall b) as Hb.
  by apply bool_decide_eq_true_1 in Hb.
Qed.

Lemma unmix_unit_0 (b : byte) :
  AES.inv_mix_column (AES.mix_column (b, x00, x00, x00)) = (b, x00, x00, x00).
Proof.
  revert b.
  apply (forall_byte_prop
    (fun b => AES.inv_mix_column (AES.mix_column (b, x00, x00, x00)) = (b, x00, x00, x00))).
  vm_compute. reflexivity.
Qed.

Lemma unmix_unit_1 (b : byte) :
  AES.inv_mix_column (AES.mix_column (x00, b, x00, x00)) = (x00, b, x00, x00).
Proof.
  revert b.
  apply (forall_byte_prop
    (fun b => AES.inv_mix_column (AES.mix_column (x00, b, x00, x00)) = (x00, b, x00, x00))).
  vm_compute. reflexivity.
Qed.

Lemma unmix_unit_2 (b : byte) :
  AES.inv_mix_column (AES.mix_column (x00, x00, b, x00)) = (x00, x00, b, x00).
Proof.
  revert b.
  apply (forall_byte_prop
    (fun b => AES.inv_mix_column (AES.mix_column (x00, x00, b, x00)) = (x00, x00, b, x00))).
  vm_compute. reflexivity.
Qed.

Lemma unmix_unit_3 (b : byte) :
  AES.inv_mix_column (AES.mix_column (x00, x00, x00, b)) = (x00, x00, x00, b).
Proof.
  revert b.
  apply (forall_byte_prop
    (fun b => AES.inv_mix_column (AES.mix_column (x00, x00, x00, b)) = (x00, x00, x00, b))).
  vm_compute. reflexivity.
Qed.

Lemma col_decompose (a b c d : byte) :
  (a, b, c, d) =
  AES.xor_col (AES.xor_col (a, x00, x00, x00) (x00, b, x00, x00))
              (AES.xor_col (x00, x00, c, x00) (x00, x00, x00, d)).
Proof.
  unfold AES.xor_col. by rewrite !bxor_0_r, !bxor_0_l.
Qed.

Lemma unmix_linear (x y : AES.col) :
  unmix (AES.xor_col x y) = AES.xor_col (unmix x) (unmix y).
Proof.
  unfold unmix. rewrite mix_column_linear. apply inv_mix_column_linear.
Qed.

Lemma inv_mix_column_mix_column (x : AES.col) :
  AES.inv_mix_column (AES.mix_column x) = x.
Proof.
  change (unmix x = x).
  destruct x as [[[a b] c] d].
  pose proof (unmix_unit_0 a) as Ha. pose proof (unmix_unit_1 b) as Hb.
  pose proof (unmix_unit_2 c) as Hc. pose proof (unmix_unit_3 d) as Hd.
  fold (unmix (a, x00, x00, x00)) in Ha. fold (unmix (x00, b, x00, x00)) in Hb.
  fold (unmix (x00, x00, c, x00)) in Hc. fold (unmix (x00, x00, x00, d)) in Hd.
  etransitivity; [apply (f_equal unmix (col_decompose a b c d))|].
  rewrite !unmix_linear, Ha, Hb, Hc, Hd.
  symmetry. apply col_decompose.
Qed.

Lemma inv_sbox_sbox (b : byte) : AES.inv_sbox (AES.sbox b) = b.
Proof. destruct b; reflexivity. Qed.

Lemma inv_sub_bytes_sub_bytes (s : AES.state) :
  AES.inv_sub_bytes (AES.sub_bytes s) = s.
Proof.
  destruct s as [[[[[[a0 a1] a2] a3] [[[b0 b1] b2] b3]] [[[c0 c1] c2] c3]] [[[d0 d1] d2] d3]].
  unfold AES.inv_sub_bytes, AES.sub_bytes, AES.map_state, AES.map_col.
  by rewrite !inv_sbox_sbox.
Qed.

Lemma inv_shift_rows_shift_rows (s : AES.state) :
  AES.inv_shift_rows (AES.shift_rows s) = s.
Proof.
  by destruct s as [[[[[[a0 a1] a2] a3] [[[b0 b1] b2] b3]] [[[c0 c1] c2] c3]] [[[d0 d1] d2] d3]].
Qed.

Lemma inv_mix_columns_mix_columns (s : AES.state) :
  AES.inv_mix_columns (AES.mix_columns s) = s.
Proof.
  destruct s as [[[c0 c1] c2] c3].
  unfold AES.inv_mix_columns, AES.mix_columns, AES.map_state.
  by rewrite !inv_mix_column_mix_column.
Qed.

Lemma xor_col_cancel (x k : AES.col) : AES.xor_col (AES.xor_col x k) k = x.
Proof.
  destruct x as [[[a b] c] d], k as [[[a' b'] c'] d'].
  unfold AES.xor_col. by rewrite !bxor_cancel_r.
Qed.

Lemma add_round_key_cancel (k s : AES.state) :
  AES.add_round_key k (AES.add_round_key k s) = s.
Proof.
  destruct s as [[[c0 c1] c2] c3], k as [[[k0 k1] k2] k3].
  unfold AES.add_round_key. by rewrite !xor_col_cancel.
Qed.

Lemma inv_rounds_rounds (ks : list AES.state) (s : AES.state) :
  AES.inv_rounds ks (AES.rounds ks s) = s.
Proof.
  revert s. induction ks as [|k ks IH]; intros s; [done|].
  destruct ks as [|k' ks].
  - simpl. by rewrite add_round_key_cancel, inv_shift_rows_shift_rows,
      inv_sub_bytes_sub_bytes.
  - change (AES.rounds (k :: k' :: ks) s)
      with (AES.rounds (k' :: ks)
              (AES.add_round_key k (AES.mix_columns (AES.shift_rows (AES.sub_bytes s))))).
    change (AES.inv_rounds (k :: k' :: ks) ?x)
      with (AES.inv_sub_bytes (AES.inv_shift_rows (AES.inv_mix_columns
              (AES.add_round_key k (AES.inv_rounds (k' :: ks) x))))).
    by rewrite IH, add_round_key_cancel, inv_mix_columns_mix_columns,
      inv_shift_rows_shift_rows, inv_sub_bytes_sub_bytes.
Qed.

Lemma inv_cipher_cipher (ks : list AES.state) (s : AES.state) :
  AES.inv_cipher ks (AES.cipher ks s) = s.
Proof.
  destruct ks as [|k0 ks]; [done|].
  unfold AES.inv_cipher, AES.cipher.
  by rewrite inv_rounds_rounds, add_round_key_cancel.
Qed.

Lemma state_of_block_of_state (s : AES.state) :
  AES.state_of_block (AES.block_of_state s) = s.
Proof.
  by destruct s as [[[[[[a0 a1] a2] a3] [[[b0 b1] b2] b3]] [[[c0 c1] c2] c3]] [[[d0 d1] d2] d3]].
Qed.

Lemma block_of_state_of_block (b : bytes) :
  length b = 16 → AES.block_of_state (AES.state_of_block b) = b.
Proof.
  intros H.
  do 16 (destruct b as [|? b]; [done|]). by destruct b.
Qed.

Lemma block_of_state_length (s : AES.state) : length (AES.block_of_state s) = 16.
Proof.
  by destruct s as [[[[[[a0 a1] a2] a3] [[[b0 b1] b2] b3]] [[[c0 c1] c2] c3]] [[[d0 d1] d2] d3]].
Qed.

Lemma encrypt_block_length (ks : list AES.state) (b : bytes) :
  length (AES.encrypt_block ks b) = 16.
Proof. apply block_of_state_length. Qed.

Lemma decrypt_block_length (ks : list AES.state) (b : bytes) :
  length (AES.decrypt_block ks b) = 16.
Proof. apply block_of_state_length. Qed.

(** The block cipher is invertible, whatever the round keys. *)
Lemma decrypt_encrypt_block (ks : list AES.state) (b : bytes) :
  length b = 16 → AES.decrypt_block ks (AES.encrypt_block ks b) = b.
Proof.
  intros H. unfold AES.decrypt_block, AES.encrypt_block.
  by rewrite state_of_block_of_state, inv_cipher_cipher, block_of_state_of_block.
Qed.



(** ** PKCS7 padding and CBC chaining *)

Lemma byte_to_nat_of_nat (n : nat) : n < 256 → Byte.to_nat (byte_of_nat n) = n.
Proof.
  intros H. unfold byte_of_nat.
  rewrite Byte.to_nat_via_N, to_N_byte_of_N, N.mod_small by lia. lia.
Qed.

Lemma padder_pads (p : bytes) :
  let '(out, buffer) := cryptography.padder_update [] p in
  out ++ cryptography.padder_finalize buffer = pkcs7_pad p.
Proof.
  unfold cryptography.padder_update, cryptography.padder_finalize, pkcs7_pad.
  rewrite app_nil_l.
  set (q := length p `div` 16).
  pose proof (Nat.div_mod (length p) 16 ltac:(lia)) as Hdm.
  pose proof (Nat.mod_upper_bound (length p) 16 ltac:(lia)) as Hm.
  fold q in Hdm.
  rewrite length_drop.
  replace (16 - (length p - q * 16)) with (16 - length p `mod` 16) by lia.
  by rewrite app_assoc, take_drop.
Qed.

Lemma pkcs7_pad_length (p : bytes) :
  length (pkcs7_pad p) = (length p `div` 16 + 1) * 16.
Proof.
  unfold pkcs7_pad. rewrite length_app, length_replicate.
  pose proof (Nat.div_mod (length p) 16 ltac:(lia)).
  pose proof (Nat.mod_upper_bound (length p) 16 ltac:(lia)). lia.
Qed.

Lemma forallb_replicate {A : Type} (f : A → bool) (n : nat) (x : A) :
  f x = true → forallb f (replicate n x) = true.
Proof. intros H. induction n; simpl; [done|]. by rewrite H. Qed.

(** Unpadding the last block of a padded message gives back the bytes
    before the padding. *)
Lemma unpadder_unpads (p : bytes) :
  let '(out, buffer) := cryptography.unpadder_update [] (pkcs7_pad p) in
  ∃ rest, cryptography.unpadder_finalize buffer = Ok rest ∧ out ++ rest = p.
Proof.
  unfold cryptography.unpadder_update. rewrite app_nil_l.
  rewrite pkcs7_pad_length.
  set (q := length p `div` 16).
  pose proof (Nat.div_mod (length p) 16 ltac:(lia)) as Hdm.
  pose proof (Nat.mod_upper_bound (length p) 16 ltac:(lia)) as Hm.
  fold q in Hdm.
  replace (((q + 1) * 16) `div` 16 - 1) with q
    by (rewrite Nat.div_mul by lia; lia).
  set (pad := 16 - length p `mod` 16).
  assert (Hpad : 0 < pad ≤ 16) by (unfold pad; lia).
  assert (Hdrop : drop (q * 16) (pkcs7_pad p) =
                  drop (q * 16) p ++ replicate pad (byte_of_nat pad)).
  { unfold pkcs7_pad. fold pad. by rewrite drop_app_le by lia. }
  assert (Htake : take (q * 16) (pkcs7_pad p) = take (q * 16) p).
  { unfold pkcs7_pad. by rewrite take_app_le by lia. }
  rewrite Hdrop, Htake.
  set (buffer := drop (q * 16) p ++ replicate pad (byte_of_nat pad)).
  assert (Hlen : length buffer = 16).
  { unfold buffer. rewrite length_app, length_drop, length_replicate. lia. }
  assert (Hlast : List.last buffer x00 = byte_of_nat pad).
  { unfold buffer. destruct pad as [|pad']; [lia|].
    rewrite replicate_S_end, app_assoc. apply last_last. }
  exists (drop (q * 16) p). split; [|apply take_drop].
  unfold cryptography.unpadder_finalize.
  rewrite bool_decide_eq_false_2 by lia.
  unfold cryptography.check_pkcs7_padding.
  rewrite Hlast, byte_to_nat_of_nat by lia.
  rewrite bool_decide_eq_true_2 by lia.
  assert (Hd : drop (length buffer - pad) buffer = replicate pad (byte_of_nat pad)).
  { unfold buffer at 2. rewrite drop_app_length'; [done|].
    rewrite length_drop. lia. }
  rewrite Hd, forallb_replicate
    by (rewrite byte_to_nat_of_nat by lia; by apply bool_decide_eq_true_2).
  simpl. f_equal.
  unfold buffer. rewrite take_app_length'; [done|].
  rewrite length_app, length_drop, length_replicate. lia.
Qed.

(** A message whose length is a multiple of 16 is the concatenation of
    its chunks, each of 16 bytes. *)
Lemma chunks_blocks (n : nat) (data : bytes) :
  length data = n * 16 →
  Forall (fun b => length b = 16) (chunks 16 data) ∧ concat (chunks 16 data) = data.
Proof.
  revert data. induction n as [|n IH]; intros data Hlen.
  - destruct data; [|done]. by split.
  - rewrite <- (take_drop 16 data).
    assert (Ht : length (take 16 data) = 16) by (rewrite length_take; lia).
    rewrite chunks_app by (done || lia).
    destruct (IH (drop 16 data)) as [HF HC]; [rewrite length_drop; lia|].
    split; [by constructor|]. simpl. by rewrite HC.
Qed.

Lemma cbc_encrypt_blocks_length (ks : list AES.state) (prev : bytes) (blocks : list bytes) :
  length (cryptography.cbc_encrypt_blocks ks prev blocks) = length blocks * 16.
Proof.
  revert prev. induction blocks as [|b blocks IH]; intros prev; [done|].
  simpl. by rewrite length_app, encrypt_block_length, IH.
Qed.

Lemma cbc_decrypt_encrypt_blocks (ks : list AES.state) (prev : bytes) (blocks : list bytes) :
  length prev = 16 →
  Forall (fun b => length b = 16) blocks →
  cryptography.cbc_decrypt_blocks ks prev
    (chunks 16 (cryptography.cbc_encrypt_blocks ks prev blocks)) = concat blocks.
Proof.
  intros Hprev HF. revert prev Hprev.
  induction HF as [|b blocks Hb HF IH]; intros prev Hprev; [done|].
  cbn [cryptography.cbc_encrypt_blocks].
  rewrite chunks_app by (apply encrypt_block_length || lia).
  cbn [cryptography.cbc_decrypt_blocks concat].
  rewrite IH by apply encrypt_block_length.
  rewrite decrypt_encrypt_block by (rewrite xor_bytes_length; lia).
  by rewrite xor_bytes_cancel by lia.
Qed.

Lemma valid_key_cipher (key iv : bytes) :
  length key ∈ [16; 24; 32] → length iv = 16 →
  cryptography.algorithms_AES key = Ok key ∧
  cryptography.Cipher_CBC key iv =
  Ok {| cryptography.round_keys := AES.key_expansion key; cryptography.iv := iv |}.
Proof.
  intros Hk Hiv.
  assert (Hcases : length key = 16 ∨ length key = 24 ∨ length key = 32).
  { revert Hk. rewrite !elem_of_cons, elem_of_nil. tauto. }
  unfold cryptography.algorithms_AES, cryptography.Cipher_CBC.
  rewrite bool_decide_eq_true_2 by (rewrite !elem_of_cons; lia).
  rewrite bool_decide_eq_false_2 by lia.
  rewrite bool_decide_eq_false_2 by lia. done.
Qed.

(** What [encrypt_cbc] returns for a valid key and IV. *)
Lemma encrypt_cbc_value (urandom : nat → bytes) (p key iv : bytes) :
  length key ∈ [16; 24; 32] → length iv = 16 →
  AESCipher.encrypt_cbc urandom p key (Some iv) =
  Ok (iv ++ cryptography.cbc_encrypt_blocks (AES.key_expansion key) iv
              (chunks 16 (pkcs7_pad p))).
Proof.
  intros Hk Hiv. unfold AESCipher.encrypt_cbc.
  rewrite bool_decide_eq_false_2 by lia. rewrite rbind_Ok.
  pose proof (padder_pads p) as Hpad.
  destruct (cryptography.padder_update [] p) as [out buffer]. rewrite Hpad.
  destruct (valid_key_cipher key iv Hk Hiv) as [HA HC].
  rewrite HA, rbind_Ok, HC, rbind_Ok.
  unfold cryptography.encryptor_update_finalize.
  rewrite bool_decide_eq_false_2; [done|].
  intros Hne. apply Hne. rewrite pkcs7_pad_length. apply Nat.Div0.mod_mul.
Qed.

(** C5: AES-CBC with PKCS7 padding round-trips.  For every plaintext
    (of any length, so in particular of 0 to 1000 bytes), every key of
    16, 24 or 32 bytes and every 16-byte IV, encrypt_cbc returns the IV
    followed by the ciphertext, and decrypt_cbc of that under the same
    key returns the plaintext. *)
Theorem decrypt_cbc_encrypt_cbc (urandom : nat → bytes) (p key iv : bytes) :
  length key ∈ [16; 24; 32] →
  length iv = 16 →
  ∃ c,
    AESCipher.encrypt_cbc urandom p key (Some iv) = Ok c ∧
    take 16 c = iv ∧
    length c = 16 + (length p `div` 16 + 1) * 16 ∧
    AESCipher.decrypt_cbc c key = Ok p.
Proof.
  intros Hk Hiv.
  destruct (chunks_blocks (length p `div` 16 + 1) (pkcs7_pad p)
              (pkcs7_pad_length p)) as [HF Hconcat].
  eexists. split; [by apply encrypt_cbc_value|].
  split; [by rewrite take_app_length'|].
  split.
  { rewrite length_app, cbc_encrypt_blocks_length, Hiv. f_equal. f_equal.
    apply (f_equal length) in Hconcat.
    rewrite pkcs7_pad_length in Hconcat.
    clear -HF Hconcat. revert Hconcat. generalize (length p `div` 16 + 1).
    induction HF as [|b bs Hb HF IH]; intros n; simpl; [lia|].
    rewrite length_app, Hb. intros Hn.
    destruct n as [|n]; [lia|]. f_equal. apply (IH n). lia. }
  unfold AESCipher.decrypt_cbc.
  rewrite bool_decide_eq_false_2 by (rewrite length_app; lia).
  rewrite take_app_length', drop_app_length' by done.
  destruct (valid_key_cipher key iv Hk Hiv) as [HA HC].
  rewrite HA, rbind_Ok, HC, rbind_Ok.
  unfold cryptography.decryptor_update_finalize.
  rewrite bool_decide_eq_false_2.
  2: { intros Hne. apply Hne. rewrite cbc_encrypt_blocks_length.
       apply Nat.Div0.mod_mul. }
  rewrite rbind_Ok. cbn [cryptography.round_keys cryptography.iv].
  rewrite cbc_decrypt_encrypt_blocks, Hconcat by done.
  pose proof (unpadder_unpads p) as Hun.
  destruct (cryptography.unpadder_update [] (pkcs7_pad p)) as [out buffer].
  destruct Hun as (rest & -> & <-). by rewrite rbind_Ok.
Qed.

(** A run of C5 on an 11-byte plaintext under a 16-byte key. *)
Lemma decrypt_cbc_encrypt_cbc_witness :
  ∃ c,
    AESCipher.encrypt_cbc (fun _ => []) (unhex "68656c6c6f20776f726c64")
      (unhex "000102030405060708090a0b0c0d0e0f")
      (Some (unhex "101112131415161718191a1b1c1d1e1f")) = Ok c ∧
    take 16 c = unhex "101112131415161718191a1b1c1d1e1f" ∧
    length c = 16 + (length (unhex "68656c6c6f20776f726c64") `div` 16 + 1) * 16 ∧
    AESCipher.decrypt_cbc c (unhex "000102030405060708090a0b0c0d0e0f") =
    Ok (unhex "68656c6c6f20776f726c64").
Proof.
  apply (decrypt_cbc_encrypt_cbc (fun _ => []) (unhex "68656c6c6f20776f726c64")
           (unhex "000102030405060708090a0b0c0d0e0f")
           (unhex "101112131415161718191a1b1c1d1e1f")).
  - change (length (unhex "000102030405060708090a0b0c0d0e0f")) with 16.
    apply list_elem_of_here.
  - reflexivity.
Defined.



(** ** A simulated handshake: the client and the phone that scans the QR code *)

Example valid_blob_length : length valid_blob = 144 ∧ length tampered_blob = 144.
Proof. split; reflexivity. Qed.

Example handshake_ecdh :
  Curve25519.compute_shared_secret client_private_key (take 32 valid_blob) =
  Ok rfc7748_shared_secret.
Proof. vm_compute. reflexivity. Qed.

(** The end-to-end scenario: the valid blob authenticates, with the
    session keys the phone sent, and the handler is called once. *)
Example handshake_succeeds :
  QRAuth.handle_connection_message client_qr_auth 1700000000 (conn_message valid_blob) =
  (true, [QRAuth.Authenticated
            (auth_dict (Some "Y2xpZW50LWlkLTAwMDAwMQ==") session_enc_key session_mac_key
               1700000000)]).
Proof. vm_reflexivity. Qed.

Example handshake_tampered :
  QRAuth.process_shared_secret_body client_qr_auth 1700000000 tampered_blob =
  Raise (ValueError "HMAC validation failed").
Proof. vm_compute. reflexivity. Qed.

Example handshake_auth_data :
  QRAuth._process_shared_secret client_qr_auth 1700000000 valid_blob =
  Some (auth_dict (Some "Y2xpZW50LWlkLTAwMDAwMQ==") session_enc_key session_mac_key
          1700000000).
Proof. vm_reflexivity. Qed.



(** Expanding the raw secret is not the full derivation: with the
    extract step the 80 bytes are different. *)
Example expand_is_not_derive :
  HKDF.derive HKDF.new rfc7748_shared_secret 80 None None ≠
  HKDF.expand HKDF.new rfc7748_shared_secret 80 None.
Proof. vm_compute. discriminate. Qed.



(** ** The key exchange *)

Lemma process_shared_secret_short (self : QRAuth.t) (now : Z) (blob : bytes) :
  length blob < 96 →
  QRAuth.process_shared_secret_body self now blob =
  Raise (ValueError "Shared secret too short").
Proof.
  intros H. unfold QRAuth.process_shared_secret_body.
  by rewrite bool_decide_eq_true_2.
Qed.

(** The body of the key exchange once the ECDH secret and its expansion
    are known. *)
Lemma process_shared_secret_body_eq (self : QRAuth.t) (now : Z)
    (blob priv z okm : bytes) :
  96 ≤ length blob →
  QRAuth.private_key self = Some priv →
  Curve25519.compute_shared_secret priv (take 32 blob) = Ok z →
  HKDF.expand HKDF.new z 80 None = Ok okm →
  QRAuth.process_shared_secret_body self now blob =
  QRAuth.verify_and_decrypt self now (take 32 okm) (slice 32 64 okm) (slice 64 80 okm)
    (take 32 blob) (slice 32 64 blob) (drop 64 blob).
Proof.
  intros Hlen Hpriv Hz Hokm. unfold QRAuth.process_shared_secret_body.
  rewrite bool_decide_eq_false_2 by lia.
  rewrite Hpriv, rbind_Ok, Hz, rbind_Ok. cbv zeta.
  by rewrite Hokm, rbind_Ok.
Qed.

Lemma verify_and_decrypt_mismatch (self : QRAuth.t) (now : Z)
    (aes_key hmac_key iv pk tag enc : bytes) :
  tag ≠ hmac.new_digest hashlib_sha256 hmac_key (pk ++ enc) →
  QRAuth.verify_and_decrypt self now aes_key hmac_key iv pk tag enc =
  Raise (ValueError "HMAC validation failed").
Proof.
  intros Hne. unfold QRAuth.verify_and_decrypt, hmac.compare_digest.
  cbv zeta. by rewrite bool_decide_eq_false_2.
Qed.

Lemma verify_and_decrypt_Ok (self : QRAuth.t) (now : Z)
    (aes_key hmac_key iv pk tag enc : bytes) (auth : gmap string pyval) :
  QRAuth.verify_and_decrypt self now aes_key hmac_key iv pk tag enc = Ok auth →
  tag = hmac.new_digest hashlib_sha256 hmac_key (pk ++ enc) ∧
  ∃ decrypted_keys,
    AESCipher.decrypt_cbc (iv ++ enc) aes_key = Ok decrypted_keys ∧
    64 ≤ length decrypted_keys ∧
    auth = auth_dict (QRAuth.client_id self) (take 32 decrypted_keys)
             (slice 32 64 decrypted_keys) now.
Proof.
  unfold QRAuth.verify_and_decrypt, hmac.compare_digest. cbv zeta.
  destruct (bool_decide (tag = _)) eqn:Htag; [|done].
  apply bool_decide_eq_true_1 in Htag. cbn [negb].
  destruct (AESCipher.decrypt_cbc (iv ++ enc) aes_key) as [dec|e]; [|done].
  rewrite rbind_Ok.
  destruct (bool_decide (length dec < 64)) eqn:Hlen; [done|].
  apply bool_decide_eq_false_1 in Hlen.
  intros [= <-]. split; [done|]. exists dec. split; [done|]. split; [lia|done].
Qed.

Lemma process_shared_secret_body_Ok (self : QRAuth.t) (now : Z) (blob : bytes)
    (auth : gmap string pyval) :
  QRAuth.process_shared_secret_body self now blob = Ok auth →
  ∃ priv z okm decrypted_keys,
    96 ≤ length blob ∧
    QRAuth.private_key self = Some priv ∧
    Curve25519.compute_shared_secret priv (take 32 blob) = Ok z ∧
    HKDF.expand HKDF.new z 80 None = Ok okm ∧
    slice 32 64 blob =
      hmac.new_digest hashlib_sha256 (slice 32 64 okm) (take 32 blob ++ drop 64 blob) ∧
    AESCipher.decrypt_cbc (slice 64 80 okm ++ drop 64 blob) (take 32 okm) =
      Ok decrypted_keys ∧
    64 ≤ length decrypted_keys ∧
    auth = auth_dict (QRAuth.client_id self) (take 32 decrypted_keys)
             (slice 32 64 decrypted_keys) now.
Proof.
  unfold QRAuth.process_shared_secret_body.
  destruct (bool_decide (length blob < 96)) eqn:Hlen; [done|].
  apply bool_decide_eq_false_1 in Hlen.
  destruct (QRAuth.private_key self) as [priv|]; [|done].
  rewrite rbind_Ok.
  destruct (Curve25519.compute_shared_secret priv (take 32 blob)) as [z|] eqn:Hz; [|done].
  rewrite rbind_Ok. cbv zeta.
  destruct (HKDF.expand HKDF.new z 80 None) as [okm|] eqn:Hokm; [|done].
  rewrite rbind_Ok.
  intros H. apply verify_and_decrypt_Ok in H as (Htag & dec & Hdec & Hl & ->).
  exists priv, z, okm, dec. repeat (split; [done || lia|]). done.
Qed.

Lemma auth_dict_keys (cid : option string) (ek mk : bytes) (now : Z) :
  auth_dict cid ek mk now !! "encKey" = Some (PBytes ek) ∧
  auth_dict cid ek mk now !! "macKey" = Some (PBytes mk) ∧
  auth_dict cid ek mk now !! "clientId" =
    Some (match cid with Some c => PStr c | None => PNone end).
Proof.
  unfold auth_dict. split; [|split].
  - by rewrite lookup_insert_ne, lookup_insert_eq.
  - by rewrite !(lookup_insert_ne _ _ "macKey") by done; rewrite lookup_insert_eq.
  - by rewrite lookup_insert_eq.
Qed.

Lemma slice_length (i j : nat) (b : bytes) :
  j ≤ length b → i ≤ j → length (slice i j b) = j - i.
Proof. intros. unfold slice. rewrite length_take, length_drop. lia. Qed.

(** What a message that carries a secret does when the key exchange
    returns [None]. *)
Lemma handle_connection_message_failed (self : QRAuth.t) (now : Z)
    (d : gmap string pyval) (rest : list pyval) (v : pyval) (blob : bytes) :
  d !! "secret" = Some v →
  QRAuth.decode_secret v = Ok blob →
  QRAuth._process_shared_secret self now blob = None →
  QRAuth.handle_connection_message_body self now (PList (PStr "Conn" :: PDict d :: rest)) =
    Raise (Exception "Failed to process shared secret") ∧
  QRAuth.handle_connection_message self now (PList (PStr "Conn" :: PDict d :: rest)) =
    (false, if QRAuth.on_error self
            then [QRAuth.Error (Exception "Failed to process shared secret")] else []).
Proof.
  intros Hd Hv Hnone.
  assert (Hbody : QRAuth.handle_connection_message_body self now
                    (PList (PStr "Conn" :: PDict d :: rest)) =
                  Raise (Exception "Failed to process shared secret")).
  { unfold QRAuth.handle_connection_message_body. cbv beta iota.
    by rewrite Hd, Hv, rbind_Ok, Hnone. }
  split; [done|]. unfold QRAuth.handle_connection_message. by rewrite Hbody.
Qed.

Lemma handler_calls_error {S : SessionClass} (c : WhatsAppClient.t S) (b : bool) (e : exn) :
  fold_left (WhatsAppClient.handler_call S) (if b then [QRAuth.Error e] else []) c = c.
Proof. by destruct b. Qed.

(** C3 (as amended): for every shared-secret blob of at least 96 bytes
    whose ECDH secret and expansion exist: if the HMAC-SHA256 of
    ephemeral_public_key | encrypted_keys under the derived HMAC key
    equals the tag (bytes [32:64]), the key exchange goes on to the CBC
    decryption, and whenever it succeeds encKey and macKey are exactly 32
    bytes each; if the tag differs, the body raises ValueError("HMAC
    validation failed"), _process_shared_secret catches it and returns
    None, handle_connection_message returns False after handing a generic
    Exception to on_error when that handler is set, and the client's
    keys and authenticated flag are unchanged. *)
Theorem key_exchange_integrity (S : SessionClass) (c : WhatsAppClient.t S) (now : Z)
    (blob priv z okm : bytes) :
  96 ≤ length blob →
  QRAuth.private_key (WhatsAppClient.qr_auth S c) = Some priv →
  Curve25519.compute_shared_secret priv (take 32 blob) = Ok z →
  HKDF.expand HKDF.new z 80 None = Ok okm →
  let self := WhatsAppClient.qr_auth S c in
  let expected_hmac :=
    hmac.new_digest hashlib_sha256 (slice 32 64 okm) (take 32 blob ++ drop 64 blob) in
  (slice 32 64 blob = expected_hmac →
     QRAuth.process_shared_secret_body self now blob =
       (do decrypted_keys <-
          AESCipher.decrypt_cbc (slice 64 80 okm ++ drop 64 blob) (take 32 okm);
        if bool_decide (length decrypted_keys < 64)
        then Raise (ValueError "Decrypted keys too short")
        else Ok (auth_dict (QRAuth.client_id self) (take 32 decrypted_keys)
                   (slice 32 64 decrypted_keys) now)) ∧
     ∀ auth, QRAuth._process_shared_secret self now blob = Some auth →
       ∃ enc_key mac_key,
         auth !! "encKey" = Some (PBytes enc_key) ∧
         auth !! "macKey" = Some (PBytes mac_key) ∧
         length enc_key = 32 ∧ length mac_key = 32) ∧
  (slice 32 64 blob ≠ expected_hmac →
     QRAuth.process_shared_secret_body self now blob =
       Raise (ValueError "HMAC validation failed") ∧
     QRAuth._process_shared_secret self now blob = None ∧
     ∀ d rest v, d !! "secret" = Some v → QRAuth.decode_secret v = Ok blob →
       QRAuth.handle_connection_message self now (PList (PStr "Conn" :: PDict d :: rest)) =
         (false, if QRAuth.on_error self
                 then [QRAuth.Error (Exception "Failed to process shared secret")]
                 else []) ∧
       WhatsAppClient.handle_connection_message S now
         (PList (PStr "Conn" :: PDict d :: rest)) c = (false, c)).
Proof.
  intros Hlen Hpriv Hz Hokm self expected_hmac.
  pose proof (process_shared_secret_body_eq self now blob priv z okm
                Hlen Hpriv Hz Hokm) as Hbody.
  split.
  - intros Htag. split.
    + rewrite Hbody. unfold QRAuth.verify_and_decrypt, hmac.compare_digest. cbv zeta.
      by rewrite bool_decide_eq_true_2 by exact Htag.
    + intros auth Hauth. unfold QRAuth._process_shared_secret in Hauth.
      destruct (QRAuth.process_shared_secret_body self now blob) as [a|] eqn:Ha; [|done].
      injection Hauth as ->.
      apply process_shared_secret_body_Ok in Ha
        as (_ & _ & _ & dec & _ & _ & _ & _ & _ & _ & Hl & ->).
      destruct (auth_dict_keys (QRAuth.client_id self) (take 32 dec)
                  (slice 32 64 dec) now) as (He & Hm & _).
      exists (take 32 dec), (slice 32 64 dec).
      split; [done|]. split; [done|].
      split; [rewrite length_take; lia | apply slice_length; lia].
  - intros Htag.
    assert (Hraise : QRAuth.process_shared_secret_body self now blob =
                     Raise (ValueError "HMAC validation failed")).
    { rewrite Hbody. by apply verify_and_decrypt_mismatch. }
    assert (Hnone : QRAuth._process_shared_secret self now blob = None).
    { unfold QRAuth._process_shared_secret. by rewrite Hraise. }
    split; [done|]. split; [done|].
    intros d rest v Hd Hv.
    destruct (handle_connection_message_failed self now d rest v blob Hd Hv Hnone)
      as [_ Hh].
    split; [done|].
    unfold WhatsAppClient.handle_connection_message. fold self. rewrite Hh.
    by rewrite handler_calls_error.
Qed.


(** A run of C3 on the blob with one flipped tag bit. *)
Lemma key_exchange_integrity_witness :
  96 ≤ length tampered_blob ∧
  QRAuth._process_shared_secret client_qr_auth 1700000000 tampered_blob = None ∧
  WhatsAppClient.handle_connection_message SpecSession 1700000000
    (conn_message tampered_blob) fresh_client = (false, fresh_client).
Proof.
  assert (Hlen : 96 ≤ length tampered_blob) by (vm_compute; lia).
  assert (Hz : Curve25519.compute_shared_secret client_private_key
                 (take 32 tampered_blob) = Ok rfc7748_shared_secret)
    by (vm_compute; reflexivity).
  assert (Hokm : HKDF.expand HKDF.new rfc7748_shared_secret 80 None = Ok handshake_okm)
    by (vm_compute; reflexivity).
  destruct (key_exchange_integrity SpecSession fresh_client 1700000000 tampered_blob
              client_private_key rfc7748_shared_secret handshake_okm
              Hlen eq_refl Hz Hokm) as [_ Hbad].
  destruct Hbad as (_ & Hnone & Hmsg).
  { vm_compute. discriminate. }
  split; [exact Hlen|]. split; [exact Hnone|].
  apply (Hmsg _ [] (PStr (base64.b64encode tampered_blob))).
  - apply lookup_singleton_eq.
  - vm_compute. reflexivity.
Defined.

(** C3, the claim as first stated, fails: on the blob with one flipped
    tag bit no IntegrityError reaches the caller.  The ValueError of the
    HMAC check is caught, _process_shared_secret returns None and
    handle_connection_message returns False; with the client's handlers
    no handler is called at all. *)
Lemma tampered_tag_returns_false :
  QRAuth.process_shared_secret_body client_qr_auth 1700000000 tampered_blob =
    Raise (ValueError "HMAC validation failed") ∧
  QRAuth._process_shared_secret client_qr_auth 1700000000 tampered_blob = None ∧
  QRAuth.handle_connection_message client_qr_auth 1700000000 (conn_message tampered_blob) =
    (false, []).
Proof. split; [|split]; vm_reflexivity. Qed.

(** C4 (as amended): a well-shaped ["Conn", {"secret": ...}] message whose
    decoded blob is shorter than 96 bytes is never processed as a key
    exchange: the body raises ValueError("Shared secret too short")
    before any key is touched, _process_shared_secret returns None, and
    handle_connection_message returns False after handing a generic
    Exception("Failed to process shared secret") to on_error when that
    handler is set; the client is unchanged. *)
Theorem short_secret_rejected (S : SessionClass) (c : WhatsAppClient.t S) (now : Z)
    (d : gmap string pyval) (rest : list pyval) (v : pyval) (blob : bytes) :
  d !! "secret" = Some v →
  QRAuth.decode_secret v = Ok blob →
  length blob < 96 →
  let self := WhatsAppClient.qr_auth S c in
  let message := PList (PStr "Conn" :: PDict d :: rest) in
  QRAuth.process_shared_secret_body self now blob =
    Raise (ValueError "Shared secret too short") ∧
  QRAuth._process_shared_secret self now blob = None ∧
  QRAuth.handle_connection_message_body self now message =
    Raise (Exception "Failed to process shared secret") ∧
  QRAuth.handle_connection_message self now message =
    (false, if QRAuth.on_error self
            then [QRAuth.Error (Exception "Failed to process shared secret")] else []) ∧
  WhatsAppClient.handle_connection_message S now message c = (false, c).
Proof.
  intros Hd Hv Hlen self message.
  pose proof (process_shared_secret_short self now blob Hlen) as Hraise.
  assert (Hnone : QRAuth._process_shared_secret self now blob = None).
  { unfold QRAuth._process_shared_secret. by rewrite Hraise. }
  destruct (handle_connection_message_failed self now d rest v blob Hd Hv Hnone)
    as [Hb Hh].
  repeat (split; [done|]).
  unfold WhatsAppClient.handle_connection_message. fold self. unfold message.
  rewrite Hh. by rewrite handler_calls_error.
Qed.

(** A run of C4 on a three-byte secret. *)
Lemma short_secret_rejected_witness :
  QRAuth.handle_connection_message client_qr_auth 0
    (PList [PStr "Conn"; PDict {[ "secret" := PStr "AAAA" ]}]) = (false, []) ∧
  WhatsAppClient.handle_connection_message SpecSession 0
    (PList [PStr "Conn"; PDict {[ "secret" := PStr "AAAA" ]}]) fresh_client =
  (false, fresh_client).
Proof.
  destruct (short_secret_rejected SpecSession fresh_client 0
              {[ "secret" := PStr "AAAA" ]} [] (PStr "AAAA") [x00; x00; x00])
    as (_ & _ & _ & Hh & Hc).
  - apply lookup_singleton_eq.
  - vm_compute. reflexivity.
  - simpl. lia.
  - split; [exact Hh | exact Hc].
Defined.

(** C4, the claim as first stated, fails: on a three-byte secret
    handle_connection_message raises no HandshakeError; it returns False,
    and with the client's handlers no handler is called. *)
Lemma short_secret_returns_false :
  base64.b64decode "AAAA" = Ok [x00; x00; x00] ∧
  QRAuth.handle_connection_message client_qr_auth 0
    (PList [PStr "Conn"; PDict {[ "secret" := PStr "AAAA" ]}]) = (false, []).
Proof. split; vm_reflexivity. Qed.



(** ** Key validation *)

Lemma rbind_Raise {A B : Type} (e : exn) (k : A → result B) :
  rbind (Raise e) k = Raise e.
Proof. reflexivity. Qed.

Lemma validate_key_iff (key : bytes) :
  AESCipher.validate_key key = true ↔
  length key = 16 ∨ length key = 24 ∨ length key = 32.
Proof.
  unfold AESCipher.validate_key. rewrite bool_decide_eq_true.
  rewrite !elem_of_cons, elem_of_nil. tauto.
Qed.

(** No cipher object exists for a key of another length: either
    [algorithms.AES] or the [Cipher] constructor raises. *)
Lemma invalid_key_no_cipher (key iv : bytes) :
  AESCipher.validate_key key = false →
  ∃ msg, rbind (cryptography.algorithms_AES key)
               (fun k => cryptography.Cipher_CBC k iv) = Raise (ValueError msg).
Proof.
  intros Hv.
  assert (Hn : ¬ (length key = 16 ∨ length key = 24 ∨ length key = 32)).
  { rewrite <- validate_key_iff. by rewrite Hv. }
  unfold cryptography.algorithms_AES.
  destruct (bool_decide (length key * 8 ∈ [128; 192; 256; 512])) eqn:Hk.
  - apply bool_decide_eq_true_1 in Hk.
    rewrite !elem_of_cons, elem_of_nil in Hk.
    rewrite rbind_Ok. unfold cryptography.Cipher_CBC.
    rewrite bool_decide_eq_true_2 by lia. eauto.
  - simpl. eauto.
Qed.


(** ** The signature placeholder *)

Lemma verify_signature_length (public_key data signature : bytes) :
  length signature = 64 → Curve25519.verify_signature public_key data signature = true.
Proof.
  intros H. unfold Curve25519.verify_signature.
  by rewrite bool_decide_eq_false_2 by lia.
Qed.

(** C9: verify_signature returns True for every public key, every data
    and every signature of exactly 64 bytes, whatever they contain, and
    returns False exactly when the signature is not 64 bytes long. *)
Theorem verify_signature_stub (public_key data signature : bytes) :
  (length signature = 64 → Curve25519.verify_signature public_key data signature = true) ∧
  (Curve25519.verify_signature public_key data signature = false ↔
     length signature ≠ 64) ∧
  (∀ public_key' data',
     Curve25519.verify_signature public_key' data' signature =
     Curve25519.verify_signature public_key data signature).
Proof.
  split; [apply verify_signature_length|].
  unfold Curve25519.verify_signature. split.
  - destruct (bool_decide (length signature ≠ 64)) eqn:H.
    * apply bool_decide_eq_true_1 in H. done.
    * apply bool_decide_eq_false_1 in H. split; [done|]. intros ?. by destruct H.
  - done.
Qed.

(** What [sign_data] returns verifies under any key and for any data. *)
Lemma sign_data_verifies_anything (urandom : nat → bytes)
    (private_key data public_key data' : bytes) :
  length (urandom 32) = 32 →
  Curve25519.verify_signature public_key data'
    (Curve25519.sign_data urandom private_key data) = true.
Proof.
  intros H. apply verify_signature_length.
  unfold Curve25519.sign_data. by rewrite length_app, sha256_length, H.
Qed.

Lemma sign_data_verifies_anything_witness :
  Curve25519.verify_signature [] []
    (Curve25519.sign_data (fun n => replicate n x00) [x01] [x02]) = true.
Proof.
  apply (sign_data_verifies_anything (fun n => replicate n x00) [x01] [x02] [] []).
  reflexivity.
Defined.

(** ** The QR payload *)

Lemma b64encode_length_32 (pk : bytes) :
  length pk = 32 → String.length (base64.b64encode pk) = 44.
Proof.
  intros H. do 32 (destruct pk as [|? pk]; [done|]). by destruct pk.
Qed.

(** C7: for every server reference, every 32-byte public key and every
    client id of an initialized QRAuth, the QR payload is the reference,
    the standard base64 text of the public key (44 characters) and the
    client id, joined by commas, and it is what the QR handler receives. *)
Theorem qr_payload (self : QRAuth.t) (qr_ref client_id : string) (public_key : bytes) :
  QRAuth.public_key self = Some public_key →
  QRAuth.client_id self = Some client_id →
  length public_key = 32 →
  let qr_data := qr_ref +:+ "," +:+ base64.b64encode public_key +:+ "," +:+ client_id in
  QRAuth._generate_qr_code self qr_ref =
    Ok (qr_data, if QRAuth.on_qr_code self then [QRAuth.QrCode qr_data] else []) ∧
  String.length (base64.b64encode public_key) = 44.
Proof.
  intros Hpk Hcid Hlen qr_data. split; [|by apply b64encode_length_32].
  unfold QRAuth._generate_qr_code. by rewrite Hpk, Hcid.
Qed.

(** A run of C7: the server reference "abc123". *)
Lemma qr_payload_witness :
  QRAuth._generate_qr_code client_qr_auth "abc123" =
  Ok ("abc123,hSDwCYkwp1R0i33ctD73Wg2/Og0mOBr066SpjqqbTmo=,Y2xpZW50LWlkLTAwMDAwMQ==",
      [QRAuth.QrCode
         "abc123,hSDwCYkwp1R0i33ctD73Wg2/Og0mOBr066SpjqqbTmo=,Y2xpZW50LWlkLTAwMDAwMQ=="]).
Proof.
  exact (proj1 (qr_payload client_qr_auth "abc123" "Y2xpZW50LWlkLTAwMDAwMQ=="
                  client_public_key eq_refl eq_refl eq_refl)).
Defined.



(** ** The client's keys *)

Lemma hex_char_not_space (c : ascii) :
  is_hex_char c = true → py_isspace c = false.
Proof.
  destruct c as [[] [] [] [] [] [] [] []]; vm_compute; congruence.
Qed.

Lemma fromhex_hex_digits (n : nat) (s : string) :
  String.length s = 2 * n →
  forallb is_hex_char (String.list_ascii_of_string s) = true →
  ∃ b, fromhex s = Ok b ∧ length b = n.
Proof.
  revert s. induction n as [|n IH]; intros s Hlen Hhex.
  - destruct s; [|done]. by exists [].
  - destruct s as [|c1 [|c2 s]]; [done | simpl in Hlen; lia |].
    cbn [String.list_ascii_of_string forallb] in Hhex.
    apply andb_true_iff in Hhex as [H1 Hhex].
    apply andb_true_iff in Hhex as [H2 Hhex].
    destruct (IH s) as (b & Hb & Hl); [simpl in Hlen; lia | done |].
    cbn [fromhex]. rewrite (hex_char_not_space c1 H1).
    unfold is_hex_char in H1, H2.
    destruct (hex_digit_value c1) as [top|]; [|done].
    destruct (hex_digit_value c2) as [bot|]; [|done].
    rewrite Hb, rbind_Ok. eexists. split; [done|]. simpl. by rewrite Hl.
Qed.

Lemma hex64_fromhex (v : pyval) :
  is_hex64 v = true → ∃ b, WhatsAppClient.py_fromhex v = Ok b ∧ length b = 32.
Proof.
  destruct v as [| | |s| | |]; try done. unfold is_hex64.
  intros H. apply andb_true_iff in H as [Hl Hh].
  apply bool_decide_eq_true_1 in Hl.
  apply (fromhex_hex_digits 32 s); done.
Qed.

Section ClientKeys.

Context (S : SessionClass).

Lemma handle_authentication_keys (auth_data : gmap string pyval)
    (self : WhatsAppClient.t S) :
  let c' := (WhatsAppClient._handle_authentication S auth_data self).1 in
  WhatsAppClient.client_id S c' = dict_get auth_data "clientId" PNone ∧
  WhatsAppClient.enc_key S c' = dict_get auth_data "encKey" PNone ∧
  WhatsAppClient.mac_key S c' = dict_get auth_data "macKey" PNone ∧
  WhatsAppClient.is_authenticated S c' =
    match (session_update_from_auth S auth_data (WhatsAppClient.session S self)).1 with
    | Ok _ => true
    | Raise _ => WhatsAppClient.is_authenticated S self
    end.
Proof.
  unfold WhatsAppClient._handle_authentication. cbv zeta.
  cbn [WhatsAppClient.set_client_id WhatsAppClient.set_enc_key
       WhatsAppClient.set_mac_key WhatsAppClient.session].
  destruct (session_update_from_auth S auth_data (WhatsAppClient.session S self))
    as [[u|e] s']; done.
Qed.

Lemma restore_session_true (file : WhatsAppClient.session_file)
    (self c' : WhatsAppClient.t S) :
  WhatsAppClient._restore_session S file self = (true, c') →
  ∃ d e m,
    file = WhatsAppClient.Loaded (PDict d) ∧
    (session_restore S (PDict d) (WhatsAppClient.session S self)).1 = Ok true ∧
    WhatsAppClient.py_fromhex (dict_get d "encKey" (PStr EmptyString)) = Ok e ∧
    WhatsAppClient.py_fromhex (dict_get d "macKey" (PStr EmptyString)) = Ok m ∧
    WhatsAppClient.client_id S c' = dict_get d "clientId" PNone ∧
    WhatsAppClient.enc_key S c' = PBytes e ∧
    WhatsAppClient.mac_key S c' = PBytes m ∧
    WhatsAppClient.is_authenticated S c' = WhatsAppClient.is_authenticated S self.
Proof.
  unfold WhatsAppClient._restore_session.
  destruct file as [| |session_data]; [done | done |].
  destruct (session_restore S session_data (WhatsAppClient.session S self))
    as [[[|]|] s'] eqn:Hr; [|done|done].
  destruct session_data as [| | | | | |d];
    try (unfold WhatsAppClient.json_get; done).
  unfold WhatsAppClient.json_get. rewrite !rbind_Ok.
  destruct (WhatsAppClient.py_fromhex (dict_get d "encKey" (PStr EmptyString)))
    as [e|] eqn:He; [|done].
  destruct (WhatsAppClient.py_fromhex (dict_get d "macKey" (PStr EmptyString)))
    as [m|] eqn:Hm; [|done].
  intros [= <-]. exists d, e, m. by rewrite Hr.
Qed.

(** C8 (as amended): what the two writers of the keys establish.  After
    _handle_authentication on the data of a successful key exchange, with
    the session update not raising, enc_key and mac_key are both exactly
    32 bytes and the authenticated flag is true, so the invariant holds.
    After a _restore_session that returns True, enc_key and mac_key are
    both set, to the bytes of the record's encKey and macKey hexadecimal
    texts (32 bytes each for 64 hexadecimal characters), and the
    authenticated flag is as it was before: the restore does not set it. *)
Theorem client_keys_after_write :
  (∀ (qr : QRAuth.t) (now : Z) (blob : bytes) (auth_data : gmap string pyval)
     (self : WhatsAppClient.t S),
     QRAuth._process_shared_secret qr now blob = Some auth_data →
     is_ok (session_update_from_auth S auth_data (WhatsAppClient.session S self)).1 = true →
     let c' := (WhatsAppClient._handle_authentication S auth_data self).1 in
     WhatsAppClient.key_set32 (WhatsAppClient.enc_key S c') ∧
     WhatsAppClient.key_set32 (WhatsAppClient.mac_key S c') ∧
     WhatsAppClient.is_authenticated S c' = true ∧
     WhatsAppClient.session_state_invariant S c') ∧
  (∀ (file : WhatsAppClient.session_file) (self c' : WhatsAppClient.t S),
     WhatsAppClient._restore_session S file self = (true, c') →
     ∃ d e m,
       file = WhatsAppClient.Loaded (PDict d) ∧
       WhatsAppClient.py_fromhex (dict_get d "encKey" (PStr EmptyString)) = Ok e ∧
       WhatsAppClient.py_fromhex (dict_get d "macKey" (PStr EmptyString)) = Ok m ∧
       WhatsAppClient.enc_key S c' = PBytes e ∧
       WhatsAppClient.mac_key S c' = PBytes m ∧
       (is_hex64 (dict_get d "encKey" (PStr EmptyString)) = true → length e = 32) ∧
       (is_hex64 (dict_get d "macKey" (PStr EmptyString)) = true → length m = 32) ∧
       WhatsAppClient.is_authenticated S c' = WhatsAppClient.is_authenticated S self).
Proof.
  split.
  - intros qr now blob auth_data self Hauth Hup c'.
    destruct (handle_authentication_keys auth_data self) as (_ & He & Hm & Ha).
    fold c' in He, Hm, Ha.
    unfold QRAuth._process_shared_secret in Hauth.
    destruct (QRAuth.process_shared_secret_body qr now blob) as [a|] eqn:Hbody; [|done].
    injection Hauth as ->.
    apply process_shared_secret_body_Ok in Hbody
      as (_ & _ & _ & dec & _ & _ & _ & _ & _ & _ & Hl & ->).
    destruct (auth_dict_keys (QRAuth.client_id qr) (take 32 dec) (slice 32 64 dec) now)
      as (Hke & Hkm & _).
    unfold dict_get in He, Hm. rewrite Hke in He. rewrite Hkm in Hm.
    assert (H1 : WhatsAppClient.key_set32 (WhatsAppClient.enc_key S c')).
    { exists (take 32 dec). split; [done|]. rewrite length_take. lia. }
    assert (H2 : WhatsAppClient.key_set32 (WhatsAppClient.mac_key S c')).
    { exists (slice 32 64 dec). split; [done|]. apply slice_length; lia. }
    assert (H3 : WhatsAppClient.is_authenticated S c' = true).
    { rewrite Ha.
      by destruct ((session_update_from_auth S _ (WhatsAppClient.session S self)).1). }
    repeat (split; [done|]).
    split; [by right | by split].
  - intros file self c' Hr.
    apply restore_session_true in Hr as (d & e & m & -> & _ & He & Hm & _ & Hek & Hmk & Ha).
    exists d, e, m. repeat (split; [done|]).
    split; [|split; [|done]].
    + intros Hh. apply hex64_fromhex in Hh as (b & Hb & Hl). congruence.
    + intros Hh. apply hex64_fromhex in Hh as (b & Hb & Hl). congruence.
Qed.

End ClientKeys.

(** A run of C8 on the simulated handshake. *)
Lemma client_keys_after_write_witness :
  WhatsAppClient.session_state_invariant SpecSession
    (WhatsAppClient._handle_authentication SpecSession
       (auth_dict (Some "Y2xpZW50LWlkLTAwMDAwMQ==") session_enc_key session_mac_key
          1700000000) fresh_client).1.
Proof.
  apply (proj1 (client_keys_after_write SpecSession) client_qr_auth 1700000000%Z valid_blob).
  - exact handshake_auth_data.
  - reflexivity.
Defined.

(** C8, the claim as first stated, fails: after a restore from a
    well-formed record, which returns True, both keys are set to 32 bytes
    while the authenticated flag is still false, so the invariant does
    not hold. *)
Lemma restore_leaves_unauthenticated :
  (WhatsAppClient._restore_session SpecSession (WhatsAppClient.Loaded stored_session)
     (WhatsAppClient.new SpecSession)).1 = true ∧
  ¬ WhatsAppClient.session_state_invariant SpecSession
      (WhatsAppClient._restore_session SpecSession (WhatsAppClient.Loaded stored_session)
         (WhatsAppClient.new SpecSession)).2.
Proof.
  split; [vm_compute; reflexivity|].
  intros [_ [_ Hflag]].
  assert (Hkeys :
    WhatsAppClient.enc_key SpecSession
      (WhatsAppClient._restore_session SpecSession (WhatsAppClient.Loaded stored_session)
         (WhatsAppClient.new SpecSession)).2 = PBytes session_enc_key ∧
    WhatsAppClient.mac_key SpecSession
      (WhatsAppClient._restore_session SpecSession (WhatsAppClient.Loaded stored_session)
         (WhatsAppClient.new SpecSession)).2 = PBytes session_mac_key ∧
    WhatsAppClient.is_authenticated SpecSession
      (WhatsAppClient._restore_session SpecSession (WhatsAppClient.Loaded stored_session)
         (WhatsAppClient.new SpecSession)).2 = false)
    by (vm_compute; auto).
  destruct Hkeys as (He & Hm & Ha).
  rewrite Ha in Hflag. discriminate Hflag.
  split; [exists session_enc_key | exists session_mac_key]; by split.
Qed.

(** A record whose [macKey] does not decode: the restore fails after
    [enc_key] has been assigned. *)
Example restore_partial_state :
  WhatsAppClient._restore_session LaxSession (WhatsAppClient.Loaded damaged_session)
    (WhatsAppClient.new LaxSession) =
  (false,
   WhatsAppClient.set_enc_key LaxSession (PBytes session_enc_key)
     (WhatsAppClient.set_client_id LaxSession (PStr "Y2xpZW50LWlkLTAwMDAwMQ==")
        (WhatsAppClient.new LaxSession))).
Proof. vm_reflexivity. Qed.



(** ** Further properties of the handshake *)

Lemma concat_blocks_length (blocks : list bytes) :
  Forall (fun b => length b = 16) blocks → length (concat blocks) = length blocks * 16.
Proof.
  induction 1 as [|b blocks Hb _ IH]; [done|].
  simpl. rewrite length_app. lia.
Qed.

Lemma cbc_decrypt_blocks_length (ks : list AES.state) (prev : bytes) (blocks : list bytes) :
  length prev = 16 →
  Forall (fun b => length b = 16) blocks →
  length (cryptography.cbc_decrypt_blocks ks prev blocks) = length blocks * 16.
Proof.
  intros Hprev HF. revert prev Hprev.
  induction HF as [|c blocks Hc _ IH]; intros prev Hprev; [done|].
  cbn [cryptography.cbc_decrypt_blocks]. rewrite length_app, IH by done.
  rewrite xor_bytes_length; rewrite decrypt_block_length; cbn [length]; lia.
Qed.

(** What [decrypt_cbc] returns is shorter than the encrypted data: the
    padding takes at least one byte. *)
Lemma decrypt_cbc_length (ciphertext key plaintext : bytes) :
  AESCipher.decrypt_cbc ciphertext key = Ok plaintext →
  16 ≤ length ciphertext ∧
  (length ciphertext - 16) `mod` 16 = 0 ∧
  length plaintext < length ciphertext - 16.
Proof.
  unfold AESCipher.decrypt_cbc.
  destruct (bool_decide (length ciphertext < 16)) eqn:Hlen; [done|].
  apply bool_decide_eq_false_1 in Hlen.
  destruct (cryptography.algorithms_AES key) as [k|]; [|done]. rewrite rbind_Ok.
  destruct (cryptography.Cipher_CBC k (take 16 ciphertext)) as [ci|] eqn:Hci; [|done].
  rewrite rbind_Ok.
  assert (Hiv : cryptography.iv ci = take 16 ciphertext).
  { revert Hci. unfold cryptography.Cipher_CBC.
    repeat (destruct (bool_decide _); [done|]). by intros [= <-]. }
  unfold cryptography.decryptor_update_finalize.
  destruct (bool_decide (length (drop 16 ciphertext) `mod` 16 ≠ 0)) eqn:Hmod; [done|].
  apply bool_decide_eq_false_1 in Hmod.
  assert (Hm : length (drop 16 ciphertext) `mod` 16 = 0) by lia.
  rewrite rbind_Ok.
  set (data := drop 16 ciphertext) in *.
  assert (Hdata : length data = (length data `div` 16) * 16).
  { pose proof (Nat.div_mod (length data) 16). lia. }
  destruct (chunks_blocks _ data Hdata) as [HF Hconcat].
  set (padded := cryptography.cbc_decrypt_blocks _ _ _).
  assert (Hpadded : length padded = length data).
  { unfold padded. rewrite cbc_decrypt_blocks_length.
    - rewrite <- concat_blocks_length by done. by rewrite Hconcat.
    - rewrite Hiv, length_take. lia.
    - done. }
  unfold cryptography.unpadder_update. rewrite app_nil_l.
  set (n := (length padded `div` 16 - 1) * 16).
  destruct (cryptography.unpadder_finalize (drop n padded)) as [rest|] eqn:Hrest; [|done].
  rewrite rbind_Ok. intros [= <-].
  revert Hrest. unfold cryptography.unpadder_finalize.
  destruct (bool_decide (length (drop n padded) ≠ 16)) eqn:Hb; [done|].
  apply bool_decide_eq_false_1 in Hb.
  destruct (cryptography.check_pkcs7_padding (drop n padded)) eqn:Hcheck; [|done].
  cbn [negb]. intros [= <-].
  unfold cryptography.check_pkcs7_padding in Hcheck.
  apply andb_true_iff in Hcheck as [Hpad _]. apply bool_decide_eq_true_1 in Hpad.
  rewrite length_drop in Hb.
  unfold data in *. rewrite length_drop in *.
  rewrite length_app, !length_take, length_drop. lia.
Qed.

(** The expanded secret of the handshake has 80 bytes. *)
Lemma expand_80_length (z okm : bytes) :
  HKDF.expand HKDF.new z 80 None = Ok okm → length okm = 80.
Proof.
  intros H.
  destruct (expand_prefix_length HKDF.new z None 80 hashlib_sha256_ok)
    as (okm' & H1 & H2); [done|].
  rewrite H in H1. injection H1 as <-. exact H2.
Qed.

(** A blob of fewer than 144 bytes never authenticates: the 64 bytes of
    session keys and their padding need five cipher blocks. *)
Theorem exchange_needs_144_bytes (self : QRAuth.t) (now : Z) (blob : bytes) :
  QRAuth._process_shared_secret self now blob = None ∨ 144 ≤ length blob.
Proof.
  unfold QRAuth._process_shared_secret.
  destruct (QRAuth.process_shared_secret_body self now blob) as [auth|] eqn:Hbody;
    [right | by left].
  apply process_shared_secret_body_Ok in Hbody
    as (priv & z & okm & dec & Hlen & _ & _ & Hokm & _ & Hdec & Hl & _).
  apply expand_80_length in Hokm.
  apply decrypt_cbc_length in Hdec as (_ & Hmod & Hshort).
  rewrite length_app, slice_length, length_drop in * by lia.
  replace (80 - 64 + (length blob - 64) - 16) with (length blob - 64) in * by lia.
  pose proof (Nat.div_mod (length blob - 64) 16). lia.
Qed.

(** [expand] refuses a length that is not positive or exceeds 255
    digests, and otherwise returns exactly [len] bytes. *)
Theorem expand_length_checks (self : HKDF.t) (prk : bytes) (len : Z) (info : option bytes) :
  HashFuncOk (HKDF.hash_func self) →
  ((len ≤ 0)%Z →
     HKDF.expand self prk len info = Raise (ValueError "Length must be positive")) ∧
  ((0 < len)%Z → (255 * HKDF.hash_len self < len)%Z →
     HKDF.expand self prk len info = Raise (ValueError "Length too large for HKDF")) ∧
  ((0 < len ≤ 255 * HKDF.hash_len self)%Z →
     ∃ okm, HKDF.expand self prk len info = Ok okm ∧ length okm = Z.to_nat len).
Proof.
  intros Hok. split; [|split].
  - intros H. unfold HKDF.expand. by rewrite bool_decide_eq_true_2.
  - intros H1 H2. unfold HKDF.expand.
    rewrite bool_decide_eq_false_2 by lia. by rewrite bool_decide_eq_true_2 by lia.
  - intros H.
    destruct (expand_prefix_length self prk info len Hok H) as (okm & Hokm & Hl).
    by exists okm.
Qed.

Lemma expand_length_checks_witness :
  HKDF.expand HKDF.new [] 0 None = Raise (ValueError "Length must be positive") ∧
  HKDF.expand HKDF.new [] 8161 None = Raise (ValueError "Length too large for HKDF").
Proof.
  destruct (expand_length_checks HKDF.new [] 0 None hashlib_sha256_ok) as (H0 & _ & _).
  destruct (expand_length_checks HKDF.new [] 8161 None hashlib_sha256_ok) as (_ & H1 & _).
  split; [apply H0; lia | apply H1; [lia | vm_compute; reflexivity]].
Defined.




(** ** The key derivations built on HKDF *)

(** A salt of zero bytes that fits in one block of the hash is padded by
    HMAC to the same block as any other such salt. *)
Lemma block_key_zeros (h : HashFunc) (n : nat) :
  n ≤ block_size h →
  hmac.block_key h (replicate n x00) = replicate (block_size h) x00.
Proof.
  intros Hn. unfold hmac.block_key. rewrite length_replicate.
  rewrite bool_decide_eq_false_2 by lia.
  rewrite length_replicate, <- replicate_add. f_equal. lia.
Qed.

(** [extract] without a salt is [extract] with the empty salt, and with
    any salt of zero bytes no longer than a block of the hash. *)
Theorem extract_zero_salt (self : HKDF.t) (ikm : bytes) (n : nat) :
  digest_size (HKDF.hash_func self) ≤ block_size (HKDF.hash_func self) →
  n ≤ block_size (HKDF.hash_func self) →
  HKDF.extract self ikm (Some (replicate n x00)) = HKDF.extract self ikm None.
Proof.
  intros Hd Hn. unfold HKDF.extract, hmac.new_digest.
  rewrite !block_key_zeros; [done| |done].
  unfold HKDF.hash_len. by rewrite Nat2Z.id.
Qed.

Lemma extract_zero_salt_witness :
  HKDF.extract HKDF.new [x01; x02] (Some []) = HKDF.extract HKDF.new [x01; x02] None.
Proof.
  apply (extract_zero_salt HKDF.new [x01; x02] 0); vm_compute; lia.
Defined.

(** [derive] with SHA-256, for a length of [k] whole digests. *)
Lemma derive_sha256_blocks (ikm : bytes) (salt info : option bytes) (len : Z) (k : nat) :
  0 < k ≤ 255 →
  len = (32 * Z.of_nat k)%Z →
  HKDF.derive HKDF.new ikm len salt info =
  Ok (hkdf_okm HKDF.new (HKDF.extract HKDF.new ikm salt)
        (match info with None => [] | Some i => i end) k).
Proof.
  intros Hk ->. unfold HKDF.derive.
  set (i := match info with None => [] | Some i => i end).
  rewrite (expand_blocks HKDF.new _ i) by (done || (unfold HKDF.hash_len; simpl; lia)).
  assert (Hr : hkdf_rounds HKDF.new (32 * Z.of_nat k) = k).
  { unfold hkdf_rounds. change (HKDF.hash_len HKDF.new) with 32%Z.
    rewrite <- (Z.div_unique (32 * Z.of_nat k + 32 - 1) 32 (Z.of_nat k) 31) by lia.
    lia. }
  rewrite Hr. f_equal. apply take_ge.
  rewrite hkdf_okm_length by apply hashlib_sha256_ok. simpl. lia.
Qed.

Lemma extract_sha256_no_salt (ikm : bytes) :
  HKDF.extract HKDF.new ikm None = hmac.new_digest hashlib_sha256 [] ikm.
Proof.
  unfold HKDF.extract, hmac.new_digest.
  change (hmac.block_key hashlib_sha256 [])
    with (hmac.block_key hashlib_sha256 (replicate 0 x00)).
  change (HKDF.hash_func HKDF.new) with hashlib_sha256.
  rewrite !block_key_zeros; [done|vm_compute; lia..].
Qed.

Lemma split_two (a b : bytes) :
  length a = 32 → length b = 32 →
  take 32 (a ++ b ++ []) = a ∧ drop 32 (a ++ b ++ []) = b.
Proof.
  intros Ha Hb. rewrite app_nil_r.
  by rewrite take_app_length', drop_app_length'.
Qed.

Lemma split_four (a b c d : bytes) :
  length a = 32 → length b = 32 → length c = 32 → length d = 32 →
  take 32 (a ++ b ++ c ++ d ++ []) = a ∧
  slice 32 64 (a ++ b ++ c ++ d ++ []) = b ∧
  slice 64 96 (a ++ b ++ c ++ d ++ []) = c ∧
  slice 96 128 (a ++ b ++ c ++ d ++ []) = d.
Proof.
  intros Ha Hb Hc Hd. rewrite app_nil_r. unfold slice.
  assert (E2 : drop 32 (a ++ b ++ c ++ d) = b ++ c ++ d)
    by (by rewrite drop_app_length').
  assert (E3 : drop 64 (a ++ b ++ c ++ d) = c ++ d).
  { change 64 with (32 + 32). rewrite <- drop_drop, E2. by rewrite drop_app_length'. }
  assert (E4 : drop 96 (a ++ b ++ c ++ d) = d).
  { change 96 with (64 + 32). rewrite <- drop_drop, E3. by rewrite drop_app_length'. }
  rewrite E2, E3, E4.
  change (64 - 32) with 32. change (96 - 64) with 32. change (128 - 96) with 32.
  rewrite !take_app_length' by done.
  rewrite take_ge by lia. done.
Qed.

Lemma hkdf_T_1 (self : HKDF.t) (prk info : bytes) :
  hkdf_T self prk info 1 = hmac.new_digest (HKDF.hash_func self) prk (info ++ [x01]).
Proof. reflexivity. Qed.

Lemma hkdf_T_2 (self : HKDF.t) (prk info : bytes) :
  hkdf_T self prk info 2 =
  hmac.new_digest (HKDF.hash_func self) prk (hkdf_T self prk info 1 ++ info ++ [x02]).
Proof. reflexivity. Qed.

Lemma hkdf_okm_1 (self : HKDF.t) (prk info : bytes) :
  hkdf_okm self prk info 1 = hkdf_T self prk info 1.
Proof. unfold hkdf_okm. cbn [seq map concat]. apply app_nil_r. Qed.

Lemma hkdf_okm_2 (self : HKDF.t) (prk info : bytes) :
  hkdf_okm self prk info 2 = hkdf_T self prk info 1 ++ hkdf_T self prk info 2 ++ [].
Proof. reflexivity. Qed.

Lemma hkdf_okm_4 (self : HKDF.t) (prk info : bytes) :
  hkdf_okm self prk info 4 =
  hkdf_T self prk info 1 ++ hkdf_T self prk info 2 ++
  hkdf_T self prk info 3 ++ hkdf_T self prk info 4 ++ [].
Proof. reflexivity. Qed.

Lemma hkdf_T_sha256_length (prk info : bytes) (i : nat) :
  length (hkdf_T HKDF.new prk info (S i)) = 32.
Proof. apply (hkdf_T_length HKDF.new), hashlib_sha256_ok. Qed.

Lemma derive_whatsapp_keys_T (shared_secret salt : bytes) :
  HKDF.derive_whatsapp_keys shared_secret salt =
  Ok (hkdf_T HKDF.new (HKDF.extract HKDF.new shared_secret (Some salt)) [] 1,
      hkdf_T HKDF.new (HKDF.extract HKDF.new shared_secret (Some salt)) [] 2).
Proof.
  unfold HKDF.derive_whatsapp_keys.
  rewrite (derive_sha256_blocks shared_secret (Some salt) None 64 2) by (lia || done).
  rewrite rbind_Ok, hkdf_okm_2.
  destruct (split_two (hkdf_T HKDF.new (HKDF.extract HKDF.new shared_secret (Some salt)) [] 1)
              (hkdf_T HKDF.new (HKDF.extract HKDF.new shared_secret (Some salt)) [] 2))
    as [-> ->]; [apply hkdf_T_sha256_length..|]. reflexivity.
Qed.

Lemma derive_session_keys_T (master_secret handshake_hash : bytes) :
  HKDF.derive_session_keys master_secret handshake_hash =
  Ok (hkdf_T HKDF.new (HKDF.extract HKDF.new master_secret None) handshake_hash 1,
      hkdf_T HKDF.new (HKDF.extract HKDF.new master_secret None) handshake_hash 2,
      hkdf_T HKDF.new (HKDF.extract HKDF.new master_secret None) handshake_hash 3,
      hkdf_T HKDF.new (HKDF.extract HKDF.new master_secret None) handshake_hash 4).
Proof.
  unfold HKDF.derive_session_keys.
  rewrite (derive_sha256_blocks master_secret None (Some handshake_hash) 128 4) by (lia || done).
  rewrite rbind_Ok, hkdf_okm_4.
  set (T := hkdf_T HKDF.new (HKDF.extract HKDF.new master_secret None) handshake_hash).
  destruct (split_four (T 1) (T 2) (T 3) (T 4)) as (-> & -> & -> & ->);
    [apply hkdf_T_sha256_length..|]. reflexivity.
Qed.

(** [derive_whatsapp_keys] never raises: the encryption key is the first
    and the MAC key the second block of HKDF-SHA256 with the given salt
    and no info, 32 bytes each. *)
Theorem derive_whatsapp_keys_blocks (shared_secret salt : bytes) :
  let prk := hmac.new_digest hashlib_sha256 salt shared_secret in
  let encryption_key := hmac.new_digest hashlib_sha256 prk [x01] in
  let mac_key := hmac.new_digest hashlib_sha256 prk (encryption_key ++ [x02]) in
  HKDF.derive_whatsapp_keys shared_secret salt = Ok (encryption_key, mac_key) ∧
  length encryption_key = 32 ∧ length mac_key = 32.
Proof.
  intros prk encryption_key mac_key.
  split; [|split; apply hmac_sha256_length].
  rewrite derive_whatsapp_keys_T, hkdf_T_2, hkdf_T_1. reflexivity.
Qed.

(** [derive_session_keys] never raises: the four keys are the first four
    blocks of HKDF-SHA256 with no salt and the handshake hash as info,
    32 bytes each.  With an empty handshake hash the send and receive
    keys are the encryption and MAC keys that [derive_whatsapp_keys]
    derives from the same secret with its default salt. *)
Theorem derive_session_keys_blocks (master_secret handshake_hash : bytes) :
  let prk := HKDF.extract HKDF.new master_secret None in
  let T := hkdf_T HKDF.new prk handshake_hash in
  HKDF.derive_session_keys master_secret handshake_hash = Ok (T 1, T 2, T 3, T 4) ∧
  length (T 1) = 32 ∧ length (T 2) = 32 ∧ length (T 3) = 32 ∧ length (T 4) = 32 ∧
  ∃ encryption_key mac_key send_mac_key recv_mac_key,
    HKDF.derive_whatsapp_keys master_secret [] = Ok (encryption_key, mac_key) ∧
    HKDF.derive_session_keys master_secret [] =
      Ok (encryption_key, mac_key, send_mac_key, recv_mac_key).
Proof.
  intros prk T.
  split; [apply derive_session_keys_T|].
  do 4 (split; [apply hkdf_T_sha256_length|]).
  rewrite derive_whatsapp_keys_T, derive_session_keys_T.
  rewrite extract_sha256_no_salt.
  eexists _, _, _, _. split; reflexivity.
Qed.

(** [derive_media_keys] never raises: with the PRK extracted from the
    media key without a salt, the IV is the first 16 bytes of the first
    HKDF block for the info [WhatsApp Media Keys], and the cipher and
    MAC keys are the whole first blocks for their own info strings. *)
Theorem derive_media_keys_blocks (media_key : bytes) :
  let prk := HKDF.extract HKDF.new media_key None in
  let block info := hmac.new_digest hashlib_sha256 prk (bytes_of_string info ++ [x01]) in
  let iv := take 16 (block "WhatsApp Media Keys") in
  let cipher_key := block "WhatsApp Cipher Keys" in
  let mac_key := block "WhatsApp MAC Keys" in
  HKDF.derive_media_keys media_key = Ok (iv, cipher_key, mac_key) ∧
  length iv = 16 ∧ length cipher_key = 32 ∧ length mac_key = 32.
Proof.
  intros prk block iv cipher_key mac_key.
  split; [|unfold iv, cipher_key, mac_key, block;
           rewrite length_take, !hmac_sha256_length; auto].
  unfold iv, cipher_key, mac_key, block, prk.
  unfold HKDF.derive_media_keys, HKDF.derive.
  rewrite !(expand_blocks HKDF.new _ _ _ (Some _) eq_refl)
    by (unfold HKDF.hash_len; simpl; lia).
  rewrite !rbind_Ok.
  change (hkdf_rounds HKDF.new 16) with 1.
  change (hkdf_rounds HKDF.new 32) with 1.
  rewrite !hkdf_okm_1, !hkdf_T_1.
  change (Z.to_nat 16) with 16. change (Z.to_nat 32) with 32.
  rewrite take_take. change (16 `min` 16) with 16.
  rewrite !(take_ge _ 32) by (by rewrite hmac_sha256_length). reflexivity.
Qed.

(** [Curve25519.derive_keys] has no extract step: the shared secret is
    itself the HMAC key of the expansion and the salt is used as the
    HKDF info. *)
Theorem curve_derive_keys_blocks (shared_secret salt : bytes) :
  let encryption_key := hmac.new_digest hashlib_sha256 shared_secret (salt ++ [x01]) in
  let mac_key :=
    hmac.new_digest hashlib_sha256 shared_secret (encryption_key ++ salt ++ [x02]) in
  Curve25519.derive_keys shared_secret salt = Ok (encryption_key, mac_key) ∧
  length encryption_key = 32 ∧ length mac_key = 32.
Proof.
  intros encryption_key mac_key.
  split; [|split; apply hmac_sha256_length].
  unfold Curve25519.derive_keys.
  rewrite (expand_blocks HKDF.new shared_secret salt 64 (Some salt) eq_refl)
    by (unfold HKDF.hash_len; simpl; lia).
  rewrite rbind_Ok.
  change (hkdf_rounds HKDF.new 64) with 2.
  rewrite hkdf_okm_2.
  change (Z.to_nat 64) with 64.
  rewrite (take_ge _ 64)
    by (rewrite !length_app, !hkdf_T_sha256_length; simpl; lia).
  destruct (split_two (hkdf_T HKDF.new shared_secret salt 1)
              (hkdf_T HKDF.new shared_secret salt 2)) as [-> ->];
    [apply hkdf_T_sha256_length..|].
  rewrite hkdf_T_2, hkdf_T_1. reflexivity.
Qed.



(** ** Curve25519: key validation, low-order points and clamping *)

Lemma le_bytes_length (k : nat) (n : Z) : length (X25519.le_bytes k n) = k.
Proof. revert n. induction k as [|k IH]; intros n; simpl; [done|]. by rewrite IH. Qed.

Lemma scalarmult_length (k u : bytes) : length (X25519.scalarmult k u) = 32.
Proof.
  unfold X25519.scalarmult. cbv zeta.
  repeat match goal with |- context [X25519.cswap ?c ?a ?b] => destruct (X25519.cswap c a b) end.
  apply le_bytes_length.
Qed.

Lemma validate_public_key_iff (key : bytes) :
  Curve25519.validate_public_key key = true ↔ length key = 32.
Proof.
  unfold Curve25519.validate_public_key, X25519.from_public_bytes.
  destruct (decide (length key = 32)) as [H|H].
  - rewrite bool_decide_eq_false_2 by (intros ?; done).
    by rewrite bool_decide_eq_true_2.
  - by rewrite bool_decide_eq_true_2.
Qed.

Lemma validate_private_key_iff (key : bytes) :
  Curve25519.validate_private_key key = true ↔ length key = 32.
Proof.
  unfold Curve25519.validate_private_key, X25519.from_private_bytes.
  destruct (decide (length key = 32)) as [H|H].
  - rewrite bool_decide_eq_false_2 by (intros ?; done).
    by rewrite bool_decide_eq_true_2.
  - by rewrite bool_decide_eq_true_2.
Qed.



(** *** The ladder on the point u = 0 *)

Lemma pow_mod_zero (b : bigZ) (e : positive) :
  BigZ.to_Z b = 0%Z → BigZ.to_Z (X25519.pow_mod b e) = 0%Z.
Proof.
  intros Hb. induction e as [e IH|e IH|]; cbn [X25519.pow_mod]; cbv zeta;
    rewrite ?BigZ.spec_modulo, ?BigZ.spec_mul, ?BigZ.spec_modulo, ?BigZ.spec_mul,
      ?IH, ?Hb, ?Z.mul_0_r, ?Z.mul_0_l, ?Zmod_0_l; reflexivity.
Qed.

Lemma ladder_step_zero (k : Z) (x1 : bigZ) (l : X25519.ladder) (t : Z) :
  BigZ.to_Z x1 = 0%Z →
  BigZ.to_Z (X25519.z2 l) = 0%Z → BigZ.to_Z (X25519.z3 l) = 0%Z →
  BigZ.to_Z (X25519.z2 (X25519.ladder_step k x1 l t)) = 0%Z ∧
  BigZ.to_Z (X25519.z3 (X25519.ladder_step k x1 l t)) = 0%Z.
Proof.
  intros Hx1 Hz2 Hz3. unfold X25519.ladder_step. cbv zeta.
  destruct (xorb (X25519.swap l) (Z.testbit k t)); unfold X25519.cswap;
    cbn [X25519.z2 X25519.z3];
    rewrite !BigZ.spec_modulo, !BigZ.spec_mul, !BigZ.spec_modulo, !BigZ.spec_sub,
      !BigZ.spec_modulo, !BigZ.spec_mul, !BigZ.spec_modulo,
      ?BigZ.spec_add, ?BigZ.spec_sub, ?Hz2, ?Hz3, ?Hx1,
      ?Z.add_0_r, ?Z.sub_0_r, ?Z.sub_diag, ?Zmod_0_l, ?Z.mul_0_l, ?Zmod_0_l; done.
Qed.

Lemma ladder_fold_zero (k : Z) (x1 : bigZ) (ts : list Z) (l : X25519.ladder) :
  BigZ.to_Z x1 = 0%Z →
  BigZ.to_Z (X25519.z2 l) = 0%Z → BigZ.to_Z (X25519.z3 l) = 0%Z →
  BigZ.to_Z (X25519.z2 (fold_left (X25519.ladder_step k x1) ts l)) = 0%Z ∧
  BigZ.to_Z (X25519.z3 (fold_left (X25519.ladder_step k x1) ts l)) = 0%Z.
Proof.
  intros Hx1. revert l. induction ts as [|t ts IH]; intros l Hz2 Hz3; [done|].
  cbn [fold_left].
  destruct (ladder_step_zero k x1 l t Hx1 Hz2 Hz3) as [H2 H3]. by apply IH.
Qed.

Lemma decode_scalar_bit_254 (k : bytes) :
  Z.testbit (X25519.decode_scalar k) 254 = true.
Proof.
  unfold X25519.decode_scalar. rewrite Z.lor_spec, Z.pow2_bits_true by lia.
  apply orb_true_r.
Qed.

Lemma ladder_first_step_zero (k : bytes) (x1 : bigZ) :
  BigZ.to_Z x1 = 0%Z →
  BigZ.to_Z (X25519.z2 (X25519.ladder_step (X25519.decode_scalar k) x1
                          (X25519.Ladder 1 0 x1 1 false) 254)) = 0%Z ∧
  BigZ.to_Z (X25519.z3 (X25519.ladder_step (X25519.decode_scalar k) x1
                          (X25519.Ladder 1 0 x1 1 false) 254)) = 0%Z.
Proof.
  intros Hx1. unfold X25519.ladder_step. cbv zeta.
  rewrite decode_scalar_bit_254.
  cbn [X25519.swap X25519.x2 X25519.x3 X25519.z2 X25519.z3 xorb].
  unfold X25519.cswap. cbn [X25519.z2 X25519.z3].
  rewrite !BigZ.spec_modulo, !BigZ.spec_mul, !BigZ.spec_modulo, !BigZ.spec_sub,
    !BigZ.spec_modulo, !BigZ.spec_mul, !BigZ.spec_modulo,
    ?BigZ.spec_add, ?BigZ.spec_sub, ?Hx1.
  split; vm_compute; reflexivity.
Qed.

Lemma bit_positions_cons :
  X25519.bit_positions = 254%Z :: map Z.of_nat (rev (seq 0 254)).
Proof. vm_compute. reflexivity. Qed.

Lemma le_bytes_zero : X25519.le_bytes 32 0 = replicate 32 x00.
Proof. vm_compute. reflexivity. Qed.

Lemma fold_left_cons {A B : Type} (f : A → B → A) (x : B) (l : list B) (a : A) :
  fold_left f (x :: l) a = fold_left f l (f a x).
Proof. reflexivity. Qed.

Lemma ladder_zero_point (k : bytes) (x1 : bigZ) :
  BigZ.to_Z x1 = 0%Z →
  BigZ.to_Z (X25519.z2 (fold_left (X25519.ladder_step (X25519.decode_scalar k) x1)
               X25519.bit_positions (X25519.Ladder 1 0 x1 1 false))) = 0%Z ∧
  BigZ.to_Z (X25519.z3 (fold_left (X25519.ladder_step (X25519.decode_scalar k) x1)
               X25519.bit_positions (X25519.Ladder 1 0 x1 1 false))) = 0%Z.
Proof.
  intros Hx1. rewrite bit_positions_cons, fold_left_cons.
  destruct (ladder_first_step_zero k x1 Hx1) as [H2 H3].
  apply ladder_fold_zero; assumption.
Qed.

Lemma finish_zero (l : X25519.ladder) :
  BigZ.to_Z (X25519.z2 l) = 0%Z → BigZ.to_Z (X25519.z3 l) = 0%Z →
  (let '(x2, _) := X25519.cswap (X25519.swap l) (X25519.x2 l) (X25519.x3 l) in
   let '(z2, _) := X25519.cswap (X25519.swap l) (X25519.z2 l) (X25519.z3 l) in
   X25519.le_bytes 32
     (BigZ.to_Z ((x2 * X25519.pow_mod z2 (Z.to_pos (2 ^ 255 - 21))) mod X25519.p)%bigZ)) =
  replicate 32 x00.
Proof.
  intros F2 F3. unfold X25519.cswap.
  destruct (X25519.swap l);
    rewrite BigZ.spec_modulo, BigZ.spec_mul, pow_mod_zero, Z.mul_0_r, Zmod_0_l by done;
    apply le_bytes_zero.
Qed.

Lemma scalarmult_zero_point (k u : bytes) :
  X25519.decode_u u = 0%Z → X25519.scalarmult k u = replicate 32 x00.
Proof.
  intros Hu. unfold X25519.scalarmult. cbv zeta. rewrite Hu.
  assert (Hx1 : BigZ.to_Z (BigZ.of_Z 0) = 0%Z) by apply BigZ.spec_of_Z.
  destruct (ladder_zero_point k (BigZ.of_Z 0) Hx1) as [F2 F3].
  apply finish_zero; assumption.
Qed.

(** A public key whose u-coordinate is zero passes [validate_public_key],
    and [compute_shared_secret] refuses it with a ValueError whatever the
    private key is: no shared secret is ever derived from it. *)
Theorem zero_point_refused (private_key public_key : bytes) :
  length public_key = 32 →
  X25519.decode_u public_key = 0%Z →
  Curve25519.validate_public_key public_key = true ∧
  ∃ msg, Curve25519.compute_shared_secret private_key public_key =
         Raise (ValueError msg).
Proof.
  intros Hlen Hu. split; [by apply validate_public_key_iff|].
  unfold Curve25519.compute_shared_secret, X25519.from_private_bytes,
    X25519.from_public_bytes, X25519.exchange.
  destruct (bool_decide (length private_key = 32)); [|by eexists].
  rewrite rbind_Ok, bool_decide_eq_true_2, rbind_Ok by done. cbv zeta.
  rewrite scalarmult_zero_point by done.
  rewrite bool_decide_eq_true_2 by done. by eexists.
Qed.

Lemma zero_point_refused_witness :
  Curve25519.validate_public_key (replicate 32 x00) = true ∧
  ∃ msg, Curve25519.compute_shared_secret client_private_key (replicate 32 x00) =
         Raise (ValueError msg).
Proof.
  apply (zero_point_refused client_private_key (replicate 32 x00)); reflexivity.
Defined.

(** *** Clamping *)

Lemma testbit_le_value (l : bytes) (i : Z) :
  (0 ≤ i)%Z →
  Z.testbit (X25519.le_value l) i =
  match l !! Z.to_nat (i `div` 8) with
  | Some b => Z.testbit (Z.of_N (Byte.to_N b)) (i `mod` 8)
  | None => false
  end.
Proof.
  revert i. induction l as [|x l IH]; intros i Hi.
  - cbn. apply Z.testbit_0_l.
  - change (X25519.le_value (x :: l))
      with (Z.of_N (Byte.to_N x) + 256 * X25519.le_value l)%Z.
    pose proof (Byte.to_N_bounded x) as Hx.
    set (X := Z.of_N (Byte.to_N x)). assert (0 ≤ X < 256)%Z by (unfold X; lia).
    destruct (decide (i < 8)%Z) as [Hlt|Hge].
    + rewrite Z.div_small, Z.mod_small by lia. cbn [Z.to_nat lookup list_lookup].
      rewrite <- (Z.mod_pow2_bits_low (X + 256 * X25519.le_value l) 8 i) by lia.
      f_equal. change (2 ^ 8)%Z with 256%Z.
      symmetry. apply (Z.mod_unique _ 256 (X25519.le_value l)); lia.
    + replace i with ((i - 8) + 8)%Z at 1 by lia.
      rewrite <- (Z.div_pow2_bits _ 8 (i - 8)) by lia.
      change (2 ^ 8)%Z with 256%Z.
      replace ((X + 256 * X25519.le_value l) `div` 256)%Z with (X25519.le_value l).
      2:{ apply (Z.div_unique _ 256 _ X); lia. }
      rewrite IH by lia.
      pose proof (Z.div_mod (i - 8) 8 ltac:(lia)) as Hdm.
      pose proof (Z.mod_pos_bound (i - 8) 8 ltac:(lia)) as Hmb.
      replace (i `div` 8)%Z with ((i - 8) `div` 8 + 1)%Z
        by (apply (Z.div_unique _ 8 _ ((i - 8) `mod` 8)); lia).
      replace (i `mod` 8)%Z with ((i - 8) `mod` 8)%Z
        by (apply (Z.mod_unique _ 8 ((i - 8) `div` 8 + 1)); lia).
      assert (0 ≤ (i - 8) `div` 8)%Z by (apply Z.div_pos; lia).
      rewrite Z2Nat.inj_add by lia. rewrite Nat.add_comm. done.
Qed.

Lemma clamp_mask_bits (i : Z) :
  (0 ≤ i)%Z → Z.testbit (2 ^ 255 - 8) i = (3 <=? i)%Z && (i <? 255)%Z.
Proof.
  intros Hi. change (2 ^ 255 - 8)%Z with (Z.shiftl (Z.ones 252) 3).
  rewrite Z.shiftl_spec, Z.testbit_ones by lia.
  destruct (Z.leb_spec 3 i), (Z.leb_spec 0 (i - 3)), (Z.ltb_spec (i - 3) 252),
    (Z.ltb_spec i 255); simpl; lia.
Qed.

Lemma band_f8_bits (b : byte) (j : Z) :
  (3 ≤ j < 8)%Z →
  Z.testbit (Z.of_N (Byte.to_N (band b xf8))) j = Z.testbit (Z.of_N (Byte.to_N b)) j.
Proof.
  intros Hj.
  assert (Hc : (j = 3 ∨ j = 4 ∨ j = 5 ∨ j = 6 ∨ j = 7)%Z) by lia.
  revert b. destruct Hc as [H|[H|[H|[H|H]]]]; subst j;
    lazymatch goal with |- ∀ b, @?P b => apply (forall_byte_prop P) end;
    vm_compute; reflexivity.
Qed.

Lemma clamp_top_bits (b : byte) (j : Z) :
  (0 ≤ j < 6)%Z →
  Z.testbit (Z.of_N (Byte.to_N (bor (band b x7f) x40))) j =
  Z.testbit (Z.of_N (Byte.to_N b)) j.
Proof.
  intros Hj.
  assert (Hc : (j = 0 ∨ j = 1 ∨ j = 2 ∨ j = 3 ∨ j = 4 ∨ j = 5)%Z) by lia.
  revert b. destruct Hc as [H|[H|[H|[H|[H|H]]]]]; subst j;
    lazymatch goal with |- ∀ b, @?P b => apply (forall_byte_prop P) end;
    vm_compute; reflexivity.
Qed.

Lemma clamped_lookup (k : bytes) (j : nat) :
  clamped k !! j =
  if decide (j = 0) then (fun b => band b xf8) <$> k !! j
  else if decide (j = 31) then (fun b => bor (band b x7f) x40) <$> k !! j
  else k !! j.
Proof.
  unfold clamped.
  destruct (decide (j = 0)) as [->|H0].
  - rewrite !(list_lookup_alter_ne _ _ 31 0) by done. apply list_lookup_alter_eq.
  - destruct (decide (j = 31)) as [->|H31].
    + rewrite !list_lookup_alter_eq, list_lookup_alter_ne by done.
      by rewrite <- option_fmap_compose.
    + by rewrite !list_lookup_alter_ne by done.
Qed.

Lemma clamped_bits (k : bytes) (i : Z) :
  (3 ≤ i < 254)%Z →
  Z.testbit (X25519.le_value (clamped k)) i = Z.testbit (X25519.le_value k) i.
Proof.
  intros Hi. rewrite !testbit_le_value by lia. rewrite clamped_lookup.
  pose proof (Z.div_mod i 8 ltac:(lia)) as Hdm.
  pose proof (Z.mod_pos_bound i 8 ltac:(lia)) as Hm.
  assert (0 ≤ i `div` 8)%Z by (apply Z.div_pos; lia).
  destruct (decide (Z.to_nat (i `div` 8) = 0)) as [E0|N0].
  - destruct (k !! Z.to_nat (i `div` 8)) as [b|]; [|done]. cbn [fmap option_fmap option_map].
    apply band_f8_bits. lia.
  - destruct (decide (Z.to_nat (i `div` 8) = 31)) as [E31|N31]; [|done].
    destruct (k !! Z.to_nat (i `div` 8)) as [b|]; [|done]. cbn [fmap option_fmap option_map].
    apply clamp_top_bits. lia.
Qed.

Lemma decode_scalar_clamped (k : bytes) :
  X25519.decode_scalar (clamped k) = X25519.decode_scalar k.
Proof.
  apply Z.bits_inj'. intros i Hi. unfold X25519.decode_scalar.
  rewrite !Z.lor_spec, !Z.land_spec, clamp_mask_bits by done.
  destruct (decide (i = 254%Z)) as [->|Hne].
  - rewrite Z.pow2_bits_true by lia. by rewrite !orb_true_r.
  - destruct (Z.leb_spec 3 i), (Z.ltb_spec i 255);
      rewrite ?andb_false_r; try done.
    rewrite clamped_bits by lia. done.
Qed.

Lemma clamp_head_idempotent (b : byte) : band (band b xf8) xf8 = band b xf8.
Proof.
  revert b. lazymatch goal with |- ∀ b, @?P b => apply (forall_byte_prop P) end.
  vm_compute. reflexivity.
Qed.

Lemma clamp_top_idempotent (b : byte) :
  bor (band (bor (band b x7f) x40) x7f) x40 = bor (band b x7f) x40.
Proof.
  revert b. lazymatch goal with |- ∀ b, @?P b => apply (forall_byte_prop P) end.
  vm_compute. reflexivity.
Qed.

Lemma clamped_idempotent (k : bytes) : clamped (clamped k) = clamped k.
Proof.
  apply list_eq. intros j. rewrite (clamped_lookup (clamped k)), clamped_lookup.
  destruct (decide (j = 0)) as [->|H0].
  - destruct (k !! 0) as [b|]; [|done]. cbn. by rewrite clamp_head_idempotent.
  - destruct (decide (j = 31)) as [->|H31]; [|done].
    destruct (k !! 31) as [b|]; [|done]. cbn. by rewrite clamp_top_idempotent.
Qed.

Lemma clamped_length (k : bytes) : length (clamped k) = length k.
Proof. unfold clamped. by rewrite !length_alter. Qed.

Lemma clamp_private_key_clamped (k : bytes) :
  length k = 32 → Curve25519.clamp_private_key k = Ok (clamped k).
Proof.
  intros Hk. unfold Curve25519.clamp_private_key.
  by rewrite bool_decide_eq_false_2 by (intros ?; done).
Qed.

Lemma scalarmult_clamped (k u : bytes) :
  X25519.scalarmult (clamped k) u = X25519.scalarmult k u.
Proof. unfold X25519.scalarmult. rewrite decode_scalar_clamped. reflexivity. Qed.

(** [clamp_private_key] refuses a key that is not 32 bytes long.  On a
    key of 32 bytes it returns 32 bytes, clamping again changes nothing,
    and the clamped key stands for the same scalar: it has the same
    public key and the same shared secret with every peer. *)
Theorem clamp_private_key_neutral (private_key : bytes) :
  (length private_key ≠ 32 →
     Curve25519.clamp_private_key private_key =
     Raise (ValueError "Private key must be 32 bytes")) ∧
  (length private_key = 32 →
     ∃ clamped_key,
       Curve25519.clamp_private_key private_key = Ok clamped_key ∧
       length clamped_key = 32 ∧
       Curve25519.clamp_private_key clamped_key = Ok clamped_key ∧
       X25519.public_key clamped_key = X25519.public_key private_key ∧
       ∀ public_key,
         Curve25519.compute_shared_secret clamped_key public_key =
         Curve25519.compute_shared_secret private_key public_key).
Proof.
  split.
  - intros Hk. unfold Curve25519.clamp_private_key. by rewrite bool_decide_eq_true_2.
  - intros Hk. exists (clamped private_key).
    assert (Hl : length (clamped private_key) = 32) by (by rewrite clamped_length).
    split; [by apply clamp_private_key_clamped|].
    split; [done|].
    split; [by rewrite clamp_private_key_clamped, clamped_idempotent|].
    split; [unfold X25519.public_key; apply scalarmult_clamped|].
    intros public_key.
    unfold Curve25519.compute_shared_secret, X25519.from_private_bytes.
    rewrite !bool_decide_eq_true_2, !rbind_Ok by done.
    destruct (X25519.from_public_bytes public_key) as [pk|e]; [|done].
    rewrite !rbind_Ok. unfold X25519.exchange. rewrite scalarmult_clamped.
    reflexivity.
Qed.

Lemma clamp_private_key_neutral_witness :
  ∃ clamped_key,
    Curve25519.clamp_private_key (replicate 32 xff) = Ok clamped_key ∧
    length clamped_key = 32 ∧
    Curve25519.clamp_private_key clamped_key = Ok clamped_key ∧
    X25519.public_key clamped_key = X25519.public_key (replicate 32 xff) ∧
    ∀ public_key,
      Curve25519.compute_shared_secret clamped_key public_key =
      Curve25519.compute_shared_secret (replicate 32 xff) public_key.
Proof.
  apply (clamp_private_key_neutral (replicate 32 xff)). reflexivity.
Defined.



(** ** base64: decoding what was encoded *)

Lemma forallb_below (f : N → bool) (k : nat) :
  forallb f (map N.of_nat (seq 0 k)) = true → ∀ n, (n < N.of_nat k)%N → f n = true.
Proof.
  intros Hall n Hn. rewrite forallb_forall in Hall. apply Hall.
  apply in_map_iff. exists (N.to_nat n). split; [lia|]. apply in_seq. lia.
Qed.

(** The 64 characters of the alphabet: none is the pad character, each
    is ASCII and decodes to its own index. *)
Lemma enc_char_ok (n : N) :
  (n < 64)%N →
  base64.enc_char n ≠ base64.pad_char ∧
  base64.dec_char (base64.enc_char n) = Some n ∧
  base64.is_ascii (base64.enc_char n) = true.
Proof.
  intros Hn.
  pose proof (forallb_below
    (fun n => bool_decide (base64.enc_char n ≠ base64.pad_char) &&
              bool_decide (base64.dec_char (base64.enc_char n) = Some n) &&
              base64.is_ascii (base64.enc_char n)) 64 eq_refl n Hn) as H.
  cbv beta in H. apply andb_true_iff in H as [H H3].
  apply andb_true_iff in H as [H1 H2].
  apply bool_decide_eq_true_1 in H1. apply bool_decide_eq_true_1 in H2. done.
Qed.

Lemma a2b_loop_data (c : ascii) (v : N) (s : list ascii) (quad_pos : nat)
    (leftchar : N) (pads : nat) (out : bytes) :
  c ≠ base64.pad_char → base64.dec_char c = Some v →
  base64.a2b_loop (c :: s) quad_pos leftchar pads out =
  match quad_pos with
  | O => base64.a2b_loop s 1 v 0 out
  | 1%nat =>
      base64.a2b_loop s 2 (v mod 16)%N 0 (out ++ [byte_of_N (leftchar * 4 + v / 16)])
  | 2%nat =>
      base64.a2b_loop s 3 (v mod 4)%N 0 (out ++ [byte_of_N (leftchar * 16 + v / 4)])
  | _ => base64.a2b_loop s 0 0%N 0 (out ++ [byte_of_N (leftchar * 64 + v)])
  end.
Proof.
  intros Hc Hv. cbn [base64.a2b_loop].
  rewrite bool_decide_eq_false_2 by done. rewrite Hv. reflexivity.
Qed.

Lemma a2b_loop_pad (s : list ascii) (quad_pos : nat) (leftchar : N) (pads : nat)
    (out : bytes) :
  base64.a2b_loop (base64.pad_char :: s) quad_pos leftchar pads out =
  if bool_decide (2 ≤ quad_pos)%nat then
    if bool_decide (4 ≤ quad_pos + S pads)%nat then Ok out
    else base64.a2b_loop s quad_pos leftchar (S pads) out
  else base64.a2b_loop s quad_pos leftchar pads out.
Proof. cbn [base64.a2b_loop]. by rewrite bool_decide_eq_true_2. Qed.

Lemma b64_quantum_bounds (n m o : N) :
  (n < 256 → m < 256 → o < 256 →
   n / 4 < 64 ∧ n mod 4 * 16 + m / 16 < 64 ∧ m mod 16 * 4 + o / 64 < 64 ∧ o mod 64 < 64 ∧
   n mod 4 * 16 < 64 ∧ m mod 16 * 4 < 64)%N.
Proof. intros. zify. Z.to_euclidean_division_equations. lia. Qed.

Lemma b64_byte_1 (n m : N) :
  (n < 256 → m < 256 → n / 4 * 4 + (n mod 4 * 16 + m / 16) / 16 = n)%N.
Proof. intros. zify. Z.to_euclidean_division_equations. lia. Qed.

Lemma b64_byte_2 (n m o : N) :
  (n < 256 → m < 256 → o < 256 →
   (n mod 4 * 16 + m / 16) mod 16 * 16 + (m mod 16 * 4 + o / 64) / 4 = m)%N.
Proof. intros. zify. Z.to_euclidean_division_equations. lia. Qed.

Lemma b64_byte_3 (m o : N) :
  (m < 256 → o < 256 → (m mod 16 * 4 + o / 64) mod 4 * 64 + o mod 64 = o)%N.
Proof. intros. zify. Z.to_euclidean_division_equations. lia. Qed.

Lemma b64_quantum_bytes (n m o : N) :
  (n < 256 → m < 256 → o < 256 →
   n / 4 * 4 + (n mod 4 * 16 + m / 16) / 16 = n ∧
   (n mod 4 * 16 + m / 16) mod 16 * 16 + (m mod 16 * 4 + o / 64) / 4 = m ∧
   (m mod 16 * 4 + o / 64) mod 4 * 64 + o mod 64 = o)%N.
Proof.
  intros Hn Hm Ho. split; [by apply b64_byte_1|].
  split; [by apply b64_byte_2 | by apply b64_byte_3].
Qed.

Lemma a2b_loop_b64encode (n : nat) (b out : bytes) :
  length b ≤ n →
  base64.a2b_loop (String.list_ascii_of_string (base64.b64encode b)) 0 0%N 0 out =
  Ok (out ++ b).
Proof.
  revert b out. induction n as [|n IH]; intros b out Hn.
  { destruct b; [|simpl in Hn; lia].
    cbn [base64.b64encode String.list_ascii_of_string base64.a2b_loop].
    by rewrite app_nil_r. }
  destruct b as [|x [|y [|z b]]].
  - cbn [base64.b64encode String.list_ascii_of_string base64.a2b_loop].
    by rewrite app_nil_r.
  - pose proof (Byte.to_N_bounded x) as Hx.
    destruct (b64_quantum_bounds (Byte.to_N x) 0 0) as (B1 & _ & _ & _ & B2 & _); [lia..|].
    destruct (b64_quantum_bytes (Byte.to_N x) 0 0) as (E1 & _ & _); [lia..|].
    destruct (enc_char_ok _ B1) as (P1 & D1 & _).
    destruct (enc_char_ok _ B2) as (P2 & D2 & _).
    cbn [base64.b64encode String.list_ascii_of_string].
    rewrite (a2b_loop_data _ _ _ 0 _ _ _ P1 D1).
    rewrite (a2b_loop_data _ _ _ 1 _ _ _ P2 D2).
    rewrite !a2b_loop_pad.
    repeat first [rewrite bool_decide_eq_true_2 by lia
                 |rewrite bool_decide_eq_false_2 by lia].
    replace (Byte.to_N x mod 4 * 16 / 16)%N with ((Byte.to_N x mod 4 * 16 + 0 / 16) / 16)%N
      by (by rewrite N.Div0.div_0_l, N.add_0_r).
    rewrite E1, byte_of_N_to_N. done.
  - pose proof (Byte.to_N_bounded x) as Hx. pose proof (Byte.to_N_bounded y) as Hy.
    destruct (b64_quantum_bounds (Byte.to_N x) (Byte.to_N y) 0)
      as (B1 & B2 & _ & _ & _ & B3); [lia..|].
    destruct (b64_quantum_bytes (Byte.to_N x) (Byte.to_N y) 0) as (E1 & E2 & _); [lia..|].
    destruct (enc_char_ok _ B1) as (P1 & D1 & _).
    destruct (enc_char_ok _ B2) as (P2 & D2 & _).
    destruct (enc_char_ok _ B3) as (P3 & D3 & _).
    cbn [base64.b64encode String.list_ascii_of_string].
    rewrite (a2b_loop_data _ _ _ 0 _ _ _ P1 D1).
    rewrite (a2b_loop_data _ _ _ 1 _ _ _ P2 D2).
    rewrite (a2b_loop_data _ _ _ 2 _ _ _ P3 D3).
    rewrite !a2b_loop_pad.
    repeat first [rewrite bool_decide_eq_true_2 by lia
                 |rewrite bool_decide_eq_false_2 by lia].
    replace (Byte.to_N y mod 16 * 4 / 4)%N
      with ((Byte.to_N y mod 16 * 4 + 0 / 64) / 4)%N
      by (by rewrite N.Div0.div_0_l, N.add_0_r).
    rewrite E1, E2, !byte_of_N_to_N. by rewrite <- app_assoc.
  - pose proof (Byte.to_N_bounded x) as Hx. pose proof (Byte.to_N_bounded y) as Hy.
    pose proof (Byte.to_N_bounded z) as Hz.
    destruct (b64_quantum_bounds (Byte.to_N x) (Byte.to_N y) (Byte.to_N z))
      as (B1 & B2 & B3 & B4 & _); [lia..|].
    destruct (b64_quantum_bytes (Byte.to_N x) (Byte.to_N y) (Byte.to_N z))
      as (E1 & E2 & E3); [lia..|].
    destruct (enc_char_ok _ B1) as (P1 & D1 & _).
    destruct (enc_char_ok _ B2) as (P2 & D2 & _).
    destruct (enc_char_ok _ B3) as (P3 & D3 & _).
    destruct (enc_char_ok _ B4) as (P4 & D4 & _).
    cbn [base64.b64encode String.list_ascii_of_string].
    rewrite (a2b_loop_data _ _ _ 0 _ _ _ P1 D1).
    rewrite (a2b_loop_data _ _ _ 1 _ _ _ P2 D2).
    rewrite (a2b_loop_data _ _ _ 2 _ _ _ P3 D3).
    rewrite (a2b_loop_data _ _ _ 3 _ _ _ P4 D4).
    rewrite E1, E2, E3, !byte_of_N_to_N.
    rewrite IH by (simpl in Hn; lia).
    by rewrite <- !app_assoc.
Qed.

Lemma b64encode_ascii (n : nat) (b : bytes) :
  length b ≤ n →
  forallb base64.is_ascii (String.list_ascii_of_string (base64.b64encode b)) = true.
Proof.
  revert b. induction n as [|n IH]; intros b Hn.
  { by destruct b; [|simpl in Hn; lia]. }
  destruct b as [|x [|y [|z b]]]; [done| | |].
  - pose proof (Byte.to_N_bounded x) as Hx.
    destruct (b64_quantum_bounds (Byte.to_N x) 0 0) as (B1 & _ & _ & _ & B2 & _); [lia..|].
    destruct (enc_char_ok _ B1) as (_ & _ & A1).
    destruct (enc_char_ok _ B2) as (_ & _ & A2).
    cbn [base64.b64encode String.list_ascii_of_string forallb].
    rewrite A1, A2. done.
  - pose proof (Byte.to_N_bounded x) as Hx. pose proof (Byte.to_N_bounded y) as Hy.
    destruct (b64_quantum_bounds (Byte.to_N x) (Byte.to_N y) 0)
      as (B1 & B2 & _ & _ & _ & B3); [lia..|].
    destruct (enc_char_ok _ B1) as (_ & _ & A1).
    destruct (enc_char_ok _ B2) as (_ & _ & A2).
    destruct (enc_char_ok _ B3) as (_ & _ & A3).
    cbn [base64.b64encode String.list_ascii_of_string forallb].
    rewrite A1, A2, A3. done.
  - pose proof (Byte.to_N_bounded x) as Hx. pose proof (Byte.to_N_bounded y) as Hy.
    pose proof (Byte.to_N_bounded z) as Hz.
    destruct (b64_quantum_bounds (Byte.to_N x) (Byte.to_N y) (Byte.to_N z))
      as (B1 & B2 & B3 & B4 & _); [lia..|].
    destruct (enc_char_ok _ B1) as (_ & _ & A1).
    destruct (enc_char_ok _ B2) as (_ & _ & A2).
    destruct (enc_char_ok _ B3) as (_ & _ & A3).
    destruct (enc_char_ok _ B4) as (_ & _ & A4).
    cbn [base64.b64encode String.list_ascii_of_string forallb].
    rewrite A1, A2, A3, A4. cbn [andb]. apply IH. simpl in Hn. lia.
Qed.

Lemma b64decode_b64encode (b : bytes) :
  base64.b64decode (base64.b64encode b) = Ok b.
Proof.
  unfold base64.b64decode, base64.a2b_base64.
  rewrite (b64encode_ascii (length b)) by done.
  by rewrite (a2b_loop_b64encode (length b)).
Qed.



(** ** The handshake from the phone's side *)

Lemma decrypt_cbc_encrypted (p key iv : bytes) :
  length key ∈ [16; 24; 32] →
  length iv = 16 →
  AESCipher.decrypt_cbc
    (iv ++ cryptography.cbc_encrypt_blocks (AES.key_expansion key) iv
             (chunks 16 (pkcs7_pad p))) key = Ok p.
Proof.
  intros Hk Hiv.
  destruct (chunks_blocks (length p `div` 16 + 1) (pkcs7_pad p)
              (pkcs7_pad_length p)) as [HF Hconcat].
  unfold AESCipher.decrypt_cbc.
  rewrite bool_decide_eq_false_2 by (rewrite length_app; lia).
  rewrite take_app_length', drop_app_length' by done.
  destruct (valid_key_cipher key iv Hk Hiv) as [HA HC].
  rewrite HA, rbind_Ok, HC, rbind_Ok.
  unfold cryptography.decryptor_update_finalize.
  rewrite bool_decide_eq_false_2.
  2: { intros Hne. apply Hne. rewrite cbc_encrypt_blocks_length.
       apply Nat.Div0.mod_mul. }
  rewrite rbind_Ok. cbn [cryptography.round_keys cryptography.iv].
  rewrite cbc_decrypt_encrypt_blocks, Hconcat by done.
  pose proof (unpadder_unpads p) as Hun.
  destruct (cryptography.unpadder_update [] (pkcs7_pad p)) as [out buffer].
  destruct Hun as (rest & -> & <-). by rewrite rbind_Ok.
Qed.

Lemma chunks_length_blocks (n : nat) (data : bytes) :
  length data = n * 16 → length (chunks 16 data) = n.
Proof.
  intros Hd. destruct (chunks_blocks n data Hd) as [HF Hc].
  apply (f_equal length) in Hc. rewrite Hd in Hc.
  rewrite concat_blocks_length in Hc by done. lia.
Qed.

Lemma compute_shared_secret_lengths (priv pub z : bytes) :
  Curve25519.compute_shared_secret priv pub = Ok z →
  length priv = 32 ∧ length pub = 32 ∧ length z = 32.
Proof.
  unfold Curve25519.compute_shared_secret, X25519.from_private_bytes,
    X25519.from_public_bytes, X25519.exchange.
  destruct (bool_decide (length priv = 32)) eqn:Hp; [|discriminate].
  rewrite rbind_Ok.
  destruct (bool_decide (length pub = 32)) eqn:Hq; [|discriminate].
  rewrite rbind_Ok. cbv zeta.
  destruct (bool_decide (X25519.scalarmult priv pub = replicate 32 x00));
    [discriminate|].
  intros H.
  apply (f_equal (fun r => match r with Ok a => length a | Raise _ => 0 end)) in H.
  cbv beta iota in H. rewrite scalarmult_length in H.
  apply bool_decide_eq_true_1 in Hp. apply bool_decide_eq_true_1 in Hq.
  split; [exact Hp|]. split; [exact Hq|]. symmetry. exact H.
Qed.

Lemma auth_dict_truthy (cid : option string) (ek mk : bytes) (now : Z) :
  truthy (PDict (auth_dict cid ek mk now)) = true.
Proof.
  cbn [truthy]. rewrite bool_decide_eq_false_2; [done|].
  rewrite map_size_empty_iff. intros He.
  destruct (auth_dict_keys cid ek mk now) as [H _]. rewrite He in H.
  by rewrite lookup_empty in H.
Qed.

Lemma conn_message_body (self : QRAuth.t) (now : Z) (blob : bytes) :
  QRAuth.handle_connection_message_body self now (conn_message blob) =
  match QRAuth._process_shared_secret self now blob with
  | Some auth_data =>
      if truthy (PDict auth_data)
      then Ok (true, if QRAuth.on_authenticated self
                     then [QRAuth.Authenticated auth_data] else [])
      else Raise (Exception "Failed to process shared secret")
  | None => Raise (Exception "Failed to process shared secret")
  end.
Proof.
  unfold QRAuth.handle_connection_message_body, conn_message. cbv beta iota.
  rewrite lookup_singleton_eq. cbv beta iota.
  unfold QRAuth.decode_secret. rewrite b64decode_b64encode, rbind_Ok. reflexivity.
Qed.

Lemma shared_secret_blob_value (z phone_public session_keys : bytes) :
  let aes_key := handshake_T1 z in
  let hmac_key := handshake_T2 z in
  let iv := take 16 (handshake_T3 z) in
  let encrypted_keys :=
    cryptography.cbc_encrypt_blocks (AES.key_expansion aes_key) iv
      (chunks 16 (pkcs7_pad session_keys)) in
  shared_secret_blob z phone_public session_keys =
  Ok (phone_public ++
      hmac.new_digest hashlib_sha256 hmac_key (phone_public ++ encrypted_keys) ++
      encrypted_keys).
Proof.
  intros aes_key hmac_key iv encrypted_keys.
  destruct (handshake_T_length z) as (H1 & H2 & H3).
  assert (Hiv : length iv = 16) by (unfold iv; rewrite length_take; lia).
  destruct (split_80 aes_key hmac_key iv H1 H2 Hiv) as (Ha & Hb & Hc & Hd).
  unfold shared_secret_blob. rewrite expand_80, rbind_Ok.
  fold aes_key hmac_key iv. rewrite Ha, Hb, Hd.
  rewrite encrypt_cbc_value by (rewrite ?H1, ?elem_of_cons; auto).
  rewrite rbind_Ok. cbv zeta. rewrite drop_app_length' by done. reflexivity.
Qed.

(** The handshake is complete: for every client that holds a private
    key, every phone public key with which the key agreement gives a
    secret [z], and every 64 or more bytes of session keys, the blob
    built from [z] is accepted, the authentication data carries exactly
    the first 32 bytes as [encKey] and the next 32 as [macKey], and the
    connection message that carries the blob in base64 is answered with
    [True] and one call of the authentication handler. *)
Theorem handshake_complete (self : QRAuth.t) (now : Z)
    (private_key z phone_public session_keys : bytes) :
  QRAuth.private_key self = Some private_key →
  Curve25519.compute_shared_secret private_key phone_public = Ok z →
  64 ≤ length session_keys →
  let auth_data :=
    auth_dict (QRAuth.client_id self) (take 32 session_keys)
      (slice 32 64 session_keys) now in
  ∃ blob,
    shared_secret_blob z phone_public session_keys = Ok blob ∧
    QRAuth._process_shared_secret self now blob = Some auth_data ∧
    QRAuth.handle_connection_message self now (conn_message blob) =
      (true, if QRAuth.on_authenticated self
             then [QRAuth.Authenticated auth_data] else []).
Proof.
  intros Hpriv Hz Hkeys auth_data.
  destruct (compute_shared_secret_lengths _ _ _ Hz) as (_ & Hpub & _).
  destruct (handshake_T_length z) as (H1 & H2 & H3).
  set (aes_key := handshake_T1 z) in *.
  set (hmac_key := handshake_T2 z) in *.
  set (iv := take 16 (handshake_T3 z)).
  assert (Hiv : length iv = 16) by (unfold iv; rewrite length_take; lia).
  set (enc := cryptography.cbc_encrypt_blocks (AES.key_expansion aes_key) iv
                (chunks 16 (pkcs7_pad session_keys))).
  set (tag := hmac.new_digest hashlib_sha256 hmac_key (phone_public ++ enc)).
  assert (Htag : length tag = 32) by apply hmac_sha256_length.
  assert (Henc : 80 ≤ length enc).
  { unfold enc. rewrite cbc_encrypt_blocks_length.
    rewrite (chunks_length_blocks (length session_keys `div` 16 + 1))
      by apply pkcs7_pad_length.
        assert (4 ≤ length session_keys `div` 16) by (apply (Nat.div_le_lower_bound _ 16 4); lia).
    lia. }
  exists (phone_public ++ tag ++ enc).
  split; [apply shared_secret_blob_value|].
  assert (Hbody : QRAuth.process_shared_secret_body self now (phone_public ++ tag ++ enc) =
                  Ok auth_data).
  { assert (T1 : take 32 (phone_public ++ tag ++ enc) = phone_public)
      by (by rewrite take_app_length').
    assert (T2 : drop 32 (phone_public ++ tag ++ enc) = tag ++ enc)
      by (by rewrite drop_app_length').
    assert (T3 : slice 32 64 (phone_public ++ tag ++ enc) = tag).
    { unfold slice. rewrite T2. change (64 - 32) with 32. by rewrite take_app_length'. }
    assert (T4 : drop 64 (phone_public ++ tag ++ enc) = enc).
    { change 64 with (32 + 32). rewrite <- drop_drop, T2. by rewrite drop_app_length'. }
    destruct (split_80 aes_key hmac_key iv H1 H2 Hiv) as (Ha & Hb & Hc & Hd).
    rewrite (process_shared_secret_body_eq self now _ private_key z
               (aes_key ++ hmac_key ++ iv)).
    - rewrite Ha, Hb, Hd, T1, T3, T4.
      unfold QRAuth.verify_and_decrypt. cbv zeta. fold tag.
      unfold hmac.compare_digest. rewrite bool_decide_eq_true_2 by done.
      cbn [negb]. unfold enc.
      rewrite decrypt_cbc_encrypted by (rewrite ?H1, ?elem_of_cons; auto).
      rewrite rbind_Ok, bool_decide_eq_false_2 by lia. reflexivity.
    - rewrite !length_app. lia.
    - done.
    - by rewrite T1.
    - apply expand_80. }
  assert (Hps : QRAuth._process_shared_secret self now (phone_public ++ tag ++ enc) =
                Some auth_data).
  { unfold QRAuth._process_shared_secret. by rewrite Hbody. }
  split; [exact Hps|].
  unfold QRAuth.handle_connection_message.
  rewrite conn_message_body, Hps. unfold auth_data. rewrite auth_dict_truthy. reflexivity.
Qed.

Lemma handshake_complete_witness :
  ∃ blob,
    shared_secret_blob rfc7748_shared_secret (take 32 valid_blob)
      (session_enc_key ++ session_mac_key) = Ok blob ∧
    QRAuth._process_shared_secret client_qr_auth 1700000000 blob =
      Some (auth_dict (Some "Y2xpZW50LWlkLTAwMDAwMQ==")
              (take 32 (session_enc_key ++ session_mac_key))
              (slice 32 64 (session_enc_key ++ session_mac_key)) 1700000000) ∧
    QRAuth.handle_connection_message client_qr_auth 1700000000 (conn_message blob) =
      (true, [QRAuth.Authenticated
                (auth_dict (Some "Y2xpZW50LWlkLTAwMDAwMQ==")
                   (take 32 (session_enc_key ++ session_mac_key))
                   (slice 32 64 (session_enc_key ++ session_mac_key)) 1700000000)]).
Proof.
  apply (handshake_complete client_qr_auth 1700000000 client_private_key
           rfc7748_shared_secret (take 32 valid_blob) (session_enc_key ++ session_mac_key)).
  - reflexivity.
  - exact handshake_ecdh.
  - vm_compute. lia.
Defined.



(** ** QRAuth without credentials *)

Lemma process_shared_secret_no_key (self : QRAuth.t) (now : Z) (blob : bytes) :
  QRAuth.private_key self = None →
  QRAuth._process_shared_secret self now blob = None.
Proof.
  intros Hk. unfold QRAuth._process_shared_secret, QRAuth.process_shared_secret_body.
  destruct (bool_decide (length blob < 96)); [done|].
  by rewrite Hk, rbind_Raise.
Qed.

Lemma body_not_conn (self : QRAuth.t) (now : Z) (s : string) (v : pyval)
    (rest : list pyval) :
  s ≠ "Conn"%string →
  QRAuth.handle_connection_message_body self now (PList (PStr s :: v :: rest)) =
  Ok (false, []).
Proof.
  intros Hs. unfold QRAuth.handle_connection_message_body.
  repeat (destruct s as [|[[] [] [] [] [] [] [] []] s]; try done).
Qed.

(** Every message either is a list that starts with "Conn" and a
    dictionary holding a secret, or is answered with [False]. *)
Lemma connection_message_shape (self : QRAuth.t) (now : Z) (message : pyval) :
  (∃ d v rest, message = PList (PStr "Conn" :: PDict d :: rest) ∧ d !! "secret" = Some v) ∨
  QRAuth.handle_connection_message_body self now message = Ok (false, []).
Proof.
  destruct message as [| | | | |l|]; try by right.
  destruct l as [|m0 [|conn_data rest]]; try by right.
  destruct m0 as [| | |s| | |]; try by right.
  destruct (decide (s = "Conn"%string)) as [->|Hs]; [|right; by apply body_not_conn].
  destruct conn_data as [| | | | | |d]; try by right.
  destruct (d !! "secret") as [v|] eqn:Hd.
  - left. by exists d, v, rest.
  - right. unfold QRAuth.handle_connection_message_body. cbv beta iota. by rewrite Hd.
Qed.

Lemma no_key_no_authentication (self : QRAuth.t) (now : Z) (message : pyval) :
  QRAuth.private_key self = None →
  (QRAuth.handle_connection_message self now message).1 = false ∧
  ∀ c, c ∈ (QRAuth.handle_connection_message self now message).2 →
       ∃ e, c = QRAuth.Error e.
Proof.
  intros Hk. unfold QRAuth.handle_connection_message.
  destruct (connection_message_shape self now message)
    as [(d & v & rest & -> & Hd)| ->].
  - unfold QRAuth.handle_connection_message_body. cbv beta iota. rewrite Hd.
    destruct (QRAuth.decode_secret v) as [blob|e].
    + rewrite rbind_Ok, process_shared_secret_no_key by done.
      split; [done|]. intros c. destruct (QRAuth.on_error self); [|by intros ?%elem_of_nil].
      intros ->%list_elem_of_singleton. by eexists.
    + rewrite rbind_Raise. split; [done|]. intros c.
      destruct (QRAuth.on_error self); [|by intros ?%elem_of_nil].
      intros ->%list_elem_of_singleton. by eexists.
  - split; [done|]. by intros c ?%elem_of_nil.
Qed.

(** A [QRAuth] object that has no private key, as a new one or one that
    was reset, answers every connection message with [False]; it never
    calls the authentication handler, whatever the message holds. *)
Theorem reset_never_authenticates (self : QRAuth.t) (now : Z) (message : pyval) :
  QRAuth.is_initialized (QRAuth.reset self) = false ∧
  QRAuth.is_initialized QRAuth.new = false ∧
  (QRAuth.handle_connection_message (QRAuth.reset self) now message).1 = false ∧
  (QRAuth.handle_connection_message QRAuth.new now message).1 = false ∧
  (∀ auth_data,
     QRAuth.Authenticated auth_data ∉
       (QRAuth.handle_connection_message (QRAuth.reset self) now message).2) ∧
  (∀ blob, QRAuth._process_shared_secret (QRAuth.reset self) now blob = None).
Proof.
  destruct (no_key_no_authentication (QRAuth.reset self) now message eq_refl) as [H1 H2].
  destruct (no_key_no_authentication QRAuth.new now message eq_refl) as [H3 _].
  split; [done|]. split; [done|]. split; [exact H1|]. split; [exact H3|].
  split.
  - intros auth_data Hin. by destruct (H2 _ Hin) as [e He].
  - intros blob. by apply process_shared_secret_no_key.
Qed.

(** ** The QR payload and the client id *)

Lemma b64encode_length_16 (b : bytes) :
  length b = 16 → String.length (base64.b64encode b) = 24.
Proof.
  intros H. do 17 (destruct b as [|? b]; try discriminate H). reflexivity.
Qed.

(** The client id is the base64 text of 16 random bytes: 24 characters
    that decode back to those bytes. *)
Theorem client_id_decodes (urandom : nat → bytes) :
  length (urandom 16) = 16 →
  String.length (Curve25519.generate_client_id urandom) = 24 ∧
  base64.b64decode (Curve25519.generate_client_id urandom) = Ok (urandom 16).
Proof.
  intros H. unfold Curve25519.generate_client_id.
  split; [by apply b64encode_length_16 | apply b64decode_b64encode].
Qed.

Lemma client_id_decodes_witness :
  String.length (Curve25519.generate_client_id (fun n => replicate n x2a)) = 24 ∧
  base64.b64decode (Curve25519.generate_client_id (fun n => replicate n x2a)) =
  Ok (replicate 16 x2a).
Proof. apply (client_id_decodes (fun n => replicate n x2a)). reflexivity. Defined.

(** [_generate_qr_code] raises a TypeError, and calls no handler, when
    the object has no public key.  Otherwise it returns the reference,
    the key in base64 and the client id, separated by commas; the key
    field decodes back to the public key, and a client id that is not
    set is written as [None]. *)
Theorem qr_code_fields (self : QRAuth.t) (qr_ref : string) :
  match QRAuth.public_key self with
  | None => ∃ msg, QRAuth._generate_qr_code self qr_ref = Raise (TypeError msg)
  | Some public_key =>
      ∃ key_b64,
        base64.b64decode key_b64 = Ok public_key ∧
        let qr_data :=
          qr_ref +:+ "," +:+ key_b64 +:+ "," +:+
          match QRAuth.client_id self with Some c => c | None => "None" end in
        QRAuth._generate_qr_code self qr_ref =
        Ok (qr_data, if QRAuth.on_qr_code self then [QRAuth.QrCode qr_data] else [])
  end.
Proof.
  unfold QRAuth._generate_qr_code.
  destruct (QRAuth.public_key self) as [pk|].
  - exists (base64.b64encode pk). split; [apply b64decode_b64encode|].
    rewrite rbind_Ok. reflexivity.
  - rewrite rbind_Raise. by eexists.
Qed.



(** ** QRAuth.initialize *)

Lemma generate_credentials_initialized (urandom_id urandom_key : nat → bytes)
    (self : QRAuth.t) :
  let self' := QRAuth.generate_credentials urandom_id urandom_key self in
  QRAuth.is_initialized self' = true ∧
  QRAuth.client_id self' = Some (base64.b64encode (urandom_id 16)) ∧
  QRAuth.private_key self' = Some (urandom_key 32) ∧
  QRAuth.public_key self' = Some (X25519.public_key (urandom_key 32)) ∧
  QRAuth.on_qr_code self' = QRAuth.on_qr_code self ∧
  QRAuth.on_error self' = QRAuth.on_error self.
Proof. done. Qed.

Lemma response_data_dict (response data : pyval) :
  QRAuth.response_data response = Ok data →
  ∃ d, response = PDict d ∧ d !! "data" = Some data.
Proof.
  unfold QRAuth.response_data.
  destruct (truthy response); cbn [negb]; [|discriminate].
  destruct response as [| | |s| |l|d]; try discriminate.
  - by destruct (QRAuth.str_contains _ _).
  - by destruct (existsb _ _).
  - destruct (d !! "data") as [v|] eqn:Hd; [|discriminate].
    intros H. exists d. split; [done|]. rewrite Hd. f_equal.
    exact (f_equal (fun r => match r with Ok a => a | Raise _ => v end) H).
Qed.

Lemma response_data_of_dict (d : gmap string pyval) (data : pyval) :
  d !! "data" = Some data → QRAuth.response_data (PDict d) = Ok data.
Proof.
  intros Hd. unfold QRAuth.response_data.
  assert (Ht : truthy (PDict d) = true).
  { cbn [truthy]. rewrite bool_decide_eq_false_2; [done|].
    rewrite map_size_empty_iff. intros ->. by rewrite lookup_empty in Hd. }
  rewrite Ht. cbn [negb]. by rewrite Hd.
Qed.

Lemma initialize_body_ok (py_str : pyval → string) (self : QRAuth.t)
    (response : result pyval) (pk : bytes) :
  QRAuth.public_key self = Some pk →
  (do r <- response; do data <- QRAuth.response_data r;
   QRAuth._handle_init_response py_str self data) =
  match init_response_ok response with
  | Some qr_ref =>
      let qr_data :=
        QRAuth.format_value py_str qr_ref +:+ "," +:+ base64.b64encode pk +:+ "," +:+
        QRAuth.format_optional (QRAuth.client_id self) in
      Ok (if QRAuth.on_qr_code self then [QRAuth.QrCode qr_data] else [])
  | None =>
      do r <- response; do data <- QRAuth.response_data r;
      QRAuth._handle_init_response py_str self data
  end ∧
  (init_response_ok response = None →
   ∃ e, (do r <- response; do data <- QRAuth.response_data r;
         QRAuth._handle_init_response py_str self data) = Raise e).
Proof.
  intros Hpk.
  destruct response as [r|e]; [|split; [done|by eexists]].
  rewrite rbind_Ok.
  destruct (QRAuth.response_data r) as [data|e] eqn:Hdata;
    [|destruct r as [| | | | | |d]; try (split; [done|by eexists]);
      cbn [init_response_ok];
      destruct (d !! "data") as [v|] eqn:Hd;
      [by rewrite (response_data_of_dict d v Hd) in Hdata
      |split; [done|by eexists]]].
  destruct (response_data_dict r data Hdata) as (d & -> & Hd).
  rewrite rbind_Ok. cbn [init_response_ok]. rewrite Hd.
  unfold QRAuth._handle_init_response.
  destruct data as [| | | | |l|]; try (split; [done|by eexists]).
  destruct l as [|r0 [|qr_ref rest]]; try (split; [done|by eexists]).
  destruct (truthy qr_ref); [|split; [done|by eexists]].
  unfold QRAuth._generate_qr_code. rewrite Hpk, !rbind_Ok. cbn [snd].
  split; [reflexivity|discriminate].
Qed.

(** [initialize] always leaves the object with fresh credentials:
    [is_initialized] holds afterwards, also when [False] is returned.
    It returns [True] exactly when the answer to the init message is a
    dictionary whose ['data'] is a list of at least two items with a
    true second item, the QR reference; the QR handler, if set, is then
    called once with the payload built from that reference.  In every
    other case no QR payload is produced and the exception goes to the
    error handler, if one is set. *)
Theorem initialize_outcome (py_str : pyval → string)
    (urandom_id urandom_key : nat → bytes) (send_message : pyval → result pyval)
    (browser_name browser_version : string) (self : QRAuth.t) :
  let r := QRAuth.initialize py_str urandom_id urandom_key send_message
             browser_name browser_version self in
  let self' := QRAuth.generate_credentials urandom_id urandom_key self in
  let response := send_message (QRAuth.init_message browser_name browser_version self') in
  r.1.2 = self' ∧
  QRAuth.is_initialized r.1.2 = true ∧
  match init_response_ok response with
  | Some qr_ref =>
      let qr_data :=
        QRAuth.format_value py_str qr_ref +:+ "," +:+
        base64.b64encode (X25519.public_key (urandom_key 32)) +:+ "," +:+
        base64.b64encode (urandom_id 16) in
      r.1.1 = true ∧
      r.2 = if QRAuth.on_qr_code self then [QRAuth.QrCode qr_data] else []
  | None =>
      r.1.1 = false ∧
      ∃ e, r.2 = if QRAuth.on_error self then [QRAuth.Error e] else []
  end.
Proof.
  intros r self' response.
  destruct (generate_credentials_initialized urandom_id urandom_key self)
    as (Hi & Hc & _ & Hpk & Hq & He).
  fold self' in Hi, Hc, Hpk, Hq, He.
  destruct (initialize_body_ok py_str self' response _ Hpk) as [Hbody Hfail].
  assert (Hr : r = match (do r <- response; do data <- QRAuth.response_data r;
                          QRAuth._handle_init_response py_str self' data) with
                   | Ok calls => (true, self', calls)
                   | Raise e => (false, self', if QRAuth.on_error self'
                                               then [QRAuth.Error e] else [])
                   end) by reflexivity.
  destruct (init_response_ok response) as [qr_ref|].
  - rewrite Hbody in Hr. rewrite Hr. cbn [fst snd].
    split; [done|]. split; [exact Hi|]. split; [done|].
    rewrite Hq, Hc. reflexivity.
  - destruct (Hfail eq_refl) as [e Hex]. rewrite Hex in Hr. rewrite Hr. cbn [fst snd].
    split; [done|]. split; [exact Hi|]. split; [done|]. exists e. by rewrite He.
Qed.



(** ** Hexadecimal text: reading what was written *)

Lemma hex_digit_ok (n : N) :
  (n < 16)%N →
  py_isspace (hex_digit n) = false ∧ hex_digit_value (hex_digit n) = Some n.
Proof.
  intros Hn.
  pose proof (forallb_below
    (fun n => negb (py_isspace (hex_digit n)) &&
              bool_decide (hex_digit_value (hex_digit n) = Some n)) 16 eq_refl n Hn) as H.
  cbv beta in H. apply andb_true_iff in H as [H1 H2].
  apply negb_true_iff in H1. by apply bool_decide_eq_true_1 in H2.
Qed.

Lemma byte_nibbles (x : byte) :
  (Byte.to_N x / 16 < 16 ∧ Byte.to_N x mod 16 < 16 ∧
   Byte.to_N x / 16 * 16 + Byte.to_N x mod 16 = Byte.to_N x)%N.
Proof.
  pose proof (Byte.to_N_bounded x). zify. Z.to_euclidean_division_equations. lia.
Qed.

Lemma fromhex_hex (b : bytes) : fromhex (hex b) = Ok b.
Proof.
  induction b as [|x b IH]; [done|].
  destruct (byte_nibbles x) as (H1 & H2 & H3).
  destruct (hex_digit_ok _ H1) as [S1 V1]. destruct (hex_digit_ok _ H2) as [S2 V2].
  cbn [hex fromhex]. rewrite S1, V1, V2, IH, rbind_Ok, H3, byte_of_N_to_N. done.
Qed.

Section ClientLifecycle.

Context (S : SessionClass).

Implicit Types (self : WhatsAppClient.t S) (ws : WhatsAppClient.transport).

(** *** start *)

Lemma restore_session_flag (file : WhatsAppClient.session_file) self :
  WhatsAppClient.is_authenticated S (WhatsAppClient._restore_session S file self).2 =
    WhatsAppClient.is_authenticated S self ∧
  WhatsAppClient.is_connected S (WhatsAppClient._restore_session S file self).2 =
    WhatsAppClient.is_connected S self ∧
  WhatsAppClient.qr_auth S (WhatsAppClient._restore_session S file self).2 =
    WhatsAppClient.qr_auth S self.
Proof.
  unfold WhatsAppClient._restore_session.
  destruct file as [| |session_data]; [done..|].
  destruct (session_restore S session_data (WhatsAppClient.session S self))
    as [[[]|] session']; try done.
  destruct (WhatsAppClient.json_get session_data "clientId" PNone); [|done].
  destruct (rbind (WhatsAppClient.json_get session_data "encKey" _) _); [|done].
  destruct (rbind (WhatsAppClient.json_get session_data "macKey" _) _); done.
Qed.

Lemma start_fresh_auth_outcome (py_str : pyval → string)
    (urandom_id urandom_key : nat → bytes) ws (browser_name browser_version : string) self :
  let r := WhatsAppClient._start_fresh_auth S py_str urandom_id urandom_key ws
             browser_name browser_version self in
  r.1 = is_ok (WhatsAppClient.ws_connect ws) ∧
  WhatsAppClient.is_authenticated S r.2 = WhatsAppClient.is_authenticated S self ∧
  WhatsAppClient.enc_key S r.2 = WhatsAppClient.enc_key S self ∧
  WhatsAppClient.mac_key S r.2 = WhatsAppClient.mac_key S self.
Proof.
  unfold WhatsAppClient._start_fresh_auth.
  destruct (WhatsAppClient.ws_connect ws); [|done].
  by destruct (QRAuth.initialize _ _ _ _ _ _ _) as [[ok qr] calls].
Qed.

(** What [start] returns.  When the session file was restored, the
    result is that of the restore request alone, [True] exactly when
    connecting and sending it both succeed; fresh authentication is not
    started, also when that request fails.  Otherwise the result is
    [True] exactly when connecting succeeds, whatever becomes of the QR
    initialization.  In both cases [start] leaves the authenticated flag
    as it was. *)
Theorem start_outcome (py_str : pyval → string)
    (urandom_id urandom_key : nat → bytes) ws (browser_name browser_version : string)
    (file : WhatsAppClient.session_file) self :
  let restored := WhatsAppClient._restore_session S file self in
  let r := WhatsAppClient.start S py_str urandom_id urandom_key ws
             browser_name browser_version file self in
  (restored.1 = true →
     r.2 = restored.2 ∧
     r.1 = is_ok (rbind (WhatsAppClient.ws_connect ws)
                    (fun _ => WhatsAppClient.ws_send_message ws
                                (WhatsAppClient.restore_message S restored.2)))) ∧
  (restored.1 = false → r.1 = is_ok (WhatsAppClient.ws_connect ws)) ∧
  WhatsAppClient.is_authenticated S r.2 = WhatsAppClient.is_authenticated S self.
Proof.
  intros restored r. unfold r, WhatsAppClient.start.
  destruct (restore_session_flag file self) as (Hauth & _ & _).
  fold restored in Hauth |- *.
  destruct restored as [[] c]; cbn [fst snd] in *.
  - split; [|split; [discriminate|exact Hauth]].
    intros _. split; [done|]. unfold WhatsAppClient._connect_with_session.
    by destruct (rbind _ _).
  - destruct (start_fresh_auth_outcome py_str urandom_id urandom_key ws
                browser_name browser_version c) as (H1 & H2 & _).
    split; [discriminate|]. split; [by intros _|]. by rewrite H2.
Qed.

(** *** send_text_message *)

Lemma send_unauthenticated
    (encrypt_message : pyval → pyval → pyval → result pyval) ws
    (time_ms : Z) (jid text : string) self :
  WhatsAppClient.is_authenticated S self = false →
  WhatsAppClient.send_text_message S encrypt_message ws time_ms jid text self =
  (false, []).
Proof. intros H. unfold WhatsAppClient.send_text_message. by rewrite H. Qed.

(** A client that was started from a session file alone cannot send:
    restoring and [start] leave the authenticated flag of a new client
    unset, so [send_text_message] returns [False] without encrypting or
    sending anything. *)
Theorem restored_client_cannot_send (py_str : pyval → string)
    (urandom_id urandom_key : nat → bytes) ws (browser_name browser_version : string)
    (file : WhatsAppClient.session_file)
    (encrypt_message : pyval → pyval → pyval → result pyval)
    (time_ms : Z) (jid text : string) :
  let started := WhatsAppClient.start S py_str urandom_id urandom_key ws
                   browser_name browser_version file (WhatsAppClient.new S) in
  WhatsAppClient.send_text_message S encrypt_message ws time_ms jid text started.2 =
  (false, []).
Proof.
  intros started. apply send_unauthenticated.
  unfold started, WhatsAppClient.start.
  destruct (restore_session_flag file (WhatsAppClient.new S)) as (Hauth & _ & _).
  destruct (WhatsAppClient._restore_session S file (WhatsAppClient.new S)) as [[] c];
    cbn [fst snd] in *; [exact Hauth|].
  destruct (start_fresh_auth_outcome py_str urandom_id urandom_key ws
              browser_name browser_version c) as (_ & H2 & _).
  by rewrite H2.
Qed.

(** *** stop *)

Lemma stop_fields ws self :
  WhatsAppClient.enc_key S (WhatsAppClient.stop S ws self).1 = WhatsAppClient.enc_key S self ∧
  WhatsAppClient.mac_key S (WhatsAppClient.stop S ws self).1 = WhatsAppClient.mac_key S self ∧
  WhatsAppClient.client_id S (WhatsAppClient.stop S ws self).1 =
    WhatsAppClient.client_id S self ∧
  (WhatsAppClient.is_authenticated S (WhatsAppClient.stop S ws self).1,
   WhatsAppClient.is_connected S (WhatsAppClient.stop S ws self).1) =
    (if is_ok (WhatsAppClient.ws_disconnect ws) then (false, false)
     else (WhatsAppClient.is_authenticated S self, WhatsAppClient.is_connected S self)).
Proof.
  unfold WhatsAppClient.stop. by destruct (WhatsAppClient.ws_disconnect ws).
Qed.

(** [stop] clears the two flags when the transport disconnects, but it
    never clears the keys or the client id.  A client that held two
    32-byte keys is left with the keys set and the authenticated flag
    unset, which the SessionState invariant excludes, and it can send
    nothing any more.  When disconnecting raises, the flags stay as
    they were. *)
Theorem stop_keeps_keys ws self
    (encrypt_message : pyval → pyval → pyval → result pyval)
    (time_ms : Z) (jid text : string) :
  let stopped := (WhatsAppClient.stop S ws self).1 in
  WhatsAppClient.enc_key S stopped = WhatsAppClient.enc_key S self ∧
  WhatsAppClient.mac_key S stopped = WhatsAppClient.mac_key S self ∧
  WhatsAppClient.client_id S stopped = WhatsAppClient.client_id S self ∧
  (is_ok (WhatsAppClient.ws_disconnect ws) = false →
     WhatsAppClient.is_authenticated S stopped = WhatsAppClient.is_authenticated S self ∧
     WhatsAppClient.is_connected S stopped = WhatsAppClient.is_connected S self) ∧
  (is_ok (WhatsAppClient.ws_disconnect ws) = true →
     WhatsAppClient.is_authenticated S stopped = false ∧
     WhatsAppClient.is_connected S stopped = false ∧
     WhatsAppClient.send_text_message S encrypt_message ws time_ms jid text stopped =
       (false, []) ∧
     (WhatsAppClient.key_set32 (WhatsAppClient.enc_key S self) →
      WhatsAppClient.key_set32 (WhatsAppClient.mac_key S self) →
      ¬ WhatsAppClient.session_state_invariant S stopped)).
Proof.
  intros stopped.
  destruct (stop_fields ws self) as (He & Hm & Hc & Hf). fold stopped in He, Hm, Hc, Hf.
  split; [exact He|]. split; [exact Hm|]. split; [exact Hc|].
  split.
  - intros Hd. rewrite Hd in Hf. by apply pair_equal_spec in Hf.
  - intros Hd. rewrite Hd in Hf. apply pair_equal_spec in Hf as [Ha Hn].
    split; [exact Ha|]. split; [exact Hn|].
    split; [by apply send_unauthenticated|].
    intros Ke Km [_ Hiff]. rewrite He, Hm, Ha in Hiff.
    destruct Hiff as [_ Hback]. by specialize (Hback (conj Ke Km)).
Qed.

(** *** The transport of the repository *)

Lemma own_transport_raises (connected disconnected : result ())
    (answer : pyval → result pyval) :
  let ws := WhatsAppClient.own_transport connected answer disconnected in
  is_ok (WhatsAppClient.ws_connect ws) = false ∧
  is_ok (WhatsAppClient.ws_disconnect ws) = false ∧
  ∀ m, is_ok (WhatsAppClient.ws_send_message ws m) = false.
Proof. done. Qed.

(** The client calls [connect], [send_message] and [disconnect] on its
    [WebSocketHandler], and the class of websocket/handler.py defines
    none of them.  With that handler, whatever those methods would do,
    [start] returns [False], [send_text_message] returns [False], and
    [stop] leaves the two flags as they are. *)
Theorem own_transport_never_connects (py_str : pyval → string)
    (urandom_id urandom_key : nat → bytes) (browser_name browser_version : string)
    (file : WhatsAppClient.session_file)
    (encrypt_message : pyval → pyval → pyval → result pyval)
    (time_ms : Z) (jid text : string)
    (connected disconnected : result ()) (answer : pyval → result pyval) self :
  let ws := WhatsAppClient.own_transport connected answer disconnected in
  (WhatsAppClient.start S py_str urandom_id urandom_key ws
     browser_name browser_version file self).1 = false ∧
  (WhatsAppClient.send_text_message S encrypt_message ws time_ms jid text self).1 = false ∧
  WhatsAppClient.is_authenticated S (WhatsAppClient.stop S ws self).1 =
    WhatsAppClient.is_authenticated S self ∧
  WhatsAppClient.is_connected S (WhatsAppClient.stop S ws self).1 =
    WhatsAppClient.is_connected S self.
Proof.
  intros ws.
  destruct (own_transport_raises connected disconnected answer) as (Hc & Hd & Hs).
  fold ws in Hc, Hd, Hs.
  split; [|split; [|split]].
  - unfold WhatsAppClient.start.
    destruct (WhatsAppClient._restore_session S file self) as [[] c]; cbn [fst].
    + unfold WhatsAppClient._connect_with_session.
      destruct (WhatsAppClient.ws_connect ws); [discriminate Hc|done].
    + destruct (start_fresh_auth_outcome py_str urandom_id urandom_key ws
                  browser_name browser_version c) as (H1 & _).
      by rewrite H1.
  - unfold WhatsAppClient.send_text_message.
    destruct (negb _); [done|]. destruct (encrypt_message _ _ _) as [m|]; [|done].
    specialize (Hs m). by destruct (WhatsAppClient.ws_send_message ws m).
  - unfold WhatsAppClient.stop.
    destruct (WhatsAppClient.ws_disconnect ws); [discriminate Hd|done].
  - unfold WhatsAppClient.stop.
    destruct (WhatsAppClient.ws_disconnect ws); [discriminate Hd|done].
Qed.

(** *** Saving and restoring *)

Lemma hex_or_empty_fromhex (key : pyval) (s : string) :
  WhatsAppClient.hex_or_empty key = Ok s → fromhex s = Ok (key_bytes key).
Proof.
  unfold WhatsAppClient.hex_or_empty.
  destruct (truthy key) eqn:Ht.
  - destruct key; try discriminate. intros H.
    replace s with (hex b)
      by exact (f_equal (fun r => match r with Ok a => a | Raise _ => s end) H).
    apply fromhex_hex.
  - intros H.
    replace s with EmptyString
      by exact (f_equal (fun r => match r with Ok a => a | Raise _ => s end) H).
    destruct key as [| | | |b| |]; try done.
    cbn [truthy] in Ht. apply negb_false_iff, bool_decide_eq_true_1 in Ht. by subst b.
Qed.


(** A restore that fails half-way is not undone: when the session
    object accepts the record and [encKey] is read, but [macKey] is not
    hexadecimal text, [_restore_session] returns [False] with the client
    id and [enc_key] already replaced and [mac_key] as it was. *)
Theorem restore_failure_keeps_partial_state (record : gmap string pyval) self
    (e : bytes) (err : exn) :
  (session_restore S (PDict record) (WhatsAppClient.session S self)).1 = Ok true →
  WhatsAppClient.py_fromhex (dict_get record "encKey" (PStr EmptyString)) = Ok e →
  WhatsAppClient.py_fromhex (dict_get record "macKey" (PStr EmptyString)) = Raise err →
  let r := WhatsAppClient._restore_session S (WhatsAppClient.Loaded (PDict record)) self in
  r.1 = false ∧
  WhatsAppClient.client_id S r.2 = dict_get record "clientId" PNone ∧
  WhatsAppClient.enc_key S r.2 = PBytes e ∧
  WhatsAppClient.mac_key S r.2 = WhatsAppClient.mac_key S self ∧
  WhatsAppClient.is_authenticated S r.2 = WhatsAppClient.is_authenticated S self.
Proof.
  intros Hrestore He Hm. cbv zeta. unfold WhatsAppClient._restore_session.
  destruct (session_restore S (PDict record) (WhatsAppClient.session S self))
    as [res session'].
  cbn [fst] in Hrestore. rewrite Hrestore.
  cbn [WhatsAppClient.json_get]. rewrite !rbind_Ok, He, Hm. done.
Qed.

End ClientLifecycle.

Lemma restore_failure_keeps_partial_state_witness :
  (WhatsAppClient._restore_session LaxSession (WhatsAppClient.Loaded damaged_session)
     (WhatsAppClient.new LaxSession)).1 = false ∧
  WhatsAppClient.enc_key LaxSession
    (WhatsAppClient._restore_session LaxSession (WhatsAppClient.Loaded damaged_session)
       (WhatsAppClient.new LaxSession)).2 = PBytes session_enc_key ∧
  WhatsAppClient.mac_key LaxSession
    (WhatsAppClient._restore_session LaxSession (WhatsAppClient.Loaded damaged_session)
       (WhatsAppClient.new LaxSession)).2 = PNone.
Proof.
  destruct (restore_failure_keeps_partial_state LaxSession
              (match damaged_session with PDict d => d | _ => ∅ end)
              (WhatsAppClient.new LaxSession) session_enc_key
              (ValueError "non-hexadecimal number found in fromhex() arg"))
    as (H1 & _ & H3 & H4 & _).
  - reflexivity.
  - vm_reflexivity.
  - vm_reflexivity.
  - split; [exact H1|]. split; [exact H3 | exact H4].
Defined.

Lemma stop_keeps_keys_witness :
  WhatsAppClient.is_authenticated SpecSession
    (WhatsAppClient.stop SpecSession
       {| WhatsAppClient.ws_connect := Ok (); WhatsAppClient.ws_send_message := Ok;
          WhatsAppClient.ws_disconnect := Ok () |}
       (WhatsAppClient._handle_authentication SpecSession
          (auth_dict (Some "Y2xpZW50LWlkLTAwMDAwMQ==") session_enc_key session_mac_key
             1700000000) fresh_client).1).1 = false.
Proof.
  destruct (stop_keeps_keys SpecSession
              {| WhatsAppClient.ws_connect := Ok (); WhatsAppClient.ws_send_message := Ok;
                 WhatsAppClient.ws_disconnect := Ok () |}
              (WhatsAppClient._handle_authentication SpecSession
                 (auth_dict (Some "Y2xpZW50LWlkLTAwMDAwMQ==") session_enc_key
                    session_mac_key 1700000000) fresh_client).1
              (fun m _ _ => Ok m) 0 EmptyString EmptyString)
    as (_ & _ & _ & _ & H).
  by destruct (H eq_refl) as (Ha & _).
Defined.




(** ** AES-CBC: the checks of encrypt_cbc and decrypt_cbc *)

Lemma valid_key_cases (key : bytes) :
  length key ∈ [16; 24; 32] ↔ length key = 16 ∨ length key = 24 ∨ length key = 32.
Proof. rewrite !elem_of_cons, elem_of_nil. tauto. Qed.

Lemma encrypt_cbc_length (key iv p : bytes) :
  length iv = 16 →
  length (iv ++ cryptography.cbc_encrypt_blocks (AES.key_expansion key) iv
                  (chunks 16 (pkcs7_pad p))) = 16 + (length p `div` 16 + 1) * 16.
Proof.
  intros Hiv. rewrite length_app, cbc_encrypt_blocks_length, Hiv.
  by rewrite (chunks_length_blocks (length p `div` 16 + 1)) by apply pkcs7_pad_length.
Qed.

(** [encrypt_cbc] checks the IV before it looks at the key: an IV that
    is not 16 bytes long is refused with the same ValueError whatever
    the key is.  Without an IV it takes 16 bytes from the random source,
    puts them in front of the ciphertext, and [decrypt_cbc] gives the
    plaintext back. *)
Theorem encrypt_cbc_iv (urandom : nat → bytes) (plaintext key : bytes) :
  (∀ iv, length iv ≠ 16 →
     AESCipher.encrypt_cbc urandom plaintext key (Some iv) =
     Raise (ValueError "IV must be 16 bytes")) ∧
  (length (urandom 16) = 16 → length key ∈ [16; 24; 32] →
     ∃ c,
       AESCipher.encrypt_cbc urandom plaintext key None = Ok c ∧
       take 16 c = urandom 16 ∧
       length c = 16 + (length plaintext `div` 16 + 1) * 16 ∧
       AESCipher.decrypt_cbc c key = Ok plaintext).
Proof.
  split.
  - intros iv Hiv. unfold AESCipher.encrypt_cbc.
    by rewrite bool_decide_eq_true_2.
  - intros Hr Hk.
    assert (Hsame : AESCipher.encrypt_cbc urandom plaintext key None =
                    AESCipher.encrypt_cbc urandom plaintext key (Some (urandom 16))).
    { unfold AESCipher.encrypt_cbc. by rewrite bool_decide_eq_false_2 by lia. }
    eexists. split; [rewrite Hsame; by apply encrypt_cbc_value|].
    split; [by rewrite take_app_length'|].
    split; [by apply encrypt_cbc_length|].
    by apply decrypt_cbc_encrypted.
Qed.

Lemma encrypt_cbc_iv_witness :
  ∃ c,
    AESCipher.encrypt_cbc (fun n => replicate n x07) [x01; x02; x03]
      (replicate 16 x00) None = Ok c ∧
    take 16 c = replicate 16 x07 ∧
    length c = 16 + (3 `div` 16 + 1) * 16 ∧
    AESCipher.decrypt_cbc c (replicate 16 x00) = Ok [x01; x02; x03].
Proof.
  apply (encrypt_cbc_iv (fun n => replicate n x07) [x01; x02; x03] (replicate 16 x00)).
  - reflexivity.
  - apply valid_key_cases. by left.
Defined.

Lemma cipher_cbc_key (key iv k : bytes) (c : cryptography.Cipher) :
  cryptography.algorithms_AES key = Ok k →
  cryptography.Cipher_CBC k iv = Ok c →
  k = key ∧ (length key = 16 ∨ length key = 24 ∨ length key = 32) ∧
  length iv = 16 ∧
  c = {| cryptography.round_keys := AES.key_expansion key; cryptography.iv := iv |}.
Proof.
  unfold cryptography.algorithms_AES, cryptography.Cipher_CBC.
  destruct (bool_decide (length key * 8 ∈ [128; 192; 256; 512])) eqn:Hk; [|discriminate].
  intros H.
  assert (k = key)
    by (symmetry; exact (f_equal (fun r => match r with Ok a => a | Raise _ => k end) H)).
  subst k.
  destruct (bool_decide (256 < length key * 8)) eqn:H2; [discriminate|].
  destruct (bool_decide (length iv * 8 ≠ 128)) eqn:H3; [discriminate|].
  intros Hc.
  apply bool_decide_eq_true_1 in Hk. apply bool_decide_eq_false_1 in H2, H3.
  rewrite !elem_of_cons, elem_of_nil in Hk.
  split; [done|]. split; [lia|]. split; [lia|].
  symmetry. exact (f_equal (fun r => match r with Ok a => a | Raise _ => c end) Hc).
Qed.

(** The shape of everything [decrypt_cbc] accepts: a key of 16, 24 or
    32 bytes and an input of at least two blocks, a whole number of
    them; the plaintext is shorter than the encrypted part by the
    padding, 1 to 16 bytes. *)
Theorem decrypt_cbc_accepts (ciphertext key plaintext : bytes) :
  AESCipher.decrypt_cbc ciphertext key = Ok plaintext →
  (length key = 16 ∨ length key = 24 ∨ length key = 32) ∧
  32 ≤ length ciphertext ∧
  length ciphertext `mod` 16 = 0 ∧
  length ciphertext - 32 ≤ length plaintext < length ciphertext - 16.
Proof.
  unfold AESCipher.decrypt_cbc.
  destruct (bool_decide (length ciphertext < 16)) eqn:Hlen; [discriminate|].
  apply bool_decide_eq_false_1 in Hlen.
  destruct (cryptography.algorithms_AES key) as [k|] eqn:Hk; [|discriminate].
  rewrite rbind_Ok.
  destruct (cryptography.Cipher_CBC k (take 16 ciphertext)) as [ci|] eqn:Hci;
    [|discriminate].
  rewrite rbind_Ok.
  destruct (cipher_cbc_key _ _ _ _ Hk Hci) as (-> & Hkey & Hivl & ->).
  unfold cryptography.decryptor_update_finalize.
  destruct (bool_decide (length (drop 16 ciphertext) `mod` 16 ≠ 0)) eqn:Hmod;
    [discriminate|].
  apply bool_decide_eq_false_1 in Hmod.
  assert (Hm : length (drop 16 ciphertext) `mod` 16 = 0) by lia.
  rewrite rbind_Ok. cbn [cryptography.round_keys cryptography.iv].
  set (data := drop 16 ciphertext) in *.
  assert (Hdata : length data = (length data `div` 16) * 16).
  { pose proof (Nat.div_mod (length data) 16). lia. }
  destruct (chunks_blocks _ data Hdata) as [HF Hconcat].
  set (padded := cryptography.cbc_decrypt_blocks _ _ _).
  assert (Hpadded : length padded = length data).
  { unfold padded. rewrite cbc_decrypt_blocks_length by done.
    rewrite <- concat_blocks_length by done. by rewrite Hconcat. }
  unfold cryptography.unpadder_update. rewrite app_nil_l.
  set (n := (length padded `div` 16 - 1) * 16).
  destruct (cryptography.unpadder_finalize (drop n padded)) as [rest|] eqn:Hrest;
    [|discriminate].
  rewrite rbind_Ok. intros H.
  apply (f_equal (fun r => match r with Ok a => length a | Raise _ => 0 end)) in H.
  cbv beta iota in H.
  revert Hrest. unfold cryptography.unpadder_finalize.
  destruct (bool_decide (length (drop n padded) ≠ 16)) eqn:Hb; [discriminate|].
  apply bool_decide_eq_false_1 in Hb.
  destruct (cryptography.check_pkcs7_padding (drop n padded)) eqn:Hcheck; [|discriminate].
  cbn [negb]. intros Hrest.
  apply (f_equal (fun r => match r with Ok a => length a | Raise _ => 0 end)) in Hrest.
  cbv beta iota in Hrest.
  unfold cryptography.check_pkcs7_padding in Hcheck.
  apply andb_true_iff in Hcheck as [Hpad _]. apply bool_decide_eq_true_1 in Hpad.
  rewrite length_drop in Hb.
  unfold data in *. rewrite length_drop in *.
  rewrite length_app, !length_take, length_drop in *.
  split; [done|].
  pose proof (Nat.div_mod (length ciphertext - 16) 16).
  pose proof (Nat.div_mod (length ciphertext) 16).
  pose proof (Nat.mod_upper_bound (length ciphertext) 16).
  lia.
Qed.

Lemma decrypt_cbc_accepts_witness :
  32 ≤ length hello_ciphertext ∧
  length hello_ciphertext `mod` 16 = 0 ∧
  length hello_ciphertext - 32 ≤ length (unhex "68656c6c6f20776f726c64")
    < length hello_ciphertext - 16.
Proof.
  apply (decrypt_cbc_accepts hello_ciphertext (unhex "000102030405060708090a0b0c0d0e0f")
           (unhex "68656c6c6f20776f726c64")).
  vm_compute. reflexivity.
Defined.

(** ** generate_key *)

(** [generate_key] refuses every size but 16, 24 and 32 with a
    ValueError.  For these sizes it returns what the random source
    gives, and when that has the size asked for, [validate_key] accepts
    the key and [encrypt_cbc] and [decrypt_cbc] work with it. *)
Theorem generate_key_valid (urandom : nat → bytes) (key_size : Z) :
  (key_size ∉ [16; 24; 32]%Z →
     AESCipher.generate_key urandom key_size =
     Raise (ValueError "Key size must be 16, 24, or 32 bytes")) ∧
  (key_size ∈ [16; 24; 32]%Z →
     AESCipher.generate_key urandom key_size = Ok (urandom (Z.to_nat key_size)) ∧
     (length (urandom (Z.to_nat key_size)) = Z.to_nat key_size →
        AESCipher.validate_key (urandom (Z.to_nat key_size)) = true ∧
        ∀ plaintext iv, length iv = 16 →
          ∃ c, AESCipher.encrypt_cbc urandom plaintext (urandom (Z.to_nat key_size))
                 (Some iv) = Ok c ∧
               AESCipher.decrypt_cbc c (urandom (Z.to_nat key_size)) = Ok plaintext)).
Proof.
  split.
  - intros H. unfold AESCipher.generate_key. by rewrite bool_decide_eq_true_2.
  - intros H. unfold AESCipher.generate_key.
    rewrite bool_decide_eq_false_2 by (by intros ?).
    split; [done|]. intros Hl.
    assert (Hk : length (urandom (Z.to_nat key_size)) ∈ [16; 24; 32]).
    { rewrite Hl. revert H. rewrite !elem_of_cons, !elem_of_nil.
      intros [->|[->|[->|[]]]]; auto. }
    split; [by apply validate_key_iff, valid_key_cases|].
    intros plaintext iv Hiv. eexists.
    split; [by apply encrypt_cbc_value | by apply decrypt_cbc_encrypted].
Qed.



(** ** AES-CBC: what decrypts is what was encrypted *)

Lemma remix_linear (x y : AES.col) :
  remix (AES.xor_col x y) = AES.xor_col (remix x) (remix y).
Proof.
  unfold remix. rewrite inv_mix_column_linear. apply mix_column_linear.
Qed.

Lemma remix_unit_0 (b : byte) : remix (b, x00, x00, x00) = (b, x00, x00, x00).
Proof.
  revert b. apply (forall_byte_prop (fun b => remix (b, x00, x00, x00) = (b, x00, x00, x00))).
  vm_compute. reflexivity.
Qed.

Lemma remix_unit_1 (b : byte) : remix (x00, b, x00, x00) = (x00, b, x00, x00).
Proof.
  revert b. apply (forall_byte_prop (fun b => remix (x00, b, x00, x00) = (x00, b, x00, x00))).
  vm_compute. reflexivity.
Qed.

Lemma remix_unit_2 (b : byte) : remix (x00, x00, b, x00) = (x00, x00, b, x00).
Proof.
  revert b. apply (forall_byte_prop (fun b => remix (x00, x00, b, x00) = (x00, x00, b, x00))).
  vm_compute. reflexivity.
Qed.

Lemma remix_unit_3 (b : byte) : remix (x00, x00, x00, b) = (x00, x00, x00, b).
Proof.
  revert b. apply (forall_byte_prop (fun b => remix (x00, x00, x00, b) = (x00, x00, x00, b))).
  vm_compute. reflexivity.
Qed.

Lemma mix_column_inv_mix_column (x : AES.col) :
  AES.mix_column (AES.inv_mix_column x) = x.
Proof.
  change (remix x = x).
  destruct x as [[[a b] c] d].
  etransitivity; [apply (f_equal remix (col_decompose a b c d))|].
  rewrite !remix_linear, remix_unit_0, remix_unit_1, remix_unit_2, remix_unit_3.
  symmetry. apply col_decompose.
Qed.

Lemma sbox_inv_sbox (b : byte) : AES.sbox (AES.inv_sbox b) = b.
Proof. destruct b; reflexivity. Qed.

Lemma sub_bytes_inv_sub_bytes (s : AES.state) :
  AES.sub_bytes (AES.inv_sub_bytes s) = s.
Proof.
  destruct s as [[[[[[a0 a1] a2] a3] [[[b0 b1] b2] b3]] [[[c0 c1] c2] c3]] [[[d0 d1] d2] d3]].
  unfold AES.inv_sub_bytes, AES.sub_bytes, AES.map_state, AES.map_col.
  by rewrite !sbox_inv_sbox.
Qed.

Lemma shift_rows_inv_shift_rows (s : AES.state) :
  AES.shift_rows (AES.inv_shift_rows s) = s.
Proof.
  by destruct s as [[[[[[a0 a1] a2] a3] [[[b0 b1] b2] b3]] [[[c0 c1] c2] c3]] [[[d0 d1] d2] d3]].
Qed.

Lemma mix_columns_inv_mix_columns (s : AES.state) :
  AES.mix_columns (AES.inv_mix_columns s) = s.
Proof.
  destruct s as [[[c0 c1] c2] c3].
  unfold AES.inv_mix_columns, AES.mix_columns, AES.map_state.
  by rewrite !mix_column_inv_mix_column.
Qed.

Lemma rounds_inv_rounds (ks : list AES.state) (s : AES.state) :
  AES.rounds ks (AES.inv_rounds ks s) = s.
Proof.
  revert s. induction ks as [|k ks IH]; intros s; [done|].
  destruct ks as [|k' ks].
  - simpl. by rewrite sub_bytes_inv_sub_bytes, shift_rows_inv_shift_rows,
      add_round_key_cancel.
  - change (AES.inv_rounds (k :: k' :: ks) s)
      with (AES.inv_sub_bytes (AES.inv_shift_rows (AES.inv_mix_columns
              (AES.add_round_key k (AES.inv_rounds (k' :: ks) s))))).
    change (AES.rounds (k :: k' :: ks) ?x)
      with (AES.rounds (k' :: ks)
              (AES.add_round_key k (AES.mix_columns (AES.shift_rows (AES.sub_bytes x))))).
    by rewrite sub_bytes_inv_sub_bytes, shift_rows_inv_shift_rows,
      mix_columns_inv_mix_columns, add_round_key_cancel, IH.
Qed.

Lemma cipher_inv_cipher (ks : list AES.state) (s : AES.state) :
  AES.cipher ks (AES.inv_cipher ks s) = s.
Proof.
  destruct ks as [|k0 ks]; [done|].
  unfold AES.inv_cipher, AES.cipher.
  by rewrite add_round_key_cancel, rounds_inv_rounds.
Qed.

Lemma encrypt_decrypt_block (ks : list AES.state) (b : bytes) :
  length b = 16 → AES.encrypt_block ks (AES.decrypt_block ks b) = b.
Proof.
  intros H. unfold AES.decrypt_block, AES.encrypt_block.
  by rewrite state_of_block_of_state, cipher_inv_cipher, block_of_state_of_block.
Qed.

Lemma cbc_encrypt_decrypt_blocks (ks : list AES.state) (prev : bytes) (blocks : list bytes) :
  length prev = 16 →
  Forall (fun b => length b = 16) blocks →
  cryptography.cbc_encrypt_blocks ks prev
    (chunks 16 (cryptography.cbc_decrypt_blocks ks prev blocks)) = concat blocks.
Proof.
  intros Hprev HF. revert prev Hprev.
  induction HF as [|c blocks Hc HF IH]; intros prev Hprev; [done|].
  cbn [cryptography.cbc_decrypt_blocks concat].
  assert (Hx : length (xor_bytes (AES.decrypt_block ks c) prev) = 16).
  { rewrite xor_bytes_length; rewrite decrypt_block_length; [done|by rewrite Hprev]. }
  rewrite chunks_app by (done || lia).
  cbn [cryptography.cbc_encrypt_blocks].
  rewrite xor_bytes_cancel by (rewrite decrypt_block_length; by rewrite Hprev).
  rewrite encrypt_decrypt_block by done. cbv zeta.
  by rewrite IH.
Qed.

(** A block that passes the PKCS7 check ends with as many bytes as its
    last byte says, all equal to it. *)
Lemma unpadder_finalize_pads (buffer rest : bytes) :
  cryptography.unpadder_finalize buffer = Ok rest →
  ∃ pad_size,
    0 < pad_size ≤ 16 ∧ length rest = 16 - pad_size ∧
    buffer = rest ++ replicate pad_size (byte_of_nat pad_size).
Proof.
  unfold cryptography.unpadder_finalize.
  destruct (bool_decide (length buffer ≠ 16)) eqn:Hb; [discriminate|].
  apply bool_decide_eq_false_1 in Hb.
  assert (Hlen : length buffer = 16) by lia.
  destruct (cryptography.check_pkcs7_padding buffer) eqn:Hcheck; [|discriminate].
  cbn [negb]. intros H.
  assert (Hrest : rest = take (length buffer - Byte.to_nat (List.last buffer x00)) buffer)
    by (symmetry;
        exact (f_equal (fun r => match r with Ok a => a | Raise _ => rest end) H)).
  unfold cryptography.check_pkcs7_padding in Hcheck.
  apply andb_true_iff in Hcheck as [Hpad Hall]. apply bool_decide_eq_true_1 in Hpad.
  set (n := Byte.to_nat (List.last buffer x00)) in *.
  exists n. split; [lia|].
  split; [rewrite Hrest, length_take; lia|].
  rewrite <- (take_drop (length buffer - n) buffer) at 1. rewrite <- Hrest. f_equal.
  apply list_eq_same_length with n.
  - by rewrite length_replicate.
  - rewrite length_drop. lia.
  - intros i x y Hi Hx Hy.
    apply lookup_replicate in Hy as [-> _].
    rewrite forallb_forall in Hall.
    assert (Hin : In x (drop (length buffer - n) buffer))
      by (apply list_elem_of_In; by eapply list_elem_of_lookup_2).
    apply Hall, bool_decide_eq_true_1 in Hin.
    rewrite <- Hin. unfold byte_of_nat. rewrite <- Byte.to_N_via_nat.
    symmetry. apply byte_of_N_to_N.
Qed.

Lemma pkcs7_pad_unpadded (out rest : bytes) (pad_size : nat) :
  length out `mod` 16 = 0 → 0 < pad_size ≤ 16 → length rest = 16 - pad_size →
  pkcs7_pad (out ++ rest) = out ++ rest ++ replicate pad_size (byte_of_nat pad_size).
Proof.
  intros Ho Hp Hr. unfold pkcs7_pad. rewrite <- app_assoc. do 2 f_equal.
  assert (Hm : 16 - length (out ++ rest) `mod` 16 = pad_size).
  { rewrite length_app, Hr.
    pose proof (Nat.div_mod (length out) 16 ltac:(lia)) as Hdm.
    destruct (decide (pad_size = 16)) as [->|Hne].
    - replace (length out + (16 - 16)) with (0 + (length out `div` 16) * 16) by lia.
      rewrite Nat.Div0.mod_add. done.
    - replace (length out + (16 - pad_size))
        with ((16 - pad_size) + (length out `div` 16) * 16) by lia.
      rewrite Nat.Div0.mod_add, Nat.mod_small by lia. lia. }
  by rewrite Hm.
Qed.

Lemma decrypt_cbc_shape (ciphertext key plaintext : bytes) :
  AESCipher.decrypt_cbc ciphertext key = Ok plaintext →
  (length key = 16 ∨ length key = 24 ∨ length key = 32) ∧
  16 ≤ length ciphertext ∧
  ∃ (blocks : list bytes) (out rest : bytes) (pad_size : nat),
    Forall (fun b => length b = 16) blocks ∧
    concat blocks = drop 16 ciphertext ∧
    cryptography.cbc_decrypt_blocks (AES.key_expansion key) (take 16 ciphertext) blocks =
      out ++ rest ++ replicate pad_size (byte_of_nat pad_size) ∧
    length out `mod` 16 = 0 ∧ 0 < pad_size ≤ 16 ∧ length rest = 16 - pad_size ∧
    plaintext = out ++ rest.
Proof.
  unfold AESCipher.decrypt_cbc.
  destruct (bool_decide (length ciphertext < 16)) eqn:Hlen; [discriminate|].
  apply bool_decide_eq_false_1 in Hlen.
  destruct (cryptography.algorithms_AES key) as [k|] eqn:Hk; [|discriminate].
  rewrite rbind_Ok.
  destruct (cryptography.Cipher_CBC k (take 16 ciphertext)) as [ci|] eqn:Hci;
    [|discriminate].
  rewrite rbind_Ok.
  destruct (cipher_cbc_key _ _ _ _ Hk Hci) as (-> & Hkey & Hivl & ->).
  unfold cryptography.decryptor_update_finalize.
  destruct (bool_decide (length (drop 16 ciphertext) `mod` 16 ≠ 0)) eqn:Hmod;
    [discriminate|].
  apply bool_decide_eq_false_1 in Hmod.
  assert (Hm : length (drop 16 ciphertext) `mod` 16 = 0) by lia.
  rewrite rbind_Ok. cbn [cryptography.round_keys cryptography.iv].
  set (data := drop 16 ciphertext) in *.
  assert (Hdata : length data = (length data `div` 16) * 16).
  { pose proof (Nat.div_mod (length data) 16). lia. }
  destruct (chunks_blocks _ data Hdata) as [HF Hconcat].
  set (padded := cryptography.cbc_decrypt_blocks _ _ _).
  assert (Hpadded : length padded = length data).
  { unfold padded. rewrite cbc_decrypt_blocks_length by done.
    rewrite <- concat_blocks_length by done. by rewrite Hconcat. }
  unfold cryptography.unpadder_update. rewrite app_nil_l.
  set (n := (length padded `div` 16 - 1) * 16).
  destruct (cryptography.unpadder_finalize (drop n padded)) as [rest|] eqn:Hrest;
    [|discriminate].
  rewrite rbind_Ok. intros H.
  assert (Hp : plaintext = take n padded ++ rest)
    by (symmetry;
        exact (f_equal (fun r => match r with Ok a => a | Raise _ => plaintext end) H)).
  destruct (unpadder_finalize_pads _ _ Hrest) as (pad_size & Hps & Hrl & Hbuf).
  split; [done|]. split; [lia|].
  exists (chunks 16 data), (take n padded), rest, pad_size.
  split; [done|]. split; [done|].
  split; [fold padded; by rewrite <- Hbuf, take_drop|].
  split; [|done].
  assert (Hn : n ≤ length padded).
  { unfold n. pose proof (Nat.div_mod (length padded) 16). lia. }
  rewrite length_take, Nat.min_l by done. unfold n. apply Nat.Div0.mod_mul.
Qed.

(** What [decrypt_cbc] accepts is what [encrypt_cbc] produces: a
    ciphertext that decrypts to a plaintext is the encryption of that
    plaintext under the same key and its own first 16 bytes as IV.  So
    two different ciphertexts with the same IV never decrypt to the
    same plaintext. *)
Theorem encrypt_cbc_decrypt_cbc (urandom : nat → bytes) (ciphertext key plaintext : bytes) :
  AESCipher.decrypt_cbc ciphertext key = Ok plaintext →
  AESCipher.encrypt_cbc urandom plaintext key (Some (take 16 ciphertext)) = Ok ciphertext.
Proof.
  intros Hdec.
  destruct (decrypt_cbc_shape ciphertext key plaintext Hdec)
    as (Hkey & Hlen & blocks & out & rest & pad_size & HF & Hdata & Hpadded
        & Ho & Hp & Hr & ->).
  assert (Hiv : length (take 16 ciphertext) = 16) by (rewrite length_take; lia).
  rewrite encrypt_cbc_value by (by apply valid_key_cases || done).
  rewrite pkcs7_pad_unpadded with (pad_size := pad_size) by done.
  rewrite <- Hpadded, cbc_encrypt_decrypt_blocks, Hdata, take_drop by done. done.
Qed.

Lemma encrypt_cbc_decrypt_cbc_witness :
  AESCipher.encrypt_cbc (fun _ => []) (unhex "68656c6c6f20776f726c64")
    (unhex "000102030405060708090a0b0c0d0e0f") (Some (take 16 hello_ciphertext)) =
  Ok hello_ciphertext.
Proof.
  apply (encrypt_cbc_decrypt_cbc (fun _ => []) hello_ciphertext
           (unhex "000102030405060708090a0b0c0d0e0f") (unhex "68656c6c6f20776f726c64")).
  vm_compute. reflexivity.
Defined.



(** ** AES-CTR and AES-GCM *)

Lemma xor_bytes_length_le (a b : bytes) :
  length a ≤ length b → length (xor_bytes a b) = length a.
Proof.
  revert b. induction a as [|x a IH]; intros [|y b] H; simpl in *; try done; try lia.
  f_equal. apply IH. lia.
Qed.

Lemma xor_bytes_cancel_le (a b : bytes) :
  length a ≤ length b → xor_bytes (xor_bytes a b) b = a.
Proof.
  revert b. induction a as [|x a IH]; intros [|y b] H; simpl in *; try done; try lia.
  rewrite bxor_cancel_r. f_equal. apply IH. lia.
Qed.

Lemma xor_bytes_swap (a d b : bytes) :
  xor_bytes (xor_bytes a d) b = xor_bytes (xor_bytes a b) d.
Proof.
  revert d b. induction a as [|x a IH]; intros [|y d] [|z b]; simpl; try done.
  rewrite IH. f_equal.
  by rewrite !bxor_assoc, (bxor_comm y z).
Qed.

Lemma blocks_stream_length (f : nat → bytes) (l : list nat) :
  (∀ i, length (f i) = 16) → length (flat_map f l) = 16 * length l.
Proof.
  intros Hf. induction l as [|i l IH]; [done|].
  cbn [flat_map]. rewrite length_app, Hf, IH. simpl. lia.
Qed.

Lemma stream_covers (n : nat) : n ≤ 16 * (n `div` 16 + 1).
Proof. pose proof (Nat.div_mod n 16). pose proof (Nat.mod_upper_bound n 16). lia. Qed.

Lemma ctr_keystream_covers (ks : list AES.state) (nonce data : bytes) :
  length data ≤ length (cryptography.ctr_keystream ks nonce (length data `div` 16 + 1)).
Proof.
  unfold cryptography.ctr_keystream.
  rewrite blocks_stream_length by (intros; apply encrypt_block_length).
  rewrite length_seq. apply stream_covers.
Qed.

Lemma ctr_update_finalize_length (c : cryptography.Cipher) (data : bytes) :
  length (cryptography.ctr_update_finalize c data) = length data.
Proof. apply xor_bytes_length_le, ctr_keystream_covers. Qed.

Lemma ctr_update_finalize_twice (c : cryptography.Cipher) (data : bytes) :
  cryptography.ctr_update_finalize c (cryptography.ctr_update_finalize c data) = data.
Proof.
  unfold cryptography.ctr_update_finalize at 1.
  rewrite ctr_update_finalize_length.
  apply xor_bytes_cancel_le, ctr_keystream_covers.
Qed.

Lemma valid_key_ctr (key nonce : bytes) :
  length key ∈ [16; 24; 32] → length nonce = 16 →
  cryptography.algorithms_AES key = Ok key ∧
  cryptography.Cipher_CTR key nonce =
  Ok {| cryptography.round_keys := AES.key_expansion key; cryptography.iv := nonce |}.
Proof.
  intros Hk Hn. apply valid_key_cases in Hk.
  unfold cryptography.algorithms_AES, cryptography.Cipher_CTR.
  rewrite bool_decide_eq_true_2 by (rewrite !elem_of_cons; lia).
  rewrite bool_decide_eq_false_2 by lia.
  rewrite bool_decide_eq_false_2 by lia. done.
Qed.

Lemma decrypt_ctr_value (key nonce data : bytes) :
  length key ∈ [16; 24; 32] → length nonce = 16 →
  AESCipher.decrypt_ctr (nonce ++ data) key =
  Ok (cryptography.ctr_update_finalize
        {| cryptography.round_keys := AES.key_expansion key; cryptography.iv := nonce |}
        data).
Proof.
  intros Hk Hn. unfold AESCipher.decrypt_ctr.
  rewrite bool_decide_eq_false_2 by (rewrite length_app; lia).
  rewrite take_app_length', drop_app_length' by done.
  destruct (valid_key_ctr key nonce Hk Hn) as [HA HC].
  by rewrite ?rbind_Ok, HA, rbind_Ok, HC, rbind_Ok.
Qed.

Lemma encrypt_ctr_value (urandom : nat → bytes) (key nonce data : bytes) :
  length key ∈ [16; 24; 32] → length nonce = 16 →
  AESCipher.encrypt_ctr urandom data key (Some nonce) =
  Ok (nonce ++ cryptography.ctr_update_finalize
        {| cryptography.round_keys := AES.key_expansion key; cryptography.iv := nonce |}
        data).
Proof.
  intros Hk Hn. unfold AESCipher.encrypt_ctr.
  rewrite bool_decide_eq_false_2 by lia.
  destruct (valid_key_ctr key nonce Hk Hn) as [HA HC].
  by rewrite ?rbind_Ok, HA, rbind_Ok, HC, rbind_Ok.
Qed.

(** AES-CTR round-trips and adds no padding: for every plaintext, every
    key of 16, 24 or 32 bytes and every nonce of 16 bytes, [encrypt_ctr]
    returns the nonce followed by as many bytes as the plaintext has,
    and [decrypt_ctr] of that under the same key is the plaintext. *)
Theorem decrypt_ctr_encrypt_ctr (urandom : nat → bytes) (plaintext key nonce : bytes) :
  length key ∈ [16; 24; 32] →
  length nonce = 16 →
  ∃ c,
    AESCipher.encrypt_ctr urandom plaintext key (Some nonce) = Ok (nonce ++ c) ∧
    length c = length plaintext ∧
    AESCipher.decrypt_ctr (nonce ++ c) key = Ok plaintext.
Proof.
  intros Hk Hn. eexists. split; [by apply encrypt_ctr_value|].
  split; [apply ctr_update_finalize_length|].
  rewrite decrypt_ctr_value by done. by rewrite ctr_update_finalize_twice.
Qed.

Lemma decrypt_ctr_encrypt_ctr_witness :
  ∃ c,
    AESCipher.encrypt_ctr (fun _ => []) [x01; x02; x03] (replicate 16 x00)
      (Some (replicate 16 xff)) = Ok (replicate 16 xff ++ c) ∧
    length c = length [x01; x02; x03] ∧
    AESCipher.decrypt_ctr (replicate 16 xff ++ c) (replicate 16 x00) = Ok [x01; x02; x03].
Proof.
  apply (decrypt_ctr_encrypt_ctr (fun _ => []) [x01; x02; x03] (replicate 16 x00)
           (replicate 16 xff)).
  - apply valid_key_cases. by left.
  - reflexivity.
Defined.

(** [decrypt_ctr] has no integrity check: under a key of 16, 24 or 32
    bytes every input of at least 16 bytes is decrypted, and xoring the
    encrypted part with any bytes [delta] of the same length xors the
    plaintext with the same bytes. *)
Theorem decrypt_ctr_malleable (ciphertext key delta : bytes) :
  length key ∈ [16; 24; 32] →
  16 ≤ length ciphertext →
  length delta = length ciphertext - 16 →
  ∃ plaintext,
    AESCipher.decrypt_ctr ciphertext key = Ok plaintext ∧
    length plaintext = length ciphertext - 16 ∧
    AESCipher.decrypt_ctr (take 16 ciphertext ++ xor_bytes (drop 16 ciphertext) delta) key =
    Ok (xor_bytes plaintext delta).
Proof.
  intros Hk Hc Hd.
  assert (Hn : length (take 16 ciphertext) = 16) by (rewrite length_take; lia).
  replace (AESCipher.decrypt_ctr ciphertext key)
    with (AESCipher.decrypt_ctr (take 16 ciphertext ++ drop 16 ciphertext) key)
    by (by rewrite take_drop).
  rewrite !decrypt_ctr_value by done.
  eexists. split; [done|].
  split; [by rewrite ctr_update_finalize_length, length_drop|].
  f_equal. unfold cryptography.ctr_update_finalize.
  rewrite xor_bytes_length_le by (rewrite length_drop; lia).
  apply xor_bytes_swap.
Qed.

Lemma decrypt_ctr_malleable_witness :
  ∃ plaintext,
    AESCipher.decrypt_ctr (replicate 19 x00) (replicate 16 x00) = Ok plaintext ∧
    length plaintext = length (replicate 19 x00) - 16 ∧
    AESCipher.decrypt_ctr
      (take 16 (replicate 19 x00) ++ xor_bytes (drop 16 (replicate 19 x00)) [x01; x02; x03])
      (replicate 16 x00) = Ok (xor_bytes plaintext [x01; x02; x03]).
Proof.
  apply (decrypt_ctr_malleable (replicate 19 x00) (replicate 16 x00) [x01; x02; x03]).
  - apply valid_key_cases. by left.
  - vm_compute. lia.
  - reflexivity.
Defined.

(** *** GCM *)

Lemma gctr_covers (ks : list AES.state) (icb data : bytes) :
  length data ≤
  length (flat_map (fun i => AES.encrypt_block ks (cryptography.inc32 icb i))
            (seq 0 (length data `div` 16 + 1))).
Proof.
  rewrite blocks_stream_length by (intros; apply encrypt_block_length).
  rewrite length_seq. apply stream_covers.
Qed.

Lemma gctr_length (ks : list AES.state) (icb data : bytes) :
  length (cryptography.gctr ks icb data) = length data.
Proof. apply xor_bytes_length_le, gctr_covers. Qed.

Lemma gctr_twice (ks : list AES.state) (icb data : bytes) :
  cryptography.gctr ks icb (cryptography.gctr ks icb data) = data.
Proof.
  unfold cryptography.gctr at 1. rewrite gctr_length.
  apply xor_bytes_cancel_le, gctr_covers.
Qed.

Lemma gcm_tag_length (c : cryptography.GCM) (aad data : bytes) :
  length (cryptography.gcm_tag c aad data) = 16.
Proof.
  unfold cryptography.gcm_tag. cbv zeta.
  rewrite xor_bytes_length_le; rewrite be_bytes_length; [done|].
  by rewrite encrypt_block_length.
Qed.

Lemma valid_key_gcm (key iv : bytes) (tag : option bytes) :
  length key ∈ [16; 24; 32] → length iv ∈ [12; 16] →
  (∀ t, tag = Some t → 16 ≤ length t) →
  cryptography.algorithms_AES key = Ok key ∧
  cryptography.Cipher_GCM key iv tag = Ok (gcm_context key iv).
Proof.
  intros Hk Hiv Ht. apply valid_key_cases in Hk.
  rewrite !elem_of_cons, elem_of_nil in Hiv.
  unfold cryptography.algorithms_AES, cryptography.Cipher_GCM.
  rewrite bool_decide_eq_true_2 by (rewrite !elem_of_cons; lia).
  rewrite bool_decide_eq_false_2 by lia.
  replace (match tag with Some t => bool_decide (length t < 16) | None => false end)
    with false
    by (destruct tag as [t|]; [|done];
        specialize (Ht t eq_refl); by rewrite bool_decide_eq_false_2 by lia).
  rewrite bool_decide_eq_false_2 by lia. done.
Qed.

Lemma aad_check (aad : option bytes) :
  (N.of_nat (length (AESCipher.given_aad aad)) ≤ cryptography.MAX_AAD_BYTES)%N →
  (if bool_decide (AESCipher.given_aad aad = []) then Ok ()
   else cryptography.gcm_check_aad (AESCipher.given_aad aad)) = Ok ().
Proof.
  intros H. destruct (bool_decide _); [done|].
  unfold cryptography.gcm_check_aad. by rewrite bool_decide_eq_false_2 by lia.
Qed.

Lemma slice_at_length (iv data : bytes) :
  AESCipher.slice_to (Z.of_nat (length iv)) (iv ++ data) = iv ∧
  AESCipher.slice_from (Z.of_nat (length iv)) (iv ++ data) = data.
Proof.
  unfold AESCipher.slice_to, AESCipher.slice_from.
  rewrite bool_decide_eq_false_2 by lia. rewrite Nat2Z.id.
  by rewrite take_app_length, drop_app_length.
Qed.

Lemma encrypt_gcm_value (urandom : nat → bytes) (plaintext key iv : bytes)
    (aad : option bytes) :
  length key ∈ [16; 24; 32] → length iv ∈ [12; 16] →
  (N.of_nat (length plaintext) ≤ cryptography.MAX_ENCRYPTED_BYTES)%N →
  (N.of_nat (length (AESCipher.given_aad aad)) ≤ cryptography.MAX_AAD_BYTES)%N →
  let c := cryptography.gctr (AES.key_expansion key)
             (cryptography.inc32 (cryptography.gcm_J0 (gcm_context key iv)) 1) plaintext in
  AESCipher.encrypt_gcm urandom plaintext key (Some iv) aad =
  Ok (iv ++ c, cryptography.gcm_tag (gcm_context key iv) (AESCipher.given_aad aad) c).
Proof.
  intros Hk Hiv Hp Ha c. unfold AESCipher.encrypt_gcm.
  rewrite bool_decide_eq_false_2 by (by intros ?). rewrite rbind_Ok.
  destruct (valid_key_gcm key iv None Hk Hiv ltac:(discriminate)) as [HA HC].
  rewrite HA, rbind_Ok, HC, rbind_Ok, aad_check, rbind_Ok by done.
  unfold cryptography.gcm_update. rewrite bool_decide_eq_false_2 by lia.
  by rewrite rbind_Ok.
Qed.

Lemma decrypt_gcm_value (key iv data tag : bytes) (aad : option bytes) :
  length key ∈ [16; 24; 32] → length iv ∈ [12; 16] →
  (N.of_nat (length data) ≤ cryptography.MAX_ENCRYPTED_BYTES)%N →
  (N.of_nat (length (AESCipher.given_aad aad)) ≤ cryptography.MAX_AAD_BYTES)%N →
  length tag = 16 →
  AESCipher.decrypt_gcm (iv ++ data) key tag aad (Z.of_nat (length iv)) =
  if bool_decide (cryptography.gcm_tag (gcm_context key iv) (AESCipher.given_aad aad) data
                  = tag)
  then AESCipher.Plaintext
         (cryptography.gctr (AES.key_expansion key)
            (cryptography.inc32 (cryptography.gcm_J0 (gcm_context key iv)) 1) data)
  else AESCipher.Raises cryptography.InvalidTag.
Proof.
  intros Hk Hiv Hp Ha Ht. unfold AESCipher.decrypt_gcm.
  rewrite bool_decide_eq_false_2 by (rewrite length_app; lia).
  destruct (slice_at_length iv data) as [-> ->].
  assert (Htag : ∀ t, Some tag = Some t → 16 ≤ length t).
  { intros t Heq. assert (t = tag) as -> by congruence. lia. }
  destruct (valid_key_gcm key iv (Some tag) Hk Hiv Htag) as [HA HC].
  rewrite HA, rbind_Ok, HC. rewrite bool_decide_eq_false_2 by lia.
  rewrite aad_check, rbind_Ok by done.
  unfold cryptography.gcm_update. rewrite bool_decide_eq_false_2 by lia.
  reflexivity.
Qed.

(** AES-GCM round-trips: for a key of 16, 24 or 32 bytes, an IV of 12
    or 16 bytes, and a plaintext and additional data within the limits
    of the mode, [encrypt_gcm] returns the IV followed by as many bytes
    as the plaintext has, and a tag of 16 bytes; [decrypt_gcm] of these
    with the same additional data and the length of the IV returns the
    plaintext.  With any other tag it returns nothing: a tag of 16
    bytes that differs is answered with InvalidTag. *)
Theorem decrypt_gcm_encrypt_gcm (urandom : nat → bytes) (plaintext key iv : bytes)
    (aad : option bytes) :
  length key ∈ [16; 24; 32] →
  length iv ∈ [12; 16] →
  (N.of_nat (length plaintext) ≤ cryptography.MAX_ENCRYPTED_BYTES)%N →
  (N.of_nat (length (AESCipher.given_aad aad)) ≤ cryptography.MAX_AAD_BYTES)%N →
  ∃ c tag,
    AESCipher.encrypt_gcm urandom plaintext key (Some iv) aad = Ok (iv ++ c, tag) ∧
    length c = length plaintext ∧ length tag = 16 ∧
    AESCipher.decrypt_gcm (iv ++ c) key tag aad (Z.of_nat (length iv)) =
      AESCipher.Plaintext plaintext ∧
    ∀ tag', length tag' = 16 → tag' ≠ tag →
      AESCipher.decrypt_gcm (iv ++ c) key tag' aad (Z.of_nat (length iv)) =
      AESCipher.Raises cryptography.InvalidTag.
Proof.
  intros Hk Hiv Hp Ha.
  eexists _, _. split; [by apply encrypt_gcm_value|].
  split; [apply gctr_length|]. split; [apply gcm_tag_length|].
  split.
  - rewrite decrypt_gcm_value
      by (done || apply gcm_tag_length || by rewrite gctr_length).
    rewrite bool_decide_eq_true_2 by done. by rewrite gctr_twice.
  - intros tag' Hl Hne.
    rewrite decrypt_gcm_value by (done || by rewrite gctr_length).
    by rewrite bool_decide_eq_false_2 by (by intros ?).
Qed.

Lemma decrypt_gcm_encrypt_gcm_witness :
  ∃ c tag,
    AESCipher.encrypt_gcm (fun _ => []) [x01; x02; x03] (replicate 16 x00)
      (Some (replicate 12 x00)) None = Ok (replicate 12 x00 ++ c, tag) ∧
    length c = length [x01; x02; x03] ∧ length tag = 16 ∧
    AESCipher.decrypt_gcm (replicate 12 x00 ++ c) (replicate 16 x00) tag None
      (Z.of_nat (length (replicate 12 x00))) = AESCipher.Plaintext [x01; x02; x03] ∧
    ∀ tag', length tag' = 16 → tag' ≠ tag →
      AESCipher.decrypt_gcm (replicate 12 x00 ++ c) (replicate 16 x00) tag' None
        (Z.of_nat (length (replicate 12 x00))) = AESCipher.Raises cryptography.InvalidTag.
Proof.
  apply (decrypt_gcm_encrypt_gcm (fun _ => []) [x01; x02; x03] (replicate 16 x00)
           (replicate 12 x00) None).
  - apply valid_key_cases. by left.
  - rewrite !elem_of_cons. by left.
  - vm_compute. discriminate.
  - vm_compute. discriminate.
Defined.

